(** * Junior dashboard front-end: a shallow embedding and its properties

    The development follows the TypeScript sources of the front-end:
    - [lib/api.ts], the typed REST client ([ApiClient]);
    - [hooks/usePolling.ts], the fixed-interval polling hook;
    - [components/CommandForm.tsx], the task submission form ([TaskForm]);
    - [components/CommandsList.tsx], the task list ([TasksList]);
    - [components/CommandDetails.tsx], the task details panel ([TaskDetails]);
    - [app/page.tsx], the page that holds the three components ([Home]);
    - [contexts/GitHubAuthContext.tsx] and [components/GitHubAuth.tsx], the
      GitHub user and repositories;
    - [app/api/auth/[...nextauth]/route.ts], the callbacks of the sign-in.

    Conventions of the embedding:
    - a JavaScript string is a [string]; a character stands for a UTF-16 code
      unit below 256;
    - an optional or nullable field that the code only tests or passes on is
      an [option]; the fields that the code compares with [!==] keep [null]
      and a missing property apart ([Nullable]), and an object that the code
      serialises keeps its own properties in their order; a [number] that
      the code only passes on is a [Z], an HTTP status a [nat];
    - the state of a component is a record with one field per [useState], and
      one setter per field;
    - an asynchronous function is a program of a small free monad whose effects
      are the HTTP round-trip ([fetch] followed by [response.json()]) and the
      calls of callbacks and of the browser; logging to the console is left
      out;
    - a handler is a closure over the state of the render that created it;
      [run] takes it to its end against one backend, which is the schedule on
      which every answer arrives before anything else happens.  Two places
      follow handlers that wait side by side: the two calls that the GitHub
      context makes are kept apart, each with what it does once it has
      settled, and the silent poll of the panel is followed in the event loop
      ([EventLoop], [TaskDetailsLoop]), where the interval can fire while an
      earlier call still waits for its answer. *)

From Stdlib Require Import ZArith Ascii.
From stdpp Require Import base decidable option list strings pretty.


(** ** JavaScript strings *)

Module JS.

(** The two characters that cannot be written inside a literal. *)
Definition dquote : ascii := "034"%char.
Definition backslash : ascii := "092"%char.

(** Truthiness of a string: every string but the empty one. *)
Definition truthy (s : string) : bool := bool_decide (s ≠ EmptyString).

(** Truthiness of [string | undefined] and [string | null]. *)
Definition truthy_opt (o : option string) : bool :=
  match o with
  | Some s => truthy s
  | None => false
  end.

(** [o || d] for [o : string | undefined] and a string [d]. *)
Definition or_else (o : option string) (d : string) : string :=
  match o with
  | Some s => if truthy s then s else d
  | None => d
  end.

(** [s || undefined]. *)
Definition or_undefined (s : string) : option string :=
  if truthy s then Some s else None.

(** WhiteSpace and LineTerminator code units below 256: TAB, LF, VT, FF, CR,
    SP and NBSP. *)
Definition is_white_space (c : ascii) : bool :=
  match c with
  | "009" | "010" | "011" | "012" | "013" | " " | "160" => true
  | _ => false
  end%char.

Fixpoint trimStart (s : string) : string :=
  match s with
  | EmptyString => EmptyString
  | String c s' => if is_white_space c then trimStart s' else s
  end.

Fixpoint trimEnd (s : string) : string :=
  match s with
  | EmptyString => EmptyString
  | String c s' =>
      match trimEnd s' with
      | EmptyString => if is_white_space c then EmptyString else String c EmptyString
      | r => String c r
      end
  end.

(** [String.prototype.trim]. *)
Definition trim (s : string) : string := trimEnd (trimStart s).

(** Template-literal conversion of a non-negative integer. *)
Definition of_nat (n : nat) : string := pretty n.

(** [s.substring(start, end)]: the code units from the smaller index up to
    the larger one, both clamped to the length of [s]. *)
Definition substring (s : string) (start end_ : nat) : string :=
  String.substring (Nat.min start end_) (Nat.max start end_ - Nat.min start end_) s.

(** The line feed of a template literal that spans several lines. *)
Definition LF : string := String "010"%char EmptyString.

(** [s.split(sep)] for a separator that is not empty: the pieces between the
    occurrences of [sep], found from left to right.  [split_from] gives the
    first piece and the others; [skip] counts the code units of an occurrence
    that are still to be passed. *)
Fixpoint split_from (sep : string) (skip : nat) (s : string) : string * list string :=
  match s with
  | EmptyString => (EmptyString, [])
  | String c s' =>
      match skip with
      | S skip' => split_from sep skip' s'
      | O =>
          if String.prefix sep s then
            let '(piece, pieces) := split_from sep (String.length sep - 1) s' in
            (EmptyString, piece :: pieces)
          else
            let '(piece, pieces) := split_from sep 0 s' in
            (String c piece, pieces)
      end
  end.

Definition split (s sep : string) : list string :=
  let '(piece, pieces) := split_from sep 0 s in piece :: pieces.

(** [l.join(sep)] for an array of strings. *)
Fixpoint join (l : list string) (sep : string) : string :=
  match l with
  | [] => EmptyString
  | [x] => x
  | x :: l' => x +:+ sep +:+ join l' sep
  end.

(** [s.includes(sep)] *)
Fixpoint includes (s sep : string) : bool :=
  String.prefix sep s
  || match s with
     | EmptyString => false
     | String _ s' => includes s' sep
     end.

(** [s.toLowerCase()] on code units below 256: the letters A to Z and the
    capital letters of Latin-1. *)
Definition toLowerCase_char (c : ascii) : ascii :=
  let n := N_of_ascii c in
  if ((65 <=? n) && (n <=? 90))%N then ascii_of_N (n + 32)
  else if ((192 <=? n) && (n <=? 222) && negb (n =? 215))%N then ascii_of_N (n + 32)
  else c.

Fixpoint toLowerCase (s : string) : string :=
  match s with
  | EmptyString => EmptyString
  | String c s' => String (toLowerCase_char c) (toLowerCase s')
  end.

(** [s.replace(/\n/g, by)] *)
Fixpoint replace_line_feeds (s by_ : string) : string :=
  match s with
  | EmptyString => EmptyString
  | String c s' =>
      (if Ascii.eqb c "010" then by_ else String c EmptyString)
      +:+ replace_line_feeds s' by_
  end.

End JS.

(** ** JSON.stringify *)

Module JSON.

Import JS.

(** The lower-case hexadecimal digit of a number below 16. *)
Definition hex_digit (n : N) : ascii :=
  if (n <? 10)%N then ascii_of_N (48 + n) else ascii_of_N (87 + n).

(** QuoteJSONString, one code unit: the short escapes, a [\u00XX] escape for
    the other control characters, and the character itself otherwise. *)
Definition escape_char (c : ascii) : string :=
  let n := N_of_ascii c in
  if (n =? 8)%N then String backslash "b"
  else if (n =? 9)%N then String backslash "t"
  else if (n =? 10)%N then String backslash "n"
  else if (n =? 12)%N then String backslash "f"
  else if (n =? 13)%N then String backslash "r"
  else if (n =? 34)%N then String backslash (String dquote EmptyString)
  else if (n =? 92)%N then String backslash (String backslash EmptyString)
  else if (n <? 32)%N then
    String backslash
      ("u00" +:+ String (hex_digit (n / 16)) (String (hex_digit (n mod 16)) EmptyString))
  else String c EmptyString.

Fixpoint escape (s : string) : string :=
  match s with
  | EmptyString => EmptyString
  | String c s' => escape_char c +:+ escape s'
  end.

(** [JSON.stringify(s)] for a string [s]. *)
Definition quote (s : string) : string :=
  String dquote (escape s +:+ String dquote EmptyString).

(** Joining serialised members with commas. *)
Fixpoint join (l : list string) : string :=
  match l with
  | [] => EmptyString
  | [x] => x
  | x :: l' => x +:+ "," +:+ join l'
  end.

Definition member (kv : string * string) : string :=
  quote kv.1 +:+ ":" +:+ kv.2.

(** An object whose properties are given in insertion order, each with its
    serialised value; a property whose value is [undefined] is left out. *)
Definition object (props : list (string * option string)) : string :=
  "{" +:+ join (member <$> omap (λ kv, pair kv.1 <$> kv.2) props) +:+ "}".

Definition array (elems : list string) : string :=
  "[" +:+ join elems +:+ "]".

(** *** The quoting is injective

    [unquote] reads back a quoted string and returns what follows it; it is
    the inverse used to show that two serialisations are equal only when the
    serialised values are. *)

Definition unhex (c : ascii) : option N :=
  let n := N_of_ascii c in
  if ((48 <=? n) && (n <=? 57))%N then Some (n - 48)%N
  else if ((97 <=? n) && (n <=? 102))%N then Some (n - 87)%N
  else None.

Definition short_escape (e : ascii) : option ascii :=
  if Ascii.eqb e "b" then Some "008"%char
  else if Ascii.eqb e "t" then Some "009"%char
  else if Ascii.eqb e "n" then Some "010"%char
  else if Ascii.eqb e "f" then Some "012"%char
  else if Ascii.eqb e "r" then Some "013"%char
  else if Ascii.eqb e dquote then Some dquote
  else if Ascii.eqb e backslash then Some backslash
  else None.

Definition push (c : ascii) (o : option (string * string)) : option (string * string) :=
  match o with
  | Some (d, r) => Some (String c d, r)
  | None => None
  end.

Fixpoint unescape (s : string) : option (string * string) :=
  match s with
  | EmptyString => None
  | String c s1 =>
      if Ascii.eqb c dquote then Some (EmptyString, s1)
      else if Ascii.eqb c backslash then
        match s1 with
        | String e s2 =>
            if Ascii.eqb e "u" then
              match s2 with
              | String "0" (String "0" (String h (String l s3))) =>
                  match unhex h, unhex l with
                  | Some x, Some y => push (ascii_of_N (16 * x + y)%N) (unescape s3)
                  | _, _ => None
                  end
              | _ => None
              end
            else
              match short_escape e with
              | Some c' => push c' (unescape s2)
              | None => None
              end
        | EmptyString => None
        end
      else push c (unescape s1)
  end.

Definition unquote (s : string) : option (string * string) :=
  match s with
  | String c s' => if Ascii.eqb c dquote then unescape s' else None
  | EmptyString => None
  end.

End JSON.

(** ** The data model of [lib/api.ts] *)

(** [number] values are only passed through; they are modelled by [Z]. *)

Module Status.
Inductive t := running | completed | failed.
Global Instance eq_dec : EqDecision t.
Proof. solve_decision. Defined.
End Status.

(** A property that the code compares with [!==]: a value, [null], or no
    property at all ([undefined]).  The comparison keeps the three apart. *)
Inductive Nullable (A : Type) :=
| Undefined
| Null
| Value (a : A).
Arguments Undefined {A}.
Arguments Null {A}.
Arguments Value {A} a.

Global Instance Nullable_eq_dec {A : Type} `{EqDecision A} : EqDecision (Nullable A).
Proof. solve_decision. Defined.


(** An entry of the feedback history, as [response.json()] made it: its own
    properties in the order in which [JSON.stringify] and [Object.keys] visit
    them, each with its string.  The declared type names two of them. *)
Module FeedbackHistoryItem.
Record t := mk { properties : list (string * string) }.
Global Instance eq_dec : EqDecision t.
Proof. solve_decision. Defined.

Fixpoint property (key : string) (props : list (string * string)) : option string :=
  match props with
  | [] => None
  | (k, v) :: rest => if bool_decide (k = key) then Some v else property key rest
  end.

(** [item.feedback] and [item.timestamp] *)
Definition feedback (item : t) : option string := property "feedback" (properties item).
End FeedbackHistoryItem.

Module Task.
Record t := mk {
  id : string;
  task : string;
  status : Status.t;
  start_time : string;
  end_time : Nullable string;
  output : Nullable string;
  error : Nullable string;
  return_code : option Z;
  temp_dir : option string;
  session_id : option string;
  original_task : option string;
  feedback_history : Nullable (list FeedbackHistoryItem.t)
}.
Global Instance eq_dec : EqDecision t.
Proof. solve_decision. Defined.
End Task.

Module TaskListResponse.
Record t := mk { tasks : list Task.t; total : Z }.
End TaskListResponse.

Module ExecuteTaskResponse.
Record t := mk { task_id : string; message : string }.
End ExecuteTaskResponse.

Module TaskFile.
Record t := mk {
  path : string; name : string; type : string; content : string; size : Z
}.
End TaskFile.

Module ContentType.
Inductive t := files | diff.
Global Instance eq_dec : EqDecision t.
Proof. solve_decision. Defined.
End ContentType.

(** [TaskFile[] | string | null] *)
Inductive Content :=
| ContentFiles (fs : list TaskFile.t)
| ContentString (s : string)
| ContentNull.

Module TaskContentResponse.
Record t := mk {
  task_id : string;
  is_git_repo : bool;
  content_type : ContentType.t;
  content : Content;
  count : option Z
}.
End TaskContentResponse.

Module DeleteTaskResponse.
Record t := mk { message : string; task_id : string }.
End DeleteTaskResponse.

Module CreatePRRequest.
Record t := mk {
  github_token : string;
  pr_title : option string;
  pr_body : option string
}.
End CreatePRRequest.

Module CreatePRResponse.
Record t := mk {
  success : bool;
  pr_url : option string;
  pr_number : option Z;
  branch_name : option string;
  message : option string;
  error : option string
}.
End CreatePRResponse.

Module FeedbackRequest.
Record t := mk { feedback : string }.
End FeedbackRequest.

Module FeedbackResponse.
Record t := mk {
  success : bool;
  feedback_task_id : string;
  message : string;
  error : option string
}.
End FeedbackResponse.

(** The bodies of [GET /running] and [GET /completed], read field by field in
    [listRunningTasks] and [listCompletedTasks]. *)
Module RunningData.
Record t := mk { running_tasks : list Task.t; count : Z }.
End RunningData.

Module CompletedData.
Record t := mk { completed_tasks : list Task.t; count : Z }.
End CompletedData.

(** ** HTTP round-trips and asynchronous programs *)

Inductive Method := GET | POST | DELETE.

Global Instance Method_eq_dec : EqDecision Method.
Proof. solve_decision. Defined.

Module Request.
Record t := mk {
  method : Method;
  url : string;
  headers : list (string * string);
  body : option string
}.
Global Instance eq_dec : EqDecision t.
Proof. solve_decision. Defined.
End Request.

(** A thrown value: an [Error] object with its message, or anything else. *)
Inductive Thrown :=
| ErrorObject (message : string)
| OtherValue.

(** [err instanceof Error ? err.message : fallback] *)
Definition message_or (err : Thrown) (fallback : string) : string :=
  match err with
  | ErrorObject m => m
  | OtherValue => fallback
  end.

Inductive Result (A : Type) :=
| Ok (a : A)
| Throw (err : Thrown).
Arguments Ok {A} a.
Arguments Throw {A} err.

(** What [response.json()] resolves to, typed as the caller expects it, or the
    message of the [SyntaxError] it rejects with. *)
Inductive JsonResult (X : Type) :=
| Parsed (x : X)
| Unparseable (message : string).
Arguments Parsed {X} x.
Arguments Unparseable {X} message.

Module Response.
Record t (X : Type) := mk { ok : bool; status : nat; json : JsonResult X }.
Arguments mk {X} ok status json.
Arguments ok {X} _.
Arguments status {X} _.
Arguments json {X} _.
End Response.

(** What [fetch] settles to: a response, or a rejection (network failure). *)
Inductive FetchResult (X : Type) :=
| Responded (r : Response.t X)
| Rejected (message : string).
Arguments Responded {X} r.
Arguments Rejected {X} message.

(** The type a caller gives to the parsed body, one code per endpoint. *)
Inductive BodyTy : Type → Type :=
| TExecute : BodyTy ExecuteTaskResponse.t
| TStatus : BodyTy Task.t
| TTasks : BodyTy TaskListResponse.t
| TRunning : BodyTy RunningData.t
| TCompleted : BodyTy CompletedData.t
| TContent : BodyTy TaskContentResponse.t
| TDelete : BodyTy DeleteTaskResponse.t
| TCreatePR : BodyTy CreatePRResponse.t
| TFeedback : BodyTy FeedbackResponse.t.

(** What a handler does to its surroundings besides HTTP: the calls of the
    callbacks it was given and of the browser. *)
Inductive Output :=
| PreventDefault
| OnTaskSubmitted (taskId : string)
| OnTaskDeleted (taskId : string)
| OnClose
| WindowOpen (url target : string)
| Alert (message : string).

Inductive Event :=
| Sent (req : Request.t)
| Out (o : Output).

(** Programs that perform HTTP round-trips and calls. *)
Inductive Prog (A : Type) : Type :=
| Ret (a : A)
| Fetch {X : Type} (ty : BodyTy X) (req : Request.t) (k : FetchResult X → Prog A)
| Emit (o : Output) (k : Prog A).
Arguments Ret {A} a.
Arguments Fetch {A X} ty req k.
Arguments Emit {A} o k.

Fixpoint bind {A B : Type} (p : Prog A) (f : A → Prog B) : Prog B :=
  match p with
  | Ret a => f a
  | Fetch ty req k => Fetch ty req (λ r, bind (k r) f)
  | Emit o k => Emit o (bind k f)
  end.

Notation "'do' x '<-' p ';' k" := (bind p (λ x, k))
  (at level 10, x binder, p at level 200, k at level 200,
   format "'[v' 'do'  x  '<-'  p ';' '/' k ']'").

(** An [async] function: a program that returns or throws. *)
Definition Async (A : Type) : Type := Prog (Result A).

Definition resolve {A : Type} (a : A) : Async A := Ret (Ok a).
Definition throw {A : Type} (err : Thrown) : Async A := Ret (Throw err).

(** [await p] followed by [f]; a rejection of [p] propagates. *)
Definition await {A B : Type} (p : Async A) (f : A → Async B) : Async B :=
  bind p (λ r, match r with Ok a => f a | Throw err => throw err end).

Notation "'let*' x ':=' p 'in' k" := (await p (λ x, k))
  (at level 10, x binder, p at level 200, k at level 200,
   format "'[v' 'let*'  x  ':='  p  'in' '/' k ']'").

(** The backend as seen during one handler: the answer to each request. *)
Definition Server : Type := ∀ X : Type, BodyTy X → Request.t → FetchResult X.

(** Running a program against a server: its result, and the requests sent and
    calls made, in order. *)
Fixpoint run {A : Type} (srv : Server) (p : Prog A) : A * list Event :=
  match p with
  | Ret a => (a, [])
  | Fetch ty req k =>
      let '(a, evs) := run srv (k (srv _ ty req)) in (a, Sent req :: evs)
  | Emit o k =>
      let '(a, evs) := run srv k in (a, Out o :: evs)
  end.

(** ** Handlers in the event loop

    An asynchronous handler runs without interruption up to the [await] of a
    round trip, where it gives way: until the answer arrives, a timer can fire
    and other handlers can start or go on.  A job is a handler written with
    its state updates, each made on the state of the component at the moment
    of the update, whatever the render that made the handler. *)

Module EventLoop.

Section Jobs.

Context {St : Type}.

Inductive Job : Type :=
| Finished
| Update (f : St → St) (k : Job)
| Await {X : Type} (ty : BodyTy X) (req : Request.t) (k : FetchResult X → Job)
| Call (o : Output) (k : Job).

(** [await p] for a method [p] of the client, followed by [k]. *)
Fixpoint awaiting {A : Type} (p : Prog A) (k : A → Job) : Job :=
  match p with
  | Ret a => k a
  | Fetch ty req k' => Await ty req (λ r, awaiting (k' r) k)
  | Emit o k' => Call o (awaiting k' k)
  end.

(** [if (cond) { set(...) }] *)
Definition update_if (cond : bool) (f : St → St) (k : Job) : Job :=
  if cond then Update f k else k.

(** A request that was sent, and what its handler does with the answer. *)
Record Pending := mkPending {
  body : Type;
  ty : BodyTy body;
  request : Request.t;
  resume : FetchResult body → Job
}.

(** The job runs until it awaits an answer or ends: the state that it leaves,
    what it sent and called, and the request that it waits for. *)
Fixpoint advance (j : Job) (st : St) : St * list Event * option Pending :=
  match j with
  | Finished => (st, [], None)
  | Update f k => advance k (f st)
  | Await ty req k => (st, [Sent req], Some (mkPending _ ty req k))
  | Call o k =>
      let '(st', evs, w) := advance k st in (st', Out o :: evs, w)
  end.

(** The component in the event loop: its state, and the requests of its
    handlers that wait for an answer, in the order in which they were sent. *)
Record Loop := mkLoop { live : St; pending : list Pending }.

Definition resting (st : St) : Loop := mkLoop st [].

(** A handler is called. *)
Definition start (j : Job) (l : Loop) : Loop * list Event :=
  let '(st, evs, w) := advance j (live l) in
  (mkLoop st (pending l ++ option_list w), evs).

(** The request at position [i] is answered by the backend [srv], and its
    handler goes on. *)
Definition answer (i : nat) (srv : Server) (l : Loop) : Loop * list Event :=
  match pending l !! i with
  | Some w =>
      let '(st, evs, w') :=
        advance (resume w (srv _ (ty w) (request w))) (live l) in
      (mkLoop st (delete i (pending l) ++ option_list w'), evs)
  | None => (l, [])
  end.

(** The job when every answer arrives at once: nothing else happens before
    it ends. *)
Fixpoint atomic (srv : Server) (j : Job) (st : St) : St * list Event :=
  match j with
  | Finished => (st, [])
  | Update f k => atomic srv k (f st)
  | Await ty req k =>
      let '(st', evs) := atomic srv (k (srv _ ty req)) st in (st', Sent req :: evs)
  | Call o k =>
      let '(st', evs) := atomic srv k st in (st', Out o :: evs)
  end.

End Jobs.

Arguments Job : clear implicits.
Arguments Pending : clear implicits.
Arguments Loop : clear implicits.

End EventLoop.

(** ** The API client ([lib/api.ts]) *)

Definition API_BASE_URL (NEXT_PUBLIC_API_URL : option string) : string :=
  JS.or_else NEXT_PUBLIC_API_URL "http://localhost:8080".

Module ApiClient.

Import JS.

Record t := mk { baseUrl : string }.

Definition fetch {X : Type} (ty : BodyTy X) (req : Request.t) : Async (Response.t X) :=
  Fetch ty req (λ r,
    match r with
    | Responded resp => resolve resp
    | Rejected m => throw (ErrorObject m)
    end).

Definition json {X : Type} (response : Response.t X) : Async X :=
  match Response.json response with
  | Parsed x => resolve x
  | Unparseable m => throw (ErrorObject m)
  end.

Definition http_error {X : Type} (response : Response.t X) : string :=
  "HTTP error! status: " +:+ of_nat (Response.status response).

Definition json_headers : list (string * string) :=
  [("Content-Type", "application/json")].

Definition get (url : string) : Request.t :=
  Request.mk GET url [] None.

Section Methods.

Variable this : t.

Definition executeTask (task : string) (repository : option string)
  : Async ExecuteTaskResponse.t :=
  let* response := fetch TExecute
    (Request.mk POST (baseUrl this +:+ "/execute") json_headers
       (Some (if truthy_opt repository
              then JSON.object [("task", Some (JSON.quote task));
                                ("repository", JSON.quote <$> repository)]
              else JSON.object [("task", Some (JSON.quote task))]))) in
  if negb (Response.ok response) then throw (ErrorObject (http_error response))
  else json response.

Definition getTaskStatus (taskId : string) : Async Task.t :=
  let* response := fetch TStatus (get (baseUrl this +:+ "/status/" +:+ taskId)) in
  if negb (Response.ok response) then throw (ErrorObject (http_error response))
  else json response.

Definition listAllTasks : Async TaskListResponse.t :=
  let* response := fetch TTasks (get (baseUrl this +:+ "/tasks")) in
  if negb (Response.ok response) then throw (ErrorObject (http_error response))
  else json response.

Definition listRunningTasks : Async TaskListResponse.t :=
  let* response := fetch TRunning (get (baseUrl this +:+ "/running")) in
  if negb (Response.ok response) then throw (ErrorObject (http_error response))
  else
    let* data := json response in
    resolve (TaskListResponse.mk (RunningData.running_tasks data) (RunningData.count data)).

Definition listCompletedTasks : Async TaskListResponse.t :=
  let* response := fetch TCompleted (get (baseUrl this +:+ "/completed")) in
  if negb (Response.ok response) then throw (ErrorObject (http_error response))
  else
    let* data := json response in
    resolve (TaskListResponse.mk (CompletedData.completed_tasks data) (CompletedData.count data)).

Definition getTaskContent (taskId : string) : Async TaskContentResponse.t :=
  let* response := fetch TContent (get (baseUrl this +:+ "/content/" +:+ taskId)) in
  if negb (Response.ok response) then throw (ErrorObject (http_error response))
  else json response.

Definition deleteTask (taskId : string) : Async DeleteTaskResponse.t :=
  let* response := fetch TDelete
    (Request.mk DELETE (baseUrl this +:+ "/delete/" +:+ taskId) [] None) in
  if negb (Response.ok response) then throw (ErrorObject (http_error response))
  else json response.

Definition stringify_pr_request (request : CreatePRRequest.t) : string :=
  JSON.object [("github_token", Some (JSON.quote (CreatePRRequest.github_token request)));
               ("pr_title", JSON.quote <$> CreatePRRequest.pr_title request);
               ("pr_body", JSON.quote <$> CreatePRRequest.pr_body request)].

Definition createPullRequest (taskId : string) (request : CreatePRRequest.t)
  : Async CreatePRResponse.t :=
  let* response := fetch TCreatePR
    (Request.mk POST (baseUrl this +:+ "/create-pr/" +:+ taskId) json_headers
       (Some (stringify_pr_request request))) in
  if negb (Response.ok response) then
    let* errorData := json response in
    throw (ErrorObject (or_else (CreatePRResponse.error errorData) (http_error response)))
  else json response.

Definition stringify_feedback_request (request : FeedbackRequest.t) : string :=
  JSON.object [("feedback", Some (JSON.quote (FeedbackRequest.feedback request)))].

Definition sendFeedback (taskId : string) (request : FeedbackRequest.t)
  : Async FeedbackResponse.t :=
  let* response := fetch TFeedback
    (Request.mk POST (baseUrl this +:+ "/feedback/" +:+ taskId) json_headers
       (Some (stringify_feedback_request request))) in
  if negb (Response.ok response) then
    let* errorData := json response in
    throw (ErrorObject (or_else (FeedbackResponse.error errorData) (http_error response)))
  else json response.

End Methods.

End ApiClient.

(** [export const apiClient = new ApiClient()] *)
Definition apiClient (NEXT_PUBLIC_API_URL : option string) : ApiClient.t :=
  ApiClient.mk (API_BASE_URL NEXT_PUBLIC_API_URL).

(** ** The session and the GitHub context *)

(** [useSession().data]: the session carries the OAuth access token. *)
Module Session.
Record t := mk { accessToken : option string }.
End Session.

Module GitHubUser.
Record t := mk {
  login : string; name : string; avatar_url : string; email : option string
}.
End GitHubUser.

Module GitHubRepo.
Record t := mk {
  id : Z;
  name : string;
  full_name : string;
  description : option string;
  private : bool;
  html_url : string;
  language : option string;
  updated_at : string
}.
End GitHubRepo.

(** ** The task submission form ([components/CommandForm.tsx]) *)

Module TaskForm.

Import JS.

Record State := mkState {
  task : string;
  selectedRepo : string;
  isSubmitting : bool;
  error : option string;
  success : option string
}.

Definition setTask (v : string) (st : State) : State :=
  mkState v (selectedRepo st) (isSubmitting st) (error st) (success st).
Definition setSelectedRepo (v : string) (st : State) : State :=
  mkState (task st) v (isSubmitting st) (error st) (success st).
Definition setIsSubmitting (v : bool) (st : State) : State :=
  mkState (task st) (selectedRepo st) v (error st) (success st).
Definition setError (v : option string) (st : State) : State :=
  mkState (task st) (selectedRepo st) (isSubmitting st) v (success st).
Definition setSuccess (v : option string) (st : State) : State :=
  mkState (task st) (selectedRepo st) (isSubmitting st) (error st) v.

Definition initial : State := mkState EmptyString EmptyString false None None.

Section Component.

Variable apiClient : ApiClient.t.
(** Whether the optional [onTaskSubmitted] prop is given. *)
Variable onTaskSubmitted : bool.

Definition handleSubmit (c : State) : Prog State :=
  Emit PreventDefault
    (if negb (truthy (trim (task c))) || negb (truthy (selectedRepo c)) then Ret c
     else
       let st := setSuccess None (setError None (setIsSubmitting true c)) in
       do r <- ApiClient.executeTask apiClient (trim (task c)) (Some (selectedRepo c));
       do st <- match r with
                | Ok response =>
                    let st :=
                      setSuccess
                        (Some ("Task submitted successfully! ID: " +:+
                               ExecuteTaskResponse.task_id response)) st in
                    let st := setTask EmptyString st in
                    if onTaskSubmitted
                    then Emit (OnTaskSubmitted (ExecuteTaskResponse.task_id response)) (Ret st)
                    else Ret st
                | Throw err =>
                    Ret (setError (Some (message_or err "Failed to execute task")) st)
                end;
       Ret (setIsSubmitting false st)).

(** The [disabled] attribute of the submit button. *)
Definition submit_disabled (user : option GitHubUser.t) (c : State) : bool :=
  isSubmitting c || negb (truthy (trim (task c))) || negb (truthy (selectedRepo c))
  || negb (bool_decide (is_Some user)).

End Component.

(** The text of the submit button. *)
Definition submit_label (user : option GitHubUser.t) (c : State) : string :=
  if isSubmitting c then "Processing..."
  else if negb (bool_decide (is_Some user)) then "Connect GitHub to Submit"
  else if negb (truthy (selectedRepo c)) then "Select Repository to Submit"
  else "Submit Task".

(** The last part of the text of a repository option: the description, cut
    after 60 code units. *)
Definition description_label (description : option string) : string :=
  match description with
  | Some description =>
      if truthy description
      then " - " +:+ substring description 0 60 +:+
           (if (60 <? String.length description)%nat then "..." else EmptyString)
      else EmptyString
  | None => EmptyString
  end.

(** The text of a repository option. *)
Definition option_label (repo : GitHubRepo.t) : string :=
  GitHubRepo.full_name repo +:+ " " +:+
  (if GitHubRepo.private repo then "(Private)" else EmptyString) +:+
  description_label (GitHubRepo.description repo).

(** What stands under Select Repository: the select with its options, each
    with its value and text, or a notice. *)
Inductive RepoField :=
| Select (options : list (string * string)) (disabled : bool)
| Notice (text : string).

Definition repo_field (user : option GitHubUser.t) (repos : list GitHubRepo.t)
    (isLoading : bool) (c : State) : RepoField :=
  if bool_decide (is_Some user) && (0 <? length repos)%nat then
    Select
      ((EmptyString, "Choose a repository...") ::
       map (λ repo, (GitHubRepo.full_name repo, option_label repo)) repos)
      (isSubmitting c || isLoading)
  else
    Notice
      (if negb (bool_decide (is_Some user))
       then "Please connect your GitHub account to select a repository."
       else if isLoading then "Loading repositories..."
       else "No repositories found. Please make sure you have access to at least one repository.").

End TaskForm.

(** ** The task list ([components/CommandsList.tsx]) *)

Module TasksList.

Inductive FilterType := all | running | completed.

Record State := mkState {
  tasks : list Task.t;
  loading : bool;
  error : option string;
  filter : FilterType
}.

Definition setTasks (v : list Task.t) (st : State) : State :=
  mkState v (loading st) (error st) (filter st).
Definition setLoading (v : bool) (st : State) : State :=
  mkState (tasks st) v (error st) (filter st).
Definition setError (v : option string) (st : State) : State :=
  mkState (tasks st) (loading st) v (filter st).
Definition setFilter (v : FilterType) (st : State) : State :=
  mkState (tasks st) (loading st) (error st) v.

Definition initial : State := mkState [] true None all.

Section Component.

Variable apiClient : ApiClient.t.

Definition fetchTasks (c : State) : Prog State :=
  let st := setError None c in
  do r <- match filter c with
          | running => ApiClient.listRunningTasks apiClient
          | completed => ApiClient.listCompletedTasks apiClient
          | all => ApiClient.listAllTasks apiClient
          end;
  let st := match r with
            | Ok response => setTasks (TaskListResponse.tasks response) st
            | Throw err => setError (Some (message_or err "Failed to fetch tasks")) st
            end in
  Ret (setLoading false st).

(** The arguments given to [usePolling]. *)
Definition polling_interval : nat := 2000.
Definition polling_enabled (c : State) : bool :=
  existsb (λ task, bool_decide (Task.status task = Status.running)) (tasks c).

End Component.

End TasksList.

(** ** The task details panel ([components/CommandDetails.tsx]) *)

Module TaskDetails.

Import JS.

Record State := mkState {
  currentTask : option Task.t;
  taskContent : option TaskContentResponse.t;
  loading : bool;
  filesLoading : bool;
  error : option string;
  isMounted : bool;
  deleting : bool;
  showDeleteConfirm : bool;
  showPRModal : bool;
  creatingPR : bool;
  prTitle : string;
  prBody : string;
  showFeedbackModal : bool;
  feedback : string;
  sendingFeedback : bool;
  showFeedbackSuccess : bool;
  feedbackTaskId : option string
}.

Definition setCurrentTask (v : option Task.t) (st : State) : State :=
  mkState v (taskContent st) (loading st) (filesLoading st) (error st) (isMounted st)
    (deleting st) (showDeleteConfirm st) (showPRModal st) (creatingPR st) (prTitle st)
    (prBody st) (showFeedbackModal st) (feedback st) (sendingFeedback st)
    (showFeedbackSuccess st) (feedbackTaskId st).
Definition setTaskContent (v : option TaskContentResponse.t) (st : State) : State :=
  mkState (currentTask st) v (loading st) (filesLoading st) (error st) (isMounted st)
    (deleting st) (showDeleteConfirm st) (showPRModal st) (creatingPR st) (prTitle st)
    (prBody st) (showFeedbackModal st) (feedback st) (sendingFeedback st)
    (showFeedbackSuccess st) (feedbackTaskId st).
Definition setLoading (v : bool) (st : State) : State :=
  mkState (currentTask st) (taskContent st) v (filesLoading st) (error st)
    (isMounted st) (deleting st) (showDeleteConfirm st) (showPRModal st)
    (creatingPR st) (prTitle st) (prBody st) (showFeedbackModal st) (feedback st)
    (sendingFeedback st) (showFeedbackSuccess st) (feedbackTaskId st).
Definition setFilesLoading (v : bool) (st : State) : State :=
  mkState (currentTask st) (taskContent st) (loading st) v (error st) (isMounted st)
    (deleting st) (showDeleteConfirm st) (showPRModal st) (creatingPR st) (prTitle st)
    (prBody st) (showFeedbackModal st) (feedback st) (sendingFeedback st)
    (showFeedbackSuccess st) (feedbackTaskId st).
Definition setError (v : option string) (st : State) : State :=
  mkState (currentTask st) (taskContent st) (loading st) (filesLoading st) v
    (isMounted st) (deleting st) (showDeleteConfirm st) (showPRModal st)
    (creatingPR st) (prTitle st) (prBody st) (showFeedbackModal st) (feedback st)
    (sendingFeedback st) (showFeedbackSuccess st) (feedbackTaskId st).
Definition setIsMounted (v : bool) (st : State) : State :=
  mkState (currentTask st) (taskContent st) (loading st) (filesLoading st) (error st) v
    (deleting st) (showDeleteConfirm st) (showPRModal st) (creatingPR st) (prTitle st)
    (prBody st) (showFeedbackModal st) (feedback st) (sendingFeedback st)
    (showFeedbackSuccess st) (feedbackTaskId st).
Definition setDeleting (v : bool) (st : State) : State :=
  mkState (currentTask st) (taskContent st) (loading st) (filesLoading st) (error st)
    (isMounted st) v (showDeleteConfirm st) (showPRModal st) (creatingPR st)
    (prTitle st) (prBody st) (showFeedbackModal st) (feedback st) (sendingFeedback st)
    (showFeedbackSuccess st) (feedbackTaskId st).
Definition setShowDeleteConfirm (v : bool) (st : State) : State :=
  mkState (currentTask st) (taskContent st) (loading st) (filesLoading st) (error st)
    (isMounted st) (deleting st) v (showPRModal st) (creatingPR st) (prTitle st)
    (prBody st) (showFeedbackModal st) (feedback st) (sendingFeedback st)
    (showFeedbackSuccess st) (feedbackTaskId st).
Definition setShowPRModal (v : bool) (st : State) : State :=
  mkState (currentTask st) (taskContent st) (loading st) (filesLoading st) (error st)
    (isMounted st) (deleting st) (showDeleteConfirm st) v (creatingPR st) (prTitle st)
    (prBody st) (showFeedbackModal st) (feedback st) (sendingFeedback st)
    (showFeedbackSuccess st) (feedbackTaskId st).
Definition setCreatingPR (v : bool) (st : State) : State :=
  mkState (currentTask st) (taskContent st) (loading st) (filesLoading st) (error st)
    (isMounted st) (deleting st) (showDeleteConfirm st) (showPRModal st) v (prTitle st)
    (prBody st) (showFeedbackModal st) (feedback st) (sendingFeedback st)
    (showFeedbackSuccess st) (feedbackTaskId st).
Definition setPrTitle (v : string) (st : State) : State :=
  mkState (currentTask st) (taskContent st) (loading st) (filesLoading st) (error st)
    (isMounted st) (deleting st) (showDeleteConfirm st) (showPRModal st)
    (creatingPR st) v (prBody st) (showFeedbackModal st) (feedback st)
    (sendingFeedback st) (showFeedbackSuccess st) (feedbackTaskId st).
Definition setPrBody (v : string) (st : State) : State :=
  mkState (currentTask st) (taskContent st) (loading st) (filesLoading st) (error st)
    (isMounted st) (deleting st) (showDeleteConfirm st) (showPRModal st)
    (creatingPR st) (prTitle st) v (showFeedbackModal st) (feedback st)
    (sendingFeedback st) (showFeedbackSuccess st) (feedbackTaskId st).
Definition setShowFeedbackModal (v : bool) (st : State) : State :=
  mkState (currentTask st) (taskContent st) (loading st) (filesLoading st) (error st)
    (isMounted st) (deleting st) (showDeleteConfirm st) (showPRModal st)
    (creatingPR st) (prTitle st) (prBody st) v (feedback st) (sendingFeedback st)
    (showFeedbackSuccess st) (feedbackTaskId st).
Definition setFeedback (v : string) (st : State) : State :=
  mkState (currentTask st) (taskContent st) (loading st) (filesLoading st) (error st)
    (isMounted st) (deleting st) (showDeleteConfirm st) (showPRModal st)
    (creatingPR st) (prTitle st) (prBody st) (showFeedbackModal st) v
    (sendingFeedback st) (showFeedbackSuccess st) (feedbackTaskId st).
Definition setSendingFeedback (v : bool) (st : State) : State :=
  mkState (currentTask st) (taskContent st) (loading st) (filesLoading st) (error st)
    (isMounted st) (deleting st) (showDeleteConfirm st) (showPRModal st)
    (creatingPR st) (prTitle st) (prBody st) (showFeedbackModal st) (feedback st) v
    (showFeedbackSuccess st) (feedbackTaskId st).
Definition setShowFeedbackSuccess (v : bool) (st : State) : State :=
  mkState (currentTask st) (taskContent st) (loading st) (filesLoading st) (error st)
    (isMounted st) (deleting st) (showDeleteConfirm st) (showPRModal st)
    (creatingPR st) (prTitle st) (prBody st) (showFeedbackModal st) (feedback st)
    (sendingFeedback st) v (feedbackTaskId st).
Definition setFeedbackTaskId (v : option string) (st : State) : State :=
  mkState (currentTask st) (taskContent st) (loading st) (filesLoading st) (error st)
    (isMounted st) (deleting st) (showDeleteConfirm st) (showPRModal st)
    (creatingPR st) (prTitle st) (prBody st) (showFeedbackModal st) (feedback st)
    (sendingFeedback st) (showFeedbackSuccess st) v.

(** The state of a panel mounted with the [task] prop. *)
Definition initial (task : option Task.t) : State :=
  mkState task None false false None true false false false false
    EmptyString EmptyString false EmptyString false false None.

(** [JSON.stringify(task.feedback_history)]: an entry is written with its
    own properties in their order; [undefined] stays [undefined], and [null]
    becomes the text null. *)
Definition stringify_item (item : FeedbackHistoryItem.t) : string :=
  JSON.object
    ((λ kv, (kv.1, Some (JSON.quote kv.2))) <$> FeedbackHistoryItem.properties item).

Definition stringify_history (h : Nullable (list FeedbackHistoryItem.t)) : option string :=
  match h with
  | Undefined => None
  | Null => Some "null"
  | Value items => Some (JSON.array (stringify_item <$> items))
  end.

(** [a !== b] on strings, [null] and [undefined]. *)
Definition strict_ne {A : Type} `{EqDecision A} (a b : A) : bool :=
  bool_decide (a ≠ b).

Definition is_terminal (s : Status.t) : bool :=
  bool_decide (s = Status.completed) || bool_decide (s = Status.failed).

(** [hasChanges] of [silentRefreshTask]. *)
Definition hasChanges (updatedTask currentTask : Task.t) : bool :=
  strict_ne (Task.status updatedTask) (Task.status currentTask)
  || strict_ne (Task.end_time updatedTask) (Task.end_time currentTask)
  || strict_ne (Task.output updatedTask) (Task.output currentTask)
  || strict_ne (Task.error updatedTask) (Task.error currentTask)
  || strict_ne (stringify_history (Task.feedback_history updatedTask))
               (stringify_history (Task.feedback_history currentTask)).

(** [x?.id] is truthy. *)
Definition has_id (t : option Task.t) : bool :=
  match t with
  | Some t => truthy (Task.id t)
  | None => false
  end.

Section Component.

Variable apiClient : ApiClient.t.
(** The props and the session. *)
Variable task : option Task.t.
Variable session : option Session.t.

(** Every handler is a closure over the state [c] of the render that made
    it; its setters act on the state [st] that it threads. *)

Definition fetchTaskData (c st : State) : Prog State :=
  match task with
  | Some task' =>
      if negb (truthy (Task.id task')) || negb (isMounted c) then Ret st
      else
        let st := if isMounted c then setError None (setFilesLoading true st) else st in
        do r <- ApiClient.getTaskContent apiClient (Task.id task');
        let st :=
          match r with
          | Ok contentResponse =>
              if isMounted c then setTaskContent (Some contentResponse) st else st
          | Throw err =>
              if isMounted c
              then setError (Some (message_or err "Failed to load task content")) st
              else st
          end in
        Ret (if isMounted c then setFilesLoading false st else st)
  | None => Ret st
  end.

Definition silentRefreshTask (c st : State) : Prog State :=
  match currentTask c with
  | Some currentTask' =>
      if negb (truthy (Task.id currentTask')) || negb (isMounted c) then Ret st
      else
        do r <- ApiClient.getTaskStatus apiClient (Task.id currentTask');
        match r with
        | Ok updatedTask =>
            if isMounted c then
              if hasChanges updatedTask currentTask' then
                let st := setCurrentTask (Some updatedTask) st in
                if strict_ne (Task.status updatedTask) (Task.status currentTask')
                   && is_terminal (Task.status updatedTask)
                then fetchTaskData c st
                else Ret st
              else Ret st
            else Ret st
        | Throw _ => Ret st
        end
  | None => Ret st
  end.

(** The arguments given to [usePolling]. *)
Definition polling_interval : nat := 1000.
Definition polling_enabled (c : State) : bool :=
  match currentTask c with
  | Some t => bool_decide (Task.status t = Status.running)
  | None => false
  end.

(** [onTaskDeleted] tells whether the optional prop of that name is given;
    [onClose] is always given. *)
Definition confirmDelete (onTaskDeleted : bool) (c st : State) : Prog State :=
  match currentTask c with
  | Some currentTask' =>
      if negb (truthy (Task.id currentTask')) || negb (isMounted c) then Ret st
      else
        let st := setError None (setDeleting true (setShowDeleteConfirm false st)) in
        do r <- ApiClient.deleteTask apiClient (Task.id currentTask');
        do st <- match r with
                 | Ok _ =>
                     let closing := Emit OnClose (Ret st) in
                     if onTaskDeleted
                     then Emit (OnTaskDeleted (Task.id currentTask')) closing
                     else closing
                 | Throw err =>
                     Ret (if isMounted c
                          then setError (Some (message_or err "Failed to delete task")) st
                          else st)
                 end;
        Ret (if isMounted c then setDeleting false st else st)
  | None => Ret st
  end.

Definition accessToken : option string := session ≫= Session.accessToken.

Definition pr_number_text (n : option Z) : string :=
  match n with
  | Some n => pretty n
  | None => "undefined"
  end.

Definition createPullRequest (c st : State) : Prog State :=
  match currentTask c, accessToken with
  | Some currentTask', Some token =>
      if negb (truthy (Task.id currentTask')) || negb (truthy token) then Ret st
      else
        let st := setError None (setCreatingPR true st) in
        let request :=
          CreatePRRequest.mk token (or_undefined (trim (prTitle c)))
            (or_undefined (trim (prBody c))) in
        do r <- ApiClient.createPullRequest apiClient (Task.id currentTask') request;
        do st <- match r with
                 | Ok response =>
                     match CreatePRResponse.pr_url response with
                     | Some pr_url =>
                         if CreatePRResponse.success response && truthy pr_url then
                           Emit (WindowOpen pr_url "_blank")
                             (let st := setShowPRModal false st in
                              Emit (Alert ("Pull request created successfully! PR #" +:+
                                           pr_number_text (CreatePRResponse.pr_number response)))
                                (Ret st))
                         else Ret st
                     | None => Ret st
                     end
                 | Throw err =>
                     Ret (setError (Some (message_or err "Failed to create pull request")) st)
                 end;
        Ret (setCreatingPR false st)
  | _, _ => Ret st
  end.

(** [now] is what [new Date().toISOString()] returns. *)
Definition sendFeedback (now : string) (c st : State) : Prog State :=
  match currentTask c with
  | Some currentTask' =>
      if negb (truthy (Task.id currentTask')) || negb (truthy (trim (feedback c)))
      then Ret st
      else
        let st := setError None (setSendingFeedback true st) in
        let request := FeedbackRequest.mk (trim (feedback c)) in
        do r <- ApiClient.sendFeedback apiClient (Task.id currentTask') request;
        let st :=
          match r with
          | Ok response =>
              if FeedbackResponse.success response then
                let st := setShowFeedbackModal false st in
                let st := setFeedback EmptyString st in
                let st := setFeedbackTaskId (Some (FeedbackResponse.feedback_task_id response)) st in
                let st := setShowFeedbackSuccess true st in
                let feedbackTask :=
                  Task.mk (FeedbackResponse.feedback_task_id response)
                    ("Feedback: " +:+ FeedbackRequest.feedback request)
                    Status.running now Null Undefined Undefined None None
                    (Task.session_id currentTask') None Undefined in
                let st := setCurrentTask (Some feedbackTask) st in
                setTaskContent None st
              else st
          | Throw err =>
              setError (Some (message_or err "Failed to send feedback")) st
          end in
        Ret (setSendingFeedback false st)
  | None => Ret st
  end.

(** *** Refreshing, and the effect on the [task] prop *)

Definition refreshTaskData (c st : State) : Prog State :=
  match task with
  | Some task' =>
      if negb (truthy (Task.id task')) || negb (isMounted c) then Ret st
      else
        let st := if isMounted c then setError None (setLoading true st) else st in
        do r <- ApiClient.getTaskStatus apiClient (Task.id task');
        let st :=
          match r with
          | Ok updatedTask =>
              if isMounted c then setCurrentTask (Some updatedTask) st else st
          | Throw err =>
              if isMounted c
              then setError (Some (message_or err "Failed to refresh task")) st
              else st
          end in
        Ret (if isMounted c then setLoading false st else st)
  | None => Ret st
  end.

(** The Refresh button.  [fetchTaskData] handles its own failures, so the
    inner [try] never catches anything. *)
Definition refreshTask (c st : State) : Prog State :=
  match currentTask c with
  | Some currentTask' =>
      if negb (truthy (Task.id currentTask')) || negb (isMounted c) then Ret st
      else
        let st := if isMounted c then setError None (setLoading true st) else st in
        do r <- ApiClient.getTaskStatus apiClient (Task.id currentTask');
        do st <- match r with
                 | Ok updatedTask =>
                     let st :=
                       if isMounted c then setCurrentTask (Some updatedTask) st else st in
                     fetchTaskData c st
                 | Throw err =>
                     Ret (if isMounted c
                          then setError (Some (message_or err "Failed to refresh task")) st
                          else st)
                 end;
        Ret (if isMounted c then setLoading false st else st)
  | None => Ret st
  end.

Definition initializeTaskData (c st : State) : Prog State :=
  do st <- refreshTaskData c st;
  fetchTaskData c st.

(** The effect that depends on [task]: it runs when the panel is mounted and
    when it is given another task. *)
Definition task_effect (c st : State) : Prog State :=
  let st := setError None (setTaskContent None (setCurrentTask task st)) in
  if has_id task then initializeTaskData c st else Ret st.

(** *** The modals *)

Definition handleDeleteClick (st : State) : State := setShowDeleteConfirm true st.

Definition cancelDelete (st : State) : State := setShowDeleteConfirm false st.

Definition default_pr_title (currentTask' : Task.t) : string :=
  "AI Generated Changes: " +:+
  (if (60 <? String.length (Task.task currentTask'))%nat
   then substring (Task.task currentTask') 0 60 +:+ "..."
   else Task.task currentTask').

Definition default_pr_body (currentTask' : Task.t) : string :=
  "## AI Generated Changes" +:+ LF +:+ LF +:+
  "**Task:** " +:+ Task.task currentTask' +:+ LF +:+ LF +:+
  "**Task ID:** " +:+ Task.id currentTask' +:+ LF +:+ LF +:+
  "This pull request contains changes generated by an AI coding assistant." +:+
  LF +:+ LF +:+
  "### Changes Summary" +:+ LF +:+
  "This PR includes the modifications made to fulfill the requested task." +:+
  LF +:+ LF +:+
  "---" +:+ LF +:+
  "*Generated automatically by Junior AI Assistant*".

(** The Create PR button: a title and a body that are empty get their
    default, and the modal opens. *)
Definition handleCreatePR (c st : State) : State :=
  let st :=
    match currentTask c with
    | Some currentTask' =>
        if negb (truthy (prTitle c)) then setPrTitle (default_pr_title currentTask') st
        else st
    | None => st
    end in
  let st :=
    match currentTask c with
    | Some currentTask' =>
        if negb (truthy (prBody c)) then setPrBody (default_pr_body currentTask') st
        else st
    | None => st
    end in
  setShowPRModal true st.

Definition cancelCreatePR (st : State) : State :=
  setPrBody EmptyString (setPrTitle EmptyString (setShowPRModal false st)).

Definition handleFeedback (st : State) : State := setShowFeedbackModal true st.

Definition cancelFeedback (st : State) : State :=
  setFeedback EmptyString (setShowFeedbackModal false st).

(** The button of the success modal. *)
Definition dismissFeedbackSuccess (st : State) : State :=
  setFeedbackTaskId None (setShowFeedbackSuccess false st).

(** The [disabled] attribute of the Send Feedback button of the modal. *)
Definition send_feedback_disabled (c : State) : bool :=
  sendingFeedback c || negb (truthy (trim (feedback c))).

(** *** The silent background poll

    [usePolling(silentRefreshTask, {interval: 1000, enabled})]: the timer runs
    only while [enabled]; when it fires, the [silentRefreshTask] of the latest
    render is called, against the backend as it is at that moment.

    [poll] and [polls] are the firings on the schedule on which the requests
    of a firing are answered before the next firing.  The interval itself
    does not wait for them: firings that overlap are in [TaskDetailsLoop],
    whose happenings include these as a special case. *)

Definition poll (srv : Server) (c : State) : State * list Event :=
  if polling_enabled c then run srv (silentRefreshTask c c) else (c, []).

(** A sequence of firings, each answered before the next: the state after
    each of them, and all the events. *)
Fixpoint polls (srvs : list Server) (c : State) : list State * list Event :=
  match srvs with
  | [] => ([], [])
  | srv :: srvs' =>
      let '(c1, evs1) := poll srv c in
      let '(cs, evs) := polls srvs' c1 in
      (c1 :: cs, evs1 ++ evs)
  end.

(** *** What the render shows *)

Definition status_is_terminal (c : State) : bool :=
  match currentTask c with
  | Some t => is_terminal (Task.status t)
  | None => false
  end.

(** The guard of the Give Feedback button and its [disabled] attribute. *)
Definition feedback_button_rendered (c : State) : bool :=
  truthy_opt (currentTask c ≫= Task.session_id) && status_is_terminal c.
Definition feedback_button_disabled (c : State) : bool :=
  sendingFeedback c || loading c.

(** The guard of the Create PR button and its [disabled] attribute. *)
Definition create_pr_button_rendered (c : State) : bool :=
  match taskContent c with
  | Some content => TaskContentResponse.is_git_repo content
  | None => false
  end
  && truthy_opt accessToken && status_is_terminal c.
Definition create_pr_button_disabled (c : State) : bool :=
  creatingPR c || loading c.

(** The button is on the page and can be clicked. *)
Definition create_pr_enabled (c : State) : bool :=
  create_pr_button_rendered c && negb (create_pr_button_disabled c).

(** The success modal and the identifier it displays. *)
Definition feedback_success_modal (c : State) : option (option string) :=
  if showFeedbackSuccess c then Some (feedbackTaskId c) else None.

(** The guard of the Git Changes section (the diff view). *)
Definition diff_rendered (c : State) : bool :=
  match taskContent c with
  | Some content =>
      TaskContentResponse.is_git_repo content
      && bool_decide (TaskContentResponse.content_type content = ContentType.diff)
      && match TaskContentResponse.content content with
         | ContentString s => truthy s
         | ContentFiles _ => true
         | ContentNull => false
         end
  | None => false
  end.

(** The guard of the notice that a git repository has no changes. *)
Definition no_changes_rendered (c : State) : bool :=
  match taskContent c with
  | Some content =>
      TaskContentResponse.is_git_repo content
      && bool_decide (TaskContentResponse.content_type content = ContentType.diff)
      && negb match TaskContentResponse.content content with
              | ContentString s => truthy s
              | ContentFiles _ => true
              | ContentNull => false
              end
  | None => false
  end.

(** The guard of the list of created files. *)
Definition files_rendered (c : State) : bool :=
  match taskContent c with
  | Some content =>
      bool_decide (TaskContentResponse.content_type content = ContentType.files)
      && match TaskContentResponse.content content with
         | ContentFiles fs => (0 <? length fs)%nat
         | _ => false
         end
  | None => false
  end.

End Component.

(** *** The classification of a parsed diff file *)

Inductive FileType := add | delete | rename | modify.

(** The paths of a file parsed by [parseDiff]. *)
Record DiffFile := mkDiffFile { oldPath : option string; newPath : option string }.

Definition getFileType (file : DiffFile) : FileType :=
  let oldPath := or_else (oldPath file) "/dev/null" in
  let newPath := or_else (newPath file) "/dev/null" in
  if bool_decide (oldPath = "/dev/null") then add
  else if bool_decide (newPath = "/dev/null") then delete
  else if strict_ne oldPath newPath then rename
  else modify.

(** *** The messages of a task

    The content of a message is cut at the code fences: the pieces at even
    positions are text, those at odd positions are blocks of code. *)

Definition fence : string := "```".

Definition getLanguageStyles (lang : string) : string :=
  let normalized := toLowerCase lang in
  if bool_decide (normalized = "javascript") || bool_decide (normalized = "js")
  then "text-yellow-300"
  else if bool_decide (normalized = "typescript") || bool_decide (normalized = "ts")
  then "text-blue-300"
  else if bool_decide (normalized = "python") || bool_decide (normalized = "py")
  then "text-green-300"
  else if bool_decide (normalized = "json") then "text-orange-300"
  else if bool_decide (normalized = "css") then "text-pink-300"
  else if bool_decide (normalized = "html") then "text-red-300"
  else if bool_decide (normalized = "bash") || bool_decide (normalized = "shell")
          || bool_decide (normalized = "sh")
  then "text-cyan-300"
  else "text-green-400".

(** What a piece of a message becomes on the page: HTML set as it stands, or
    a block of code under the name of its language, when it shows one. *)
Inductive Piece :=
| Html (html : string)
| Code (header : option string) (styles : string) (codeContent : string).

Definition text_piece (part : string) : option Piece :=
  if truthy part then Some (Html (replace_line_feeds part "<br>")) else None.

Definition code_block (part : string) : Piece :=
  let lines := split part LF in
  let firstLine := or_else (trim <$> head lines) EmptyString in
  let language := if truthy firstLine then firstLine else "text" in
  let codeContent := join (drop (if truthy firstLine then 1 else 0) lines) LF in
  Code (if truthy language && strict_ne language "text" then Some language else None)
    (getLanguageStyles language) codeContent.

Inductive MessageBody :=
| Plain (content : string)
| Pieces (pieces : list Piece).

Definition message_body (content : string) : MessageBody :=
  if includes content fence then
    Pieces
      (omap id
         (imap (λ i part, if Nat.even i then text_piece part else Some (code_block part))
            (split content fence)))
  else Plain content.

End TaskDetails.

(** ** The silent poll in the event loop

    [setInterval] calls the saved callback at every firing, whether or not the
    call of an earlier firing still waits for its answer.  Each call is the
    [silentRefreshTask] of the render that was the latest when the timer
    fired: it compares the task that it fetches with the [currentTask] of
    that render. *)

Module TaskDetailsLoop.

Import JS EventLoop TaskDetails.

Section Component.

Variable apiClient : ApiClient.t.
Variable task : option Task.t.

(** [await fetchTaskData()], followed by [k]. *)
Definition fetchTaskData (c : State) (k : Job State) : Job State :=
  match task with
  | Some task' =>
      if negb (truthy (Task.id task')) || negb (isMounted c) then k
      else
        update_if (isMounted c) (setFilesLoading true)
          (update_if (isMounted c) (setError None)
             (awaiting (ApiClient.getTaskContent apiClient (Task.id task')) (λ r,
                match r with
                | Ok contentResponse =>
                    update_if (isMounted c) (setTaskContent (Some contentResponse))
                | Throw err =>
                    update_if (isMounted c)
                      (setError (Some (message_or err "Failed to load task content")))
                end (update_if (isMounted c) (setFilesLoading false) k))))
  | None => k
  end.

Definition silentRefreshTask (c : State) : Job State :=
  match currentTask c with
  | Some currentTask' =>
      if negb (truthy (Task.id currentTask')) || negb (isMounted c) then Finished
      else
        awaiting (ApiClient.getTaskStatus apiClient (Task.id currentTask')) (λ r,
          match r with
          | Ok updatedTask =>
              if isMounted c then
                if hasChanges updatedTask currentTask' then
                  Update (setCurrentTask (Some updatedTask))
                    (if strict_ne (Task.status updatedTask) (Task.status currentTask')
                        && is_terminal (Task.status updatedTask)
                     then fetchTaskData c Finished
                     else Finished)
                else Finished
              else Finished
          | Throw _ => Finished
          end)
  | None => Finished
  end.

(** What happens to the panel: the interval of the poll fires, or a request
    that waits is answered. *)
Inductive Happening :=
| Fire
| Answer (i : nat) (srv : Server).

(** The interval exists while the latest render enabled the poll, and its
    firing calls the [silentRefreshTask] of that render. *)
Definition happen (h : Happening) (l : Loop State) : Loop State * list Event :=
  match h with
  | Fire =>
      if polling_enabled (live l) then start (silentRefreshTask (live l)) l
      else (l, [])
  | Answer i srv => answer i srv l
  end.

(** A sequence of happenings: the panel after each of them, and all that was
    sent. *)
Fixpoint happenings (hs : list Happening) (l : Loop State)
  : list (Loop State) * list Event :=
  match hs with
  | [] => ([], [])
  | h :: hs' =>
      let '(l1, evs1) := happen h l in
      let '(ls, evs) := happenings hs' l1 in
      (l1 :: ls, evs1 ++ evs)
  end.

(** The interval never fires while a request waits for its answer. *)
Fixpoint no_overlap (hs : list Happening) (l : Loop State) : bool :=
  match hs with
  | [] => true
  | h :: hs' =>
      match h, pending l with
      | Fire, _ :: _ => false
      | _, _ => no_overlap hs' (happen h l).1
      end
  end.

(** Each firing followed by the answers to the two requests that its call
    can send, all by the backend of the moment of the firing. *)
Definition settled (srvs : list Server) : list Happening :=
  srvs ≫= λ srv, [Fire; Answer 0 srv; Answer 0 srv].

End Component.

End TaskDetailsLoop.

(** ** The duration of a task

    [getDuration] is written twice, with the same text, in the task list and
    in the details panel.  [getTime] gives the time value, in milliseconds, of
    the date that [new Date] reads in a string, and [now] is the time value of
    [new Date()]; both dates are taken to be valid. *)

Section Durations.

Variable getTime : string → Z.
Variable now : Z.

Definition getDuration (startTime : string) (endTime : option string) : string :=
  let start := getTime startTime in
  let end_ :=
    match endTime with
    | Some endTime => if JS.truthy endTime then getTime endTime else now
    | None => now
    end in
  let diffMs := (end_ - start)%Z in
  let diffSeconds := (diffMs / 1000)%Z in
  if (diffSeconds <? 60)%Z then pretty diffSeconds +:+ "s"
  else if (diffSeconds <? 3600)%Z then
    pretty (diffSeconds / 60)%Z +:+ "m " +:+ pretty (Z.rem diffSeconds 60) +:+ "s"
  else
    let hours := (diffSeconds / 3600)%Z in
    let minutes := (Z.rem diffSeconds 3600 / 60)%Z in
    pretty hours +:+ "h " +:+ pretty minutes +:+ "m".

End Durations.

(** ** The page ([app/page.tsx]) *)

Module Home.

Record State := mkState {
  selectedTask : option Task.t;
  refreshTrigger : Z
}.

Definition setSelectedTask (v : option Task.t) (st : State) : State :=
  mkState v (refreshTrigger st).
(** [setRefreshTrigger] is given a function of the previous value. *)
Definition setRefreshTrigger (f : Z → Z) (st : State) : State :=
  mkState (selectedTask st) (f (refreshTrigger st)).

Definition initial : State := mkState None 0%Z.

Definition handleTaskSubmitted (st : State) : State :=
  setRefreshTrigger (λ prev, (prev + 1)%Z) st.

Definition handleTaskClick (task : Task.t) (st : State) : State :=
  setSelectedTask (Some task) st.

Definition handleCloseDetails (st : State) : State :=
  setSelectedTask None st.

Definition handleTaskDeleted (taskId : string) (st : State) : State :=
  setSelectedTask None (setRefreshTrigger (λ prev, (prev + 1)%Z) st).

(** The props that the page gives to its components: the form calls
    [handleTaskSubmitted], the panel [handleCloseDetails] and
    [handleTaskDeleted]; the calls of the browser are not the page's. *)
Definition on_call (o : Output) (st : State) : State :=
  match o with
  | OnTaskSubmitted _ => handleTaskSubmitted st
  | OnTaskDeleted taskId => handleTaskDeleted taskId st
  | OnClose => handleCloseDetails st
  | PreventDefault | WindowOpen _ _ | Alert _ => st
  end.

Definition on_calls (os : list Output) (st : State) : State :=
  foldl (λ st o, on_call o st) st os.

(** The panel is rendered for a selected task only, and given that task. *)
Definition details_task (st : State) : option Task.t := selectedTask st.

(** The dependencies of the fetching effect of the list, for its filter. *)
Definition list_effect_deps (filter : TasksList.FilterType) (st : State)
  : TasksList.FilterType * Z :=
  (filter, refreshTrigger st).

End Home.

(** ** The sign-in callbacks ([app/api/auth/[...nextauth]/route.ts]) *)

Module NextAuth.

(** The OAuth account, present in the call that follows a sign-in. *)
Record Account := mkAccount { access_token : option string }.

(** The JSON Web Token, of which the callbacks touch one property. *)
Record JWT := mkJWT { accessToken : option string }.

Definition jwt (token : JWT) (account : option Account) : JWT :=
  match account with
  | Some account => mkJWT (access_token account)
  | None => token
  end.

Definition session (session : Session.t) (token : JWT) : Session.t :=
  Session.mk (accessToken token).

End NextAuth.

(** ** The GitHub context ([contexts/GitHubAuthContext.tsx]) *)

Module GitHubAuthContext.

Import JS.

(** [useSession().status] *)
Inductive SessionStatus := loading | authenticated | unauthenticated.

Global Instance SessionStatus_eq_dec : EqDecision SessionStatus.
Proof. solve_decision. Defined.

Record State := mkState {
  user : option GitHubUser.t;
  repos : list GitHubRepo.t;
  isLoading : bool;
  error : option string
}.

Definition setUser (v : option GitHubUser.t) (st : State) : State :=
  mkState v (repos st) (isLoading st) (error st).
Definition setRepos (v : list GitHubRepo.t) (st : State) : State :=
  mkState (user st) v (isLoading st) (error st).
Definition setIsLoading (v : bool) (st : State) : State :=
  mkState (user st) (repos st) v (error st).
Definition setError (v : option string) (st : State) : State :=
  mkState (user st) (repos st) (isLoading st) v.

Definition initial : State := mkState None [] false None.

(** A call of [fetch] that has been made and not yet settled: its request,
    and what the rest of the function does to the state of that moment once
    the call has settled. *)
Record Pending (X : Type) := mkPending {
  request : Request.t;
  settle : FetchResult X → State → State
}.
Arguments mkPending {X} request settle.
Arguments request {X} _.
Arguments settle {X} _ _ _.

Definition github_headers (accessToken : string) : list (string * string) :=
  [("Authorization", "token " +:+ accessToken);
   ("Accept", "application/vnd.github.v3+json")].

Section Provider.

Variable session : option Session.t.
Variable status : SessionStatus.

Definition accessToken : option string := session ≫= Session.accessToken.

(** Each function runs up to its [await] at once, and returns the call that
    it waits for. *)
Definition fetchUser (st : State) : State * option (Pending GitHubUser.t) :=
  match accessToken with
  | Some token =>
      if negb (truthy token) then (st, None)
      else
        (setError None (setIsLoading true st),
         Some (mkPending
                 (Request.mk GET "https://api.github.com/user" (github_headers token) None)
                 (λ answer st,
                    let st :=
                      match answer with
                      | Responded response =>
                          if negb (Response.ok response)
                          then setError (Some "Failed to fetch user data") st
                          else
                            match Response.json response with
                            | Parsed userData => setUser (Some userData) st
                            | Unparseable m => setError (Some m) st
                            end
                      | Rejected m => setError (Some m) st
                      end in
                    setIsLoading false st)))
  | None => (st, None)
  end.

Definition fetchRepos (st : State) : State * option (Pending (list GitHubRepo.t)) :=
  match accessToken with
  | Some token =>
      if negb (truthy token) then (st, None)
      else
        (setError None (setIsLoading true st),
         Some (mkPending
                 (Request.mk GET "https://api.github.com/user/repos?type=owner&per_page=100"
                    (github_headers token) None)
                 (λ answer st,
                    let st :=
                      match answer with
                      | Responded response =>
                          if negb (Response.ok response)
                          then setError (Some "Failed to fetch repositories") st
                          else
                            match Response.json response with
                            | Parsed reposData => setRepos reposData st
                            | Unparseable m => setError (Some m) st
                            end
                      | Rejected m => setError (Some m) st
                      end in
                    setIsLoading false st)))
  | None => (st, None)
  end.

Definition refreshRepos (st : State) : State * option (Pending (list GitHubRepo.t)) :=
  fetchRepos st.

(** The effect on the session: with a token it calls both functions, which
    then wait side by side; signed out, it forgets the user. *)
Definition session_effect (st : State)
  : State * option (Pending GitHubUser.t) * option (Pending (list GitHubRepo.t)) :=
  if truthy_opt accessToken then
    let '(st, pending_user) := fetchUser st in
    let '(st, pending_repos) := fetchRepos st in
    (st, pending_user, pending_repos)
  else if bool_decide (status = unauthenticated) then
    (setError None (setRepos [] (setUser None st)), None, None)
  else (st, None, None).

(** The [isLoading] of the context value. *)
Definition context_isLoading (st : State) : bool :=
  isLoading st || bool_decide (status = loading).

End Provider.

(** Settling a pending call, when there is one. *)
Definition settled {X : Type} (p : option (Pending X)) (answer : FetchResult X)
    (st : State) : State :=
  match p with
  | Some p => settle p answer st
  | None => st
  end.

End GitHubAuthContext.

(** ** The GitHub corner of the form ([components/GitHubAuth.tsx]) *)

Module GitHubAuth.

Inductive View :=
| Spinner
| Connected (avatar name : string)
| Connect (error : option string).

(** [isLoading] and [error] are those of the context value. *)
Definition GitHubAuth (session : option Session.t)
    (status : GitHubAuthContext.SessionStatus) (user : option GitHubUser.t)
    (isLoading : bool) (error : option string) : View :=
  if bool_decide (status = GitHubAuthContext.loading) || isLoading then Spinner
  else
    match session, user with
    | Some _, Some user =>
        Connected (GitHubUser.avatar_url user)
          (if JS.truthy (GitHubUser.name user) then GitHubUser.name user
           else GitHubUser.login user)
    | _, _ => Connect (if JS.truthy_opt error then error else None)
    end.

End GitHubAuth.

(** ** The polling hook ([hooks/usePolling.ts]) *)

(** The hook instance is modelled together with the browser clock, in
    milliseconds, and the interval timer that the second effect owns.  A
    render runs the two effects when their dependencies changed; time passes
    one millisecond at a time, and an interval that falls due calls [tick]. *)

Module usePolling.

Section Hook.

Context {Callback : Type} `{EqDecision Callback}.

(** A timer made by [setInterval]. *)
Record Timer := mkTimer { timer_id : nat; period : nat; due : nat }.

Record State := mkState {
  (** [savedCallback.current]; [None] is the initial empty function. *)
  savedCallback : option Callback;
  (** The dependencies of each effect at its last run. *)
  callback_deps : option Callback;
  timer_deps : option (nat * bool);
  (** The interval that was set and not yet cleared. *)
  active : option Timer;
  clock : nat;
  next_id : nat
}.

Definition mounting (now fresh : nat) : State :=
  mkState None None None None now fresh.

(** First effect: [savedCallback.current = callback], on a new callback. *)
Definition save_effect (callback : Callback) (st : State) : State :=
  if decide (callback_deps st = Some callback) then st
  else mkState (Some callback) (Some callback) (timer_deps st) (active st)
         (clock st) (next_id st).

(** Second effect, on a new [interval] or [enabled]: the cleanup of the
    previous run clears its interval, then [setInterval] if enabled. *)
Definition timer_effect (interval : nat) (enabled : bool) (st : State) : State :=
  if decide (timer_deps st = Some (interval, enabled)) then st
  else if enabled then
    mkState (savedCallback st) (callback_deps st) (Some (interval, enabled))
      (Some (mkTimer (next_id st) interval (clock st + interval)))
      (clock st) (S (next_id st))
  else
    mkState (savedCallback st) (callback_deps st) (Some (interval, enabled))
      None (clock st) (next_id st).

Definition render (callback : Callback) (interval : nat) (enabled : bool)
    (st : State) : State :=
  timer_effect interval enabled (save_effect callback st).

(** [usePolling(callback, {interval, enabled = true})], at one render. *)
Record UsePollingOptions := mkOptions { interval : nat; enabled : option bool }.

Definition usePolling (callback : Callback) (options : UsePollingOptions)
    (st : State) : State :=
  render callback (interval options) (default true (enabled options)) st.

(** Tearing the component down runs the cleanup. *)
Definition unmount (st : State) : State :=
  mounting (clock st) (next_id st).

(** [tick]: calls the saved callback. *)
Definition tick (st : State) : list (nat * Callback) :=
  match savedCallback st with
  | Some callback => [(clock st, callback)]
  | None => []
  end.

(** One millisecond passes. *)
Definition elapse (st : State) : State * list (nat * Callback) :=
  let now := S (clock st) in
  match active st with
  | Some t =>
      if decide (due t ≤ now)%nat then
        let st' :=
          mkState (savedCallback st) (callback_deps st) (timer_deps st)
            (Some (mkTimer (timer_id t) (period t) (due t + period t)))
            now (next_id st) in
        (st', tick st')
      else
        (mkState (savedCallback st) (callback_deps st) (timer_deps st)
           (active st) now (next_id st), [])
  | None =>
      (mkState (savedCallback st) (callback_deps st) (timer_deps st)
         None now (next_id st), [])
  end.

Inductive Action :=
| Render (callback : Callback) (interval : nat) (enabled : bool)
| Unmount
| Elapse.

Definition step (a : Action) (st : State) : State * list (nat * Callback) :=
  match a with
  | Render callback interval enabled => (render callback interval enabled st, [])
  | Unmount => (unmount st, [])
  | Elapse => elapse st
  end.

(** A run of the hook: the final state and the calls made, each with the
    time at which it was made. *)
Fixpoint steps (acts : list Action) (st : State) : State * list (nat * Callback) :=
  match acts with
  | [] => (st, [])
  | a :: acts' =>
      let '(st1, calls1) := step a st in
      let '(st2, calls2) := steps acts' st1 in
      (st2, calls1 ++ calls2)
  end.

Definition reachable (st : State) : Prop :=
  ∃ now fresh acts, st = (steps acts (mounting now fresh)).1.

End Hook.

Arguments State : clear implicits.
Arguments Action : clear implicits.

End usePolling.

(** ** A component that polls

    The components call [usePolling(callback, {interval, enabled})] at each
    render, with the callback made by that render, a closure over the state
    of the render, and with [enabled] computed from that state.  A mounted
    component is its state and its hook instance.

    The component is followed here millisecond by millisecond on the
    schedule on which every request is answered before the next millisecond:
    the effect that calls the backend when the component is mounted, and the
    callback that the interval calls, run to their end against the backend of
    their moment, and the component renders again with the state that
    results.  Calls that overlap, a firing while an earlier call still waits
    for its answer, are outside this schedule; for the panel they are the
    subject of [TaskDetailsLoop]. *)

Module Polling.

Section Component.

Context {S : Type} `{EqDecision S}.

(** The callback made by a render with the given state, run to its end. *)
Variable callback : S → Server → S * list Event.
Variable interval : nat.
Variable enabled : S → bool.
(** The effect of the first render that calls the backend, run to its end. *)
Variable effect : S → Server → S * list Event.

Record Mounted := mkMounted { view : S; hook : usePolling.State S }.

Definition rendered (s : S) (h : usePolling.State S) : Mounted :=
  mkMounted s (usePolling.render s interval (enabled s) h).

(** The first render, in the state [s], and the effects of the hook. *)
Definition first_render (now fresh : nat) (s : S) : Mounted :=
  rendered s (usePolling.mounting now fresh).

(** Mounting: after the first render the effects run, those of the hook and
    the effect of the component that calls the backend; the component
    renders again with the state that this effect leaves. *)
Definition mount (now fresh : nat) (s : S) (srv : Server) : Mounted * list Event :=
  let '(s', evs) := effect s srv in
  (rendered s' (hook (first_render now fresh s)), evs).

(** One millisecond passes, with the backend as it is then: a callback that
    the interval calls is answered within the millisecond. *)
Definition elapse (srv : Server) (m : Mounted) : Mounted * list Event :=
  match usePolling.elapse (hook m) with
  | (h, []) => (mkMounted (view m) h, [])
  | (h, (_, saved) :: _) =>
      let '(s, evs) := callback saved srv in (rendered s h, evs)
  end.

(** As many milliseconds as there are backends in the list. *)
Fixpoint elapses (srvs : list Server) (m : Mounted) : Mounted * list Event :=
  match srvs with
  | [] => (m, [])
  | srv :: srvs' =>
      let '(m1, evs1) := elapse srv m in
      let '(m2, evs2) := elapses srvs' m1 in
      (m2, evs1 ++ evs2)
  end.

End Component.

Arguments Mounted : clear implicits.

End Polling.

(** The states of the components can be compared. *)
Global Instance TaskFile_eq_dec : EqDecision TaskFile.t.
Proof. solve_decision. Defined.

Global Instance Content_eq_dec : EqDecision Content.
Proof. solve_decision. Defined.

Global Instance TaskContentResponse_eq_dec : EqDecision TaskContentResponse.t.
Proof. solve_decision. Defined.

Global Instance TaskDetails_State_eq_dec : EqDecision TaskDetails.State.
Proof. solve_decision. Defined.

Global Instance FilterType_eq_dec : EqDecision TasksList.FilterType.
Proof. solve_decision. Defined.

Global Instance TasksList_State_eq_dec : EqDecision TasksList.State.
Proof. solve_decision. Defined.

(** The panel and the list from the moment they are mounted: the panel with
    its task prop, its effect on that prop and its silent poll; the list with
    its effect that fetches the tasks and its poll. *)
Definition panel_polling (apiClient : ApiClient.t) (task : option Task.t)
    (now fresh : nat) (srv : Server)
  : Polling.Mounted TaskDetails.State * list Event :=
  Polling.mount TaskDetails.polling_interval TaskDetails.polling_enabled
    (λ c srv, run srv (TaskDetails.task_effect apiClient task c c))
    now fresh (TaskDetails.initial task) srv.

Definition panel_elapses (apiClient : ApiClient.t) (task : option Task.t)
    (srvs : list Server) (m : Polling.Mounted TaskDetails.State)
  : Polling.Mounted TaskDetails.State * list Event :=
  Polling.elapses
    (λ c srv, run srv (TaskDetails.silentRefreshTask apiClient task c c))
    TaskDetails.polling_interval TaskDetails.polling_enabled srvs m.

Definition list_polling (apiClient : ApiClient.t) (now fresh : nat) (srv : Server)
  : Polling.Mounted TasksList.State * list Event :=
  Polling.mount TasksList.polling_interval TasksList.polling_enabled
    (λ c srv, run srv (TasksList.fetchTasks apiClient c))
    now fresh TasksList.initial srv.

Definition list_elapses (apiClient : ApiClient.t) (srvs : list Server)
    (m : Polling.Mounted TasksList.State)
  : Polling.Mounted TasksList.State * list Event :=
  Polling.elapses (λ c srv, run srv (TasksList.fetchTasks apiClient c))
    TasksList.polling_interval TasksList.polling_enabled srvs m.

(** * Worked inputs

    Concrete clients, backends and states, used in the examples that close
    the development. *)

(** The client of a page served without NEXT_PUBLIC_API_URL. *)
Definition local_client : ApiClient.t := apiClient None.

(** A backend that cannot be reached, and backends that answer one endpoint. *)
Definition offline : Server := λ X _ _, Rejected "Failed to fetch".

Definition ok_with {X : Type} (body : X) : FetchResult X :=
  Responded (Response.mk true 200 (Parsed body)).

Definition failed_with {X : Type} (status : nat) (body : X) : FetchResult X :=
  Responded (Response.mk false status (Parsed body)).

Definition with_execute (answer : FetchResult ExecuteTaskResponse.t) (srv : Server)
  : Server :=
  λ X ty req,
    match ty in BodyTy X return FetchResult X → FetchResult X with
    | TExecute => λ _, answer
    | _ => λ other, other
    end (srv X ty req).

Definition with_status (answer : FetchResult Task.t) (srv : Server) : Server :=
  λ X ty req,
    match ty in BodyTy X return FetchResult X → FetchResult X with
    | TStatus => λ _, answer
    | _ => λ other, other
    end (srv X ty req).

Definition with_content (answer : FetchResult TaskContentResponse.t) (srv : Server)
  : Server :=
  λ X ty req,
    match ty in BodyTy X return FetchResult X → FetchResult X with
    | TContent => λ _, answer
    | _ => λ other, other
    end (srv X ty req).

Definition with_running (answer : FetchResult RunningData.t) (srv : Server) : Server :=
  λ X ty req,
    match ty in BodyTy X return FetchResult X → FetchResult X with
    | TRunning => λ _, answer
    | _ => λ other, other
    end (srv X ty req).

Definition with_tasks (answer : FetchResult TaskListResponse.t) (srv : Server) : Server :=
  λ X ty req,
    match ty in BodyTy X return FetchResult X → FetchResult X with
    | TTasks => λ _, answer
    | _ => λ other, other
    end (srv X ty req).

Definition with_create_pr (answer : FetchResult CreatePRResponse.t) (srv : Server)
  : Server :=
  λ X ty req,
    match ty in BodyTy X return FetchResult X → FetchResult X with
    | TCreatePR => λ _, answer
    | _ => λ other, other
    end (srv X ty req).

Definition with_feedback (answer : FetchResult FeedbackResponse.t) (srv : Server)
  : Server :=
  λ X ty req,
    match ty in BodyTy X return FetchResult X → FetchResult X with
    | TFeedback => λ _, answer
    | _ => λ other, other
    end (srv X ty req).

Definition with_delete (answer : FetchResult DeleteTaskResponse.t) (srv : Server)
  : Server :=
  λ X ty req,
    match ty in BodyTy X return FetchResult X → FetchResult X with
    | TDelete => λ _, answer
    | _ => λ other, other
    end (srv X ty req).

(** A task while it runs and once it has completed. *)
Definition running_task : Task.t :=
  Task.mk "abc123" "add README" Status.running "2026-01-01T10:00:00.000Z"
    Null Undefined Undefined None None (Some "sess-1") None Undefined.

Definition completed_task : Task.t :=
  Task.mk "abc123" "add README" Status.completed "2026-01-01T10:00:00.000Z"
    (Value "2026-01-01T10:02:00.000Z") (Value "done") Undefined (Some 0%Z) None
    (Some "sess-1") None Undefined.

Definition diff_content : TaskContentResponse.t :=
  TaskContentResponse.mk "abc123" true ContentType.diff
    (ContentString "diff --git a/README.md b/README.md") None.

(** A content that lists files although it comes from a git repository. *)
Definition files_content : TaskContentResponse.t :=
  TaskContentResponse.mk "abc123" true ContentType.files
    (ContentFiles [TaskFile.mk "README.md" "README.md" "text" "# Junior" 8%Z])
    (Some 1%Z).

Definition signed_in : option Session.t := Some (Session.mk (Some "gho_token")).

(** The panel just opened on the running task. *)
Definition panel : TaskDetails.State := TaskDetails.initial (Some running_task).

(** The panel on the completed task, with a loaded content. *)
Definition panel_with (content : TaskContentResponse.t) : TaskDetails.State :=
  TaskDetails.setTaskContent (Some content) (TaskDetails.initial (Some completed_task)).

(** The panel on the completed task with a feedback typed in its modal. *)
Definition panel_with_feedback : TaskDetails.State :=
  TaskDetails.setFeedback "fix the typo"
    (TaskDetails.setShowFeedbackModal true (panel_with diff_content)).

Definition accepted_feedback : FeedbackResponse.t :=
  FeedbackResponse.mk true "fb-789" "Feedback submitted" None.

Definition still_running : Server := with_status (ok_with running_task) offline.

Definition now_completed : Server :=
  with_status (ok_with completed_task) (with_content (ok_with diff_content) offline).

(** The feedback task of the completed task, running and then completed, and
    the panel that displays it while its task prop is still the first task. *)
Definition feedback_task : Task.t :=
  Task.mk "fb-789" "Feedback: fix the typo" Status.running "2026-01-01T11:00:00.000Z"
    Null Undefined Undefined None None (Some "sess-1") None Undefined.

Definition feedback_task_completed : Task.t :=
  Task.mk "fb-789" "Feedback: fix the typo" Status.completed "2026-01-01T11:00:00.000Z"
    (Value "2026-01-01T11:03:00.000Z") (Value "fixed") Undefined (Some 0%Z) None
    (Some "sess-1") None Undefined.

Definition panel_on_feedback_task : TaskDetails.State :=
  TaskDetails.setCurrentTask (Some feedback_task) (panel_with diff_content).







Definition feedback_completed : Server :=
  with_status (ok_with feedback_task_completed)
    (with_content (ok_with diff_content) offline).

(** The answers of the backend to a deletion and to a pull request. *)
Definition deleted : DeleteTaskResponse.t :=
  DeleteTaskResponse.mk "Task deleted" "abc123".

Definition pr_created : CreatePRResponse.t :=
  CreatePRResponse.mk true (Some "https://github.com/octo/repo/pull/7") (Some 7%Z)
    (Some "junior/abc123") None None.

Definition connected_user : GitHubUser.t :=
  GitHubUser.mk "octo" "Octo Cat" "https://avatars.example/octo.png" None.

(** The form filled in as in the scenario, and with a padded description. *)
Definition filled_form : TaskForm.State :=
  TaskForm.mkState "add README" "octo/repo" false None None.

Definition padded_form : TaskForm.State :=
  TaskForm.mkState "  add README " "octo/repo" false None None.

Definition blank_form : TaskForm.State :=
  TaskForm.mkState "   " "octo/repo" false None None.

Definition accepting : Server :=
  with_execute (ok_with (ExecuteTaskResponse.mk "task-42" "Task started")) offline.

(** A backend that refuses a pull request, and one that answers a feedback
    without accepting it. *)
Definition pr_refused : CreatePRResponse.t :=
  CreatePRResponse.mk false None None None None (Some "No changes to commit").

Definition refused_feedback : FeedbackResponse.t :=
  FeedbackResponse.mk false EmptyString "Session expired" None.

(** A backend that cannot give the status but gives the content. *)
Definition content_only : Server := with_content (ok_with diff_content) offline.

Definition with_completed (answer : FetchResult CompletedData.t) (srv : Server) : Server :=
  λ X ty req,
    match ty in BodyTy X return FetchResult X → FetchResult X with
    | TCompleted => λ _, answer
    | _ => λ other, other
    end (srv X ty req).

(** The list under the filter on completed tasks, showing a task. *)
Definition completed_list : TasksList.State :=
  TasksList.mkState [completed_task] false None TasksList.completed.

(** The page with the panel open on the completed task. *)
Definition page_with_panel : Home.State := Home.mkState (Some completed_task) 3%Z.

(** The account and the session of a user signed in with GitHub, and a
    repository with a long description. *)
Definition octo_account : NextAuth.Account := NextAuth.mkAccount (Some "gho_token").

Definition octo_session : Session.t := Session.mk (Some "gho_token").

Definition described_repo : GitHubRepo.t :=
  GitHubRepo.mk 7%Z "repo" "octo/repo"
    (Some "A dashboard for coding tasks that run in the background, with pull requests")
    true "https://github.com/octo/repo" (Some "TypeScript") "2026-01-01T09:00:00Z".

(** The list showing the running task, and a backend that lists the task as
    completed. *)
Definition running_list : TasksList.State :=
  TasksList.mkState [running_task] false None TasksList.all.

Definition listing_running : Server :=
  with_tasks (ok_with (TaskListResponse.mk [running_task] 1%Z)) offline.

Definition listing_completed : Server :=
  with_tasks (ok_with (TaskListResponse.mk [completed_task] 1%Z)) offline.

(** Two and a half seconds during which the task completes just before the
    first second is over, and five seconds during which the list of tasks
    changes just before the second second is over. *)
Definition completing_in_time : list Server :=
  replicate 999 still_running ++ [now_completed] ++ replicate 1500 still_running.

Definition listing_in_time : list Server :=
  replicate 1999 offline ++ [listing_completed] ++ replicate 3000 offline.

(** A message with a block of code between two lines of text. *)
Definition sample_message : string :=
  "Run:" +:+ JS.LF +:+ "```bash" +:+ JS.LF +:+ "npm test" +:+ JS.LF +:+ "```" +:+
  JS.LF +:+ "Done".

(** A task whose text is longer than 60 code units, and the time values of
    the two dates of the completed task. *)
Definition long_task : Task.t :=
  Task.mk "long-1"
    "Add a README that explains how to install, configure and run the dashboard"
    Status.completed "2026-01-01T10:00:00.000Z" (Value "2026-01-01T10:02:00.000Z")
    Undefined Undefined (Some 0%Z) None None None Undefined.

Definition time_value (date : string) : Z :=
  if bool_decide (date = "2026-01-01T10:00:00.000Z") then 1767261600000%Z
  else if bool_decide (date = "2026-01-01T10:02:00.000Z") then 1767261720000%Z
  else 0%Z.

(** * Properties

    The vocabulary in which the properties are stated comes first, the lemmas
    and theorems after it. *)

Section Properties.

(** The client that the components call. *)
Variable apiClient : ApiClient.t.

(** The type of the callbacks given to the polling hook. *)
Context {Callback : Type} `{EqDecision Callback}.

(** ** Vocabulary *)

Section FeedbackHistoryVocabulary.

Import JS JSON TaskDetails.

(** What follows the first element of a joined list. *)
Definition join_rest (l : list string) (r : string) : string :=
  match l with
  | [] => r
  | _ :: _ => "," +:+ join l +:+ r
  end.

(** The text of one property of an entry. *)
Definition property_text (kv : string * string) : string :=
  quote kv.1 +:+ ":" +:+ quote kv.2.

End FeedbackHistoryVocabulary.

Section ApiClientVocabulary.

Import JS ApiClient.

(** What an operation [op] owes for the round-trip [req] whose body it reads
    at type [ty]: it sends [req] and nothing else; it throws whenever the
    response is not successful; and for a body that is JSON, it returns the
    parsed body as [typed] makes it the returned record when the response is
    successful, and otherwise throws an error with the message that
    [backend_error] finds in the body, or else with the HTTP status. *)
Definition round_trip {X R : Type} (op : Async R) (ty : BodyTy X) (req : Request.t)
    (typed : X → R) (backend_error : X → option string) : Prop :=
  ∀ (srv : Server) (resp : Response.t X),
    srv X ty req = Responded resp →
    (run srv op).2 = [Sent req]
    ∧ (Response.ok resp = false → ∃ m, (run srv op).1 = Throw (ErrorObject m))
    ∧ ∀ body : X,
        Response.json resp = Parsed body →
        (Response.ok resp = true → (run srv op).1 = Ok (typed body))
        ∧ (Response.ok resp = false →
           (run srv op).1 =
           Throw (ErrorObject
                    (match backend_error body with
                     | Some m => m
                     | None => "HTTP error! status: " +:+ of_nat (Response.status resp)
                     end))).

(** The error message found in a body: present and not empty. *)
Definition supplied (error : option string) : option string :=
  match error with
  | Some m => if bool_decide (m = EmptyString) then None else Some m
  | None => None
  end.

(** [op] performs the round-trip [m url] and keeps the contract above. *)
Definition performs {X R : Type} (op : Async R) (m : Method) (url : string)
    (ty : BodyTy X) (typed : X → R) (backend_error : X → option string) : Prop :=
  ∃ req, Request.method req = m ∧ Request.url req = url ∧
         round_trip op ty req typed backend_error.

(** What a fetch brought: the parsed body of a successful response. *)
Definition fetched {X : Type} (answer : FetchResult X) : option X :=
  match answer with
  | Responded (Response.mk true _ (Parsed body)) => Some body
  | _ => None
  end.

(** The message of the error that an operation which does not read the body
    of a failed response throws, if it throws. *)
Definition failure_message {X : Type} (answer : FetchResult X) : option string :=
  match answer with
  | Rejected m => Some m
  | Responded (Response.mk false status _) => Some ("HTTP error! status: " +:+ of_nat status)
  | Responded (Response.mk true _ (Unparseable m)) => Some m
  | Responded (Response.mk true _ (Parsed _)) => None
  end.

(** What an operation [op] with the round-trip [req] does when the call
    fails or the body is not JSON: it throws the error of the rejection; on a
    body that is not JSON it throws the error of the parser when the response
    is successful or when it reads the body of a failed response
    ([reads_error_body]), and the HTTP status otherwise. *)
Definition fails_through {X R : Type} (op : Async R) (ty : BodyTy X) (req : Request.t)
    (reads_error_body : bool) : Prop :=
  ∀ srv : Server,
    (∀ m, srv X ty req = Rejected m → run srv op = (Throw (ErrorObject m), [Sent req]))
    ∧ (∀ resp m,
         srv X ty req = Responded resp → Response.json resp = Unparseable m →
         run srv op =
         (Throw (ErrorObject
                   (if Response.ok resp || reads_error_body then m
                    else "HTTP error! status: " +:+ of_nat (Response.status resp))),
          [Sent req])).

Definition fails {X R : Type} (op : Async R) (m : Method) (url : string)
    (ty : BodyTy X) (reads_error_body : bool) : Prop :=
  ∃ req, Request.method req = m ∧ Request.url req = url ∧
         fails_through op ty req reads_error_body.

End ApiClientVocabulary.

Section TrimmingVocabulary.

Import JS.

(** Every character of the string is white space. *)
Fixpoint whitespace_only (s : string) : Prop :=
  match s with
  | EmptyString => True
  | String c s' => is_white_space c = true ∧ whitespace_only s'
  end.

(** The string neither starts nor ends with white space. *)
Definition starts_clean (s : string) : Prop :=
  match s with
  | EmptyString => True
  | String c _ => is_white_space c = false
  end.

Fixpoint ends_clean (s : string) : Prop :=
  match s with
  | EmptyString => True
  | String c EmptyString => is_white_space c = false
  | String _ s' => ends_clean s'
  end.

(** The string without its first [n] code units. *)
Fixpoint string_drop (n : nat) (s : string) : string :=
  match n, s with
  | O, _ => s
  | S n', String _ s' => string_drop n' s'
  | S _, EmptyString => EmptyString
  end.

End TrimmingVocabulary.

(** The requests among the events of a run. *)
Definition requests (evs : list Event) : list Request.t :=
  omap (λ ev, match ev with Sent req => Some req | Out _ => None end) evs.

(** The calls among the events of a run. *)
Definition calls (evs : list Event) : list Output :=
  omap (λ ev, match ev with Out o => Some o | Sent _ => None end) evs.

(** A string between double quotes, written as it stands. *)
Definition in_quotes (s : string) : string :=
  String JS.dquote (s +:+ String JS.dquote EmptyString).

Section TaskFormVocabulary.

Import JS TaskForm.

(** Whether the optional [onTaskSubmitted] prop is given. *)
Variable onTaskSubmitted : bool.

(** The request that [handleSubmit] sends for a description and a repository. *)
Definition execute_request (description repository : string) : Request.t :=
  Request.mk POST (ApiClient.baseUrl apiClient +:+ "/execute")
    [("Content-Type", "application/json")]
    (Some (JSON.object [("task", Some (JSON.quote description));
                        ("repository", Some (JSON.quote repository))])).

(** What [handleSubmit] does once its guard has let the submission through. *)
Definition submitted (c : State) (answer : FetchResult ExecuteTaskResponse.t)
  : State * list Event :=
  let req := execute_request (trim (task c)) (selectedRepo c) in
  let st := setSuccess None (setError None (setIsSubmitting true c)) in
  match answer with
  | Responded (Response.mk true _ (Parsed response)) =>
      let id := ExecuteTaskResponse.task_id response in
      (setIsSubmitting false
         (setTask EmptyString
            (setSuccess (Some ("Task submitted successfully! ID: " +:+ id)) st)),
       Out PreventDefault :: Sent req ::
         (if onTaskSubmitted then [Out (OnTaskSubmitted id)] else []))
  | Responded (Response.mk true _ (Unparseable m)) =>
      (setIsSubmitting false (setError (Some m) st), [Out PreventDefault; Sent req])
  | Responded (Response.mk false status _) =>
      (setIsSubmitting false
         (setError (Some ("HTTP error! status: " +:+ of_nat status)) st),
       [Out PreventDefault; Sent req])
  | Rejected m =>
      (setIsSubmitting false (setError (Some m) st), [Out PreventDefault; Sent req])
  end.

(** The body of the request of the scenario, character by character:
    an object with the keys task and repository. *)
Definition add_readme_body : string :=
  "{" +:+ in_quotes "task" +:+ ":" +:+ in_quotes "add README" +:+ "," +:+
  in_quotes "repository" +:+ ":" +:+ in_quotes "octo/repo" +:+ "}".

Definition add_readme_request : Request.t :=
  Request.mk POST (ApiClient.baseUrl apiClient +:+ "/execute")
    [("Content-Type", "application/json")] (Some add_readme_body).

End TaskFormVocabulary.

Section TasksListVocabulary.

Import TasksList.

(** The requests of [listRunningTasks] and [listAllTasks]. *)
Definition running_request : Request.t :=
  Request.mk GET (ApiClient.baseUrl apiClient +:+ "/running") [] None.

Definition tasks_request : Request.t :=
  Request.mk GET (ApiClient.baseUrl apiClient +:+ "/tasks") [] None.

Definition completed_request : Request.t :=
  Request.mk GET (ApiClient.baseUrl apiClient +:+ "/completed") [] None.

(** The request that fetches the list under a filter. *)
Definition list_request (f : FilterType) : Request.t :=
  match f with
  | all => tasks_request
  | running => running_request
  | completed => completed_request
  end.

(** The tasks that the backend gives for a filter, when it does, and the
    message of the error when it does not. *)
Definition list_fetched (srv : Server) (f : FilterType) : option (list Task.t) :=
  match f with
  | all => TaskListResponse.tasks <$> fetched (srv _ TTasks tasks_request)
  | running => RunningData.running_tasks <$> fetched (srv _ TRunning running_request)
  | completed =>
      CompletedData.completed_tasks <$> fetched (srv _ TCompleted completed_request)
  end.

Definition list_failure (srv : Server) (f : FilterType) : option string :=
  match f with
  | all => failure_message (srv _ TTasks tasks_request)
  | running => failure_message (srv _ TRunning running_request)
  | completed => failure_message (srv _ TCompleted completed_request)
  end.

End TasksListVocabulary.

Section PageVocabulary.

(** The calls, among those that components make, that tell the page of a
    submitted or a deleted task. *)
Definition refreshing (o : Output) : bool :=
  match o with
  | OnTaskSubmitted _ | OnTaskDeleted _ => true
  | _ => false
  end.

(** The calls of [jwt] that follow a sign-in, one each time the session is
    read, none of them with an account. *)
Definition jwt_refreshed (n : nat) (token : NextAuth.JWT) : NextAuth.JWT :=
  Nat.iter n (λ token, NextAuth.jwt token None) token.

(** The session that the page reads [n] calls after a sign-in with
    [account]. *)
Definition session_after_sign_in (account : NextAuth.Account) (n : nat)
    (token : NextAuth.JWT) (session : Session.t) : Session.t :=
  NextAuth.session session (jwt_refreshed n (NextAuth.jwt token (Some account))).

End PageVocabulary.

Section GitHubVocabulary.

Import GitHubAuthContext.

(** The message that a fetch of the context leaves in [error] when it fails:
    the [fixed] text for a response that is not successful, and otherwise the
    message of the rejection or of the parser. *)
Definition github_failure {X : Type} (fixed : string) (answer : FetchResult X)
  : option string :=
  match answer with
  | Rejected m => Some m
  | Responded (Response.mk false _ _) => Some fixed
  | Responded (Response.mk true _ (Unparseable m)) => Some m
  | Responded (Response.mk true _ (Parsed _)) => None
  end.

(** The state of the context once both calls started by the effect on the
    session have settled, the user first or the repositories first. *)
Definition user_then_repos (session : option Session.t) (status : SessionStatus)
    (user_answer : FetchResult GitHubUser.t)
    (repos_answer : FetchResult (list GitHubRepo.t)) (st : State) : State :=
  let '(st, pending_user, pending_repos) := session_effect session status st in
  settled pending_repos repos_answer (settled pending_user user_answer st).

Definition repos_then_user (session : option Session.t) (status : SessionStatus)
    (user_answer : FetchResult GitHubUser.t)
    (repos_answer : FetchResult (list GitHubRepo.t)) (st : State) : State :=
  let '(st, pending_user, pending_repos) := session_effect session status st in
  settled pending_user user_answer (settled pending_repos repos_answer st).

(** The requests of the two calls. *)
Definition github_user_request (token : string) : Request.t :=
  Request.mk GET "https://api.github.com/user"
    [("Authorization", "token " +:+ token); ("Accept", "application/vnd.github.v3+json")]
    None.

Definition github_repos_request (token : string) : Request.t :=
  Request.mk GET "https://api.github.com/user/repos?type=owner&per_page=100"
    [("Authorization", "token " +:+ token); ("Accept", "application/vnd.github.v3+json")]
    None.

End GitHubVocabulary.

Section TaskDetailsVocabulary.

Import JS TaskDetails.

(** The props of the panel and the session. *)
Variable task : option Task.t.
Variable session : option Session.t.

(** The requests of [getTaskStatus] and [getTaskContent]. *)
Definition status_request (taskId : string) : Request.t :=
  Request.mk GET (ApiClient.baseUrl apiClient +:+ "/status/" +:+ taskId) [] None.

Definition content_request (taskId : string) : Request.t :=
  Request.mk GET (ApiClient.baseUrl apiClient +:+ "/content/" +:+ taskId) [] None.

(** The two tasks hold the same JavaScript value in every tracked field:
    [null] and a missing property are two values, and two histories are the
    same value when their entries have the same properties in the same
    order. *)
Definition tracked_fields_equal (a b : Task.t) : Prop :=
  Task.status a = Task.status b
  ∧ Task.end_time a = Task.end_time b
  ∧ Task.output a = Task.output b
  ∧ Task.error a = Task.error b
  ∧ Task.feedback_history a = Task.feedback_history b.




(** What one call of [silentRefreshTask] does, by the answer of the backend. *)
Definition refreshed (srv : Server) (c : State) (currentTask' : Task.t)
    (answer : FetchResult Task.t) : State * list Event :=
  let sent := Sent (status_request (Task.id currentTask')) in
  match answer with
  | Responded (Response.mk true _ (Parsed updatedTask)) =>
      if hasChanges updatedTask currentTask' then
        if strict_ne (Task.status updatedTask) (Task.status currentTask')
           && is_terminal (Task.status updatedTask)
        then
          ((run srv (fetchTaskData apiClient task c (setCurrentTask (Some updatedTask) c))).1,
           sent ::
           (run srv (fetchTaskData apiClient task c (setCurrentTask (Some updatedTask) c))).2)
        else (setCurrentTask (Some updatedTask) c, [sent])
      else (c, [sent])
  | _ => (c, [sent])
  end.

(** A request for the content of a task: GET on a path under /content/. *)
Definition is_content_request (req : Request.t) : bool :=
  bool_decide (Request.method req = GET)
  && String.prefix (ApiClient.baseUrl apiClient +:+ "/content/") (Request.url req).

Definition content_fetches (evs : list Event) : nat :=
  length (List.filter is_content_request (requests evs)).

Definition displayed_status (c : State) : option Status.t :=
  Task.status <$> currentTask c.

(** The displayed status goes from running into a terminal state. *)
Definition enters_terminal (before after : State) : bool :=
  bool_decide (displayed_status before = Some Status.running)
  && status_is_terminal after.


(** *** The poll in the event loop *)




(** The displayed tasks along a run of the loop. *)
Definition displayed (ls : list (EventLoop.Loop State)) : list State :=
  EventLoop.live <$> ls.

(** The fetch of the status fails: no response, a response that is not
    successful, or a body that is not JSON. *)
Definition fetch_failed (answer : FetchResult Task.t) : Prop :=
  match answer with
  | Rejected _ => True
  | Responded resp =>
      Response.ok resp = false ∨ ∃ m, Response.json resp = Unparseable m
  end.

(** The requests of [deleteTask] and [createPullRequest]. *)
Definition delete_request (taskId : string) : Request.t :=
  Request.mk DELETE (ApiClient.baseUrl apiClient +:+ "/delete/" +:+ taskId) [] None.

Definition create_pr_request (taskId : string) (request : CreatePRRequest.t) : Request.t :=
  Request.mk POST (ApiClient.baseUrl apiClient +:+ "/create-pr/" +:+ taskId)
    [("Content-Type", "application/json")]
    (Some (JSON.object
             [("github_token", Some (JSON.quote (CreatePRRequest.github_token request)));
              ("pr_title", JSON.quote <$> CreatePRRequest.pr_title request);
              ("pr_body", JSON.quote <$> CreatePRRequest.pr_body request)])).

(** The request that [sendFeedback] sends. *)
Definition feedback_request (taskId text : string) : Request.t :=
  Request.mk POST (ApiClient.baseUrl apiClient +:+ "/feedback/" +:+ taskId)
    [("Content-Type", "application/json")]
    (Some (JSON.object [("feedback", Some (JSON.quote text))])).

(** The state of the panel after [sendFeedback] has run. *)
Definition after_feedback (now : string) (srv : Server) (c : State) : State :=
  (run srv (sendFeedback apiClient now c c)).1.

(** The backend accepted the feedback: a successful response whose body says
    so. *)
Definition feedback_accepted (answer : FetchResult FeedbackResponse.t) : bool :=
  match fetched answer with
  | Some response => FeedbackResponse.success response
  | None => false
  end.

(** The backend made the pull request: a successful response whose body says
    so and carries the address [url]. *)
Definition pr_made (answer : FetchResult CreatePRResponse.t) (url : string) : Prop :=
  ∃ response, fetched answer = Some response
              ∧ CreatePRResponse.success response = true
              ∧ CreatePRResponse.pr_url response = Some url
              ∧ url ≠ EmptyString.

(** The message of the error that [createPullRequest] and [sendFeedback] of
    the client throw, given the error message of the body. *)
Definition backend_failure_message {X : Type} (error : X → option string)
    (answer : FetchResult X) : option string :=
  match answer with
  | Rejected m => Some m
  | Responded (Response.mk false status (Parsed body)) =>
      Some (or_else (error body) ("HTTP error! status: " +:+ of_nat status))
  | Responded (Response.mk _ _ (Unparseable m)) => Some m
  | Responded (Response.mk true _ (Parsed _)) => None
  end.

(** *** The life of a panel

    What happens to a mounted panel: its effect runs, the poll fires, the user
    presses a button or types in a field.  Whatever calls the backend comes
    with the backend of that moment. *)
Inductive Action :=
| TaskEffect (srv : Server)
| Poll (srv : Server)
| RefreshTask (srv : Server)
| HandleDeleteClick
| ConfirmDelete (onTaskDeleted : bool) (srv : Server)
| CancelDelete
| HandleCreatePR
| TypePrTitle (text : string)
| TypePrBody (text : string)
| CreatePullRequest (srv : Server)
| CancelCreatePR
| HandleFeedback
| TypeFeedback (text : string)
| SendFeedback (now : string) (srv : Server)
| CancelFeedback
| DismissFeedbackSuccess.

Definition act (a : Action) (c : State) : State :=
  match a with
  | TaskEffect srv => (run srv (task_effect apiClient task c c)).1
  | Poll srv => (poll apiClient task srv c).1
  | RefreshTask srv => (run srv (refreshTask apiClient task c c)).1
  | HandleDeleteClick => handleDeleteClick c
  | ConfirmDelete onTaskDeleted srv =>
      (run srv (confirmDelete apiClient onTaskDeleted c c)).1
  | CancelDelete => cancelDelete c
  | HandleCreatePR => handleCreatePR c c
  | TypePrTitle text => setPrTitle text c
  | TypePrBody text => setPrBody text c
  | CreatePullRequest srv => (run srv (createPullRequest apiClient session c c)).1
  | CancelCreatePR => cancelCreatePR c
  | HandleFeedback => handleFeedback c
  | TypeFeedback text => setFeedback text c
  | SendFeedback now srv => (run srv (sendFeedback apiClient now c c)).1
  | CancelFeedback => cancelFeedback c
  | DismissFeedbackSuccess => dismissFeedbackSuccess c
  end.

Definition acts (l : list Action) (c : State) : State :=
  foldl (λ c a, act a c) c l.

(** The states of a panel mounted with the task prop. *)
Definition panel_reachable (c : State) : Prop :=
  ∃ l, c = acts l (initial task).

(** No request is pending and no indicator is on. *)
Definition at_rest (c : State) : Prop :=
  loading c = false ∧ filesLoading c = false ∧ deleting c = false
  ∧ creatingPR c = false ∧ sendingFeedback c = false.

(** What holds of a panel between two of its actions: the mounted flag is
    on, a panel that was given a task displays a task, the success modal is
    open exactly when it has an identifier to show, and the panel is at
    rest. *)
Definition panel_invariant (c : State) : Prop :=
  isMounted c = true
  ∧ (is_Some task → is_Some (currentTask c))
  ∧ (showFeedbackSuccess c = true ↔ is_Some (feedbackTaskId c))
  ∧ at_rest c.

(** A life of the panel: it opens on the running task, which is found
    completed; the user opens the feedback modal, types and sends. *)
Definition feedback_round : list Action :=
  [TaskEffect now_completed; HandleFeedback; TypeFeedback "fix the typo";
   SendFeedback "2026-01-01T11:00:00.000Z"
     (with_feedback (ok_with accepted_feedback) offline)].

(** At most one of the booleans holds. *)
Definition at_most_one (a b c : bool) : Prop :=
  (a = true → b = false ∧ c = false) ∧ (b = true → c = false).

End TaskDetailsVocabulary.

Section ScheduleVocabulary.

Import usePolling.

Context {St : Type} `{EqDecision St}.

Variable callback : St → Server → St * list Event.
Variable interval : nat.
Variable enabled : St → bool.

(** The backends of the moments at which an interval fires, among those of
    the successive milliseconds: [remaining] counts down to the next firing,
    and every firing starts the count again from [interval]. *)
Fixpoint firings (remaining : nat) (srvs : list Server) : list Server :=
  match srvs with
  | [] => []
  | srv :: srvs' =>
      match remaining with
      | S (S remaining') => firings (S remaining') srvs'
      | _ => srv :: firings interval srvs'
      end
  end.

(** A firing: the callback of the state runs if polling is enabled there. *)
Definition fire (s : St) (srv : Server) : St * list Event :=
  if enabled s then callback s srv else (s, []).

Fixpoint fire_all (srvs : list Server) (s : St) : St * list Event :=
  match srvs with
  | [] => (s, [])
  | srv :: srvs' =>
      let '(s1, evs1) := fire s srv in
      let '(s2, evs2) := fire_all srvs' s1 in
      (s2, evs1 ++ evs2)
  end.

(** The component polls, and its interval fires in [remaining] ms. *)
Definition waiting (remaining : nat) (m : Polling.Mounted St) : Prop :=
  enabled (Polling.view m) = true
  ∧ savedCallback (Polling.hook m) = Some (Polling.view m)
  ∧ callback_deps (Polling.hook m) = Some (Polling.view m)
  ∧ timer_deps (Polling.hook m) = Some (interval, true)
  ∧ (1 ≤ remaining)%nat
  ∧ ∃ t, active (Polling.hook m) = Some t ∧ period t = interval
         ∧ due t = (clock (Polling.hook m) + remaining)%nat.

(** The component does not poll. *)
Definition idle (m : Polling.Mounted St) : Prop :=
  enabled (Polling.view m) = false
  ∧ timer_deps (Polling.hook m) = Some (interval, false)
  ∧ active (Polling.hook m) = None.

End ScheduleVocabulary.

Section DisplayVocabulary.

(** The whole seconds between the start of a task and its end, or the present
    moment for a task that has no end time. *)
Definition elapsed_seconds (getTime : string → Z) (now : Z) (startTime : string)
    (endTime : option string) : Z :=
  ((match endTime with
    | Some endTime => if JS.truthy endTime then getTime endTime else now
    | None => now
    end - getTime startTime) / 1000)%Z.

End DisplayVocabulary.

Section PollingVocabulary.

Import usePolling.

(** The calls expected of a hook whose interval was set at time [t0]: as time
    passes, one call at each multiple of the interval after [t0], to the
    callback of the latest render. *)
Fixpoint expected_calls (interval t0 now : nat) (latest : Callback)
    (acts : list (Action Callback)) : list (nat * Callback) :=
  match acts with
  | [] => []
  | Elapse :: acts' =>
      (if decide ((S now - t0) mod interval = 0)%nat then [(S now, latest)] else [])
      ++ expected_calls interval t0 (S now) latest acts'
  | Render callback _ _ :: acts' => expected_calls interval t0 now callback acts'
  | Unmount :: _ => []
  end.

(** Time passes, or the component renders again with the same interval, still
    enabled; only the callback may be new. *)
Definition keeps_timer (interval : nat) (a : Action Callback) : Prop :=
  match a with
  | Render _ interval' enabled => interval' = interval ∧ enabled = true
  | Elapse => True
  | Unmount => False
  end.

(** What holds of every state that a run can reach. *)
Definition consistent (st : State Callback) : Prop :=
  savedCallback st = callback_deps st
  ∧ match timer_deps st with
    | Some (interval, true) => ∃ t, active st = Some t ∧ period t = interval
    | _ => active st = None
    end.

(** The interval set at [t0] is running and calls [latest]. *)
Definition ticking (interval t0 : nat) (latest : Callback) (st : State Callback) : Prop :=
  savedCallback st = Some latest
  ∧ callback_deps st = Some latest
  ∧ timer_deps st = Some (interval, true)
  ∧ ∃ t, active st = Some t ∧ period t = interval
         ∧ (clock st < due t ≤ clock st + interval)%nat
         ∧ (t0 ≤ clock st)%nat
         ∧ ((due t - t0) mod interval = 0)%nat.

End PollingVocabulary.

(** ** Lemmas and theorems *)

(** *** The string model *)

Section JsonFacts.

Import JS JSON.

Lemma app_cons (c : ascii) (a b : string) :
  String c a +:+ b = String c (a +:+ b).
Proof. reflexivity. Qed.

Lemma app_nil_l (a : string) : EmptyString +:+ a = a.
Proof. reflexivity. Qed.

Lemma app_assoc (a b c : string) : (a +:+ b) +:+ c = a +:+ (b +:+ c).
Proof.
  induction a as [|x a IH]; [done|].
  rewrite !app_cons. by f_equal.
Qed.

Lemma unescape_escape_char (c : ascii) (k : string) :
  unescape (escape_char c +:+ k) = push c (unescape k).
Proof. by destruct c as [[] [] [] [] [] [] [] []]. Qed.

Lemma unescape_escape (s r : string) :
  unescape (escape s +:+ String dquote r) = Some (s, r).
Proof.
  induction s as [|c s IH]; [done|].
  cbn [escape]. rewrite app_assoc, unescape_escape_char, IH.
  done.
Qed.

Lemma unquote_quote (s r : string) : unquote (quote s +:+ r) = Some (s, r).
Proof.
  unfold quote. rewrite app_cons, app_assoc, app_cons, app_nil_l.
  apply unescape_escape.
Qed.

(** A quoted string is a prefix code. *)
Lemma quote_app_inj (s1 s2 r1 r2 : string) :
  quote s1 +:+ r1 = quote s2 +:+ r2 → s1 = s2 ∧ r1 = r2.
Proof.
  intros H. pose proof (unquote_quote s1 r1) as H1.
  rewrite H, unquote_quote in H1. by simplify_eq.
Qed.

(** A line feed becomes the two characters of its short escape, a control
    character without one a unicode escape, a double quote is escaped. *)
Example quote_line_feed :
  quote (String "010"%char "a") = in_quotes "\na".
Proof. reflexivity. Qed.

Example quote_control :
  quote (String "031"%char EmptyString) = in_quotes "\u001f".
Proof. reflexivity. Qed.

Example quote_double_quote :
  quote (String dquote "x") = in_quotes (String backslash (String dquote "x")).
Proof. reflexivity. Qed.

End JsonFacts.

(** *** The serialisation of the feedback history is injective *)

Section HistoryFacts.

Import JS JSON TaskDetails.

Lemma join_cons (x : string) (l : list string) (r : string) :
  join (x :: l) +:+ r = x +:+ join_rest l r.
Proof. destruct l; [done|]. cbn [join join_rest]. by rewrite !app_assoc. Qed.

(** A list of texts that are read back one by one, joined with commas and
    closed by a character that starts none of them, is read back as a
    whole. *)
Lemma join_close_inj {A : Type} (f : A → string) (close : ascii) (l1 l2 : list A)
    (r1 r2 : string) :
  (∀ a1 a2 r1 r2, f a1 +:+ r1 = f a2 +:+ r2 → a1 = a2 ∧ r1 = r2) →
  (∀ a, ∃ c rest, f a = String c rest ∧ c ≠ close) →
  close ≠ ","%char →
  join (f <$> l1) +:+ String close r1 = join (f <$> l2) +:+ String close r2 →
  l1 = l2 ∧ r1 = r2.
Proof.
  intros Hcode Hhead Hclose. revert l2.
  induction l1 as [|x1 l1 IH]; intros [|x2 l2] H.
  - cbn in H. by simplify_eq.
  - exfalso. rewrite fmap_cons, join_cons in H.
    destruct (Hhead x2) as (c & rest & Hx & Hc). rewrite Hx in H.
    cbn in H. by simplify_eq.
  - exfalso. rewrite fmap_cons, join_cons in H.
    destruct (Hhead x1) as (c & rest & Hx & Hc). rewrite Hx in H.
    cbn in H. by simplify_eq.
  - rewrite !fmap_cons, !join_cons in H. apply Hcode in H as [-> H].
    destruct l1 as [|y1 l1], l2 as [|y2 l2].
    + cbn in H. by simplify_eq.
    + exfalso. cbn [fmap list_fmap join_rest] in H. rewrite !app_cons in H.
      by simplify_eq.
    + exfalso. cbn [fmap list_fmap join_rest] in H. rewrite !app_cons in H.
      by simplify_eq.
    + rewrite !fmap_cons in H. cbn [join_rest] in H. rewrite <- !fmap_cons in H.
      apply (inj (String.app ",")) in H.
      apply IH in H as [-> ->]. done.
Qed.

Lemma stringify_item_unfold (item : FeedbackHistoryItem.t) :
  stringify_item item =
  "{" +:+ join (property_text <$> FeedbackHistoryItem.properties item) +:+ "}".
Proof.
  unfold stringify_item, object. do 3 f_equal.
  induction (FeedbackHistoryItem.properties item) as [|[k v] props IH]; [done|].
  cbn. by f_equal.
Qed.

Lemma property_text_app_inj (kv1 kv2 : string * string) (r1 r2 : string) :
  property_text kv1 +:+ r1 = property_text kv2 +:+ r2 → kv1 = kv2 ∧ r1 = r2.
Proof.
  unfold property_text. rewrite !app_assoc. intros H.
  apply quote_app_inj in H as [Hk H].
  apply (inj (String.app ":")) in H.
  apply quote_app_inj in H as [Hv H].
  destruct kv1, kv2; simplify_eq/=; done.
Qed.

Lemma property_text_head (kv : string * string) :
  ∃ c rest, property_text kv = String c rest ∧ c ≠ "}"%char.
Proof. unfold property_text, quote. by eexists _, _. Qed.

Lemma stringify_item_app_inj (i1 i2 : FeedbackHistoryItem.t) (r1 r2 : string) :
  stringify_item i1 +:+ r1 = stringify_item i2 +:+ r2 → i1 = i2 ∧ r1 = r2.
Proof.
  rewrite !stringify_item_unfold, !app_assoc. intros H.
  apply (inj (String.app "{")) in H.
  apply (join_close_inj property_text "}") in H as [Hprops Hr];
    [|apply property_text_app_inj|apply property_text_head|done].
  destruct i1, i2; simplify_eq/=; done.
Qed.

Lemma stringify_item_head (item : FeedbackHistoryItem.t) :
  ∃ c rest, stringify_item item = String c rest ∧ c ≠ "]"%char.
Proof. rewrite stringify_item_unfold. by eexists _, _. Qed.

Lemma array_items_inj (l1 l2 : list FeedbackHistoryItem.t) :
  array (stringify_item <$> l1) = array (stringify_item <$> l2) → l1 = l2.
Proof.
  unfold array. intros H. apply (inj (String.app "[")) in H.
  by apply (join_close_inj stringify_item "]" l1 l2 EmptyString EmptyString) in H as [-> _];
    [|apply stringify_item_app_inj|apply stringify_item_head|].
Qed.

Lemma stringify_history_inj (h1 h2 : Nullable (list FeedbackHistoryItem.t)) :
  stringify_history h1 = stringify_history h2 → h1 = h2.
Proof.
  destruct h1 as [| |l1], h2 as [| |l2]; intros H; try done.
  f_equal. apply array_items_inj. by apply (inj Some).
Qed.

End HistoryFacts.

(** *** The API client *)

Section ApiClientFacts.

Import JS ApiClient.

Lemma or_else_supplied (error : option string) (fallback : string) :
  or_else error fallback =
  match supplied error with Some m => m | None => fallback end.
Proof.
  destruct error as [m|]; [|done]. unfold or_else, supplied, truthy.
  destruct (decide (m = EmptyString)) as [->|Hm]; [done|].
  rewrite bool_decide_eq_true_2, bool_decide_eq_false_2; done.
Qed.

Ltac round_trip_tac :=
  eexists; split; [|split]; [| |
    intros srv resp Hsrv;
    cbn [run bind await fetch executeTask getTaskStatus listAllTasks listRunningTasks
         listCompletedTasks getTaskContent deleteTask createPullRequest sendFeedback get];
    rewrite Hsrv; unfold resolve, throw, json;
    destruct resp as [[] status [body'|m]]; cbn;
    (split; [reflexivity|]);
    (split; [intros Hok; try discriminate Hok; eexists; reflexivity|]);
    intros body Hjson; try discriminate Hjson; injection Hjson as ->;
    split; intros Hok; try discriminate Hok;
    rewrite <- ?or_else_supplied]; reflexivity.

Lemma executeTask_performs (this : t) (task : string) (repository : option string) :
  performs (executeTask this task repository) POST (baseUrl this +:+ "/execute")
    TExecute id (λ _, None).
Proof. round_trip_tac. Qed.

Lemma getTaskStatus_performs (this : t) (taskId : string) :
  performs (getTaskStatus this taskId) GET (baseUrl this +:+ "/status/" +:+ taskId)
    TStatus id (λ _, None).
Proof. round_trip_tac. Qed.

Lemma listAllTasks_performs (this : t) :
  performs (listAllTasks this) GET (baseUrl this +:+ "/tasks") TTasks id (λ _, None).
Proof. round_trip_tac. Qed.

Lemma listRunningTasks_performs (this : t) :
  performs (listRunningTasks this) GET (baseUrl this +:+ "/running") TRunning
    (λ data, TaskListResponse.mk (RunningData.running_tasks data) (RunningData.count data))
    (λ _, None).
Proof. round_trip_tac. Qed.

Lemma listCompletedTasks_performs (this : t) :
  performs (listCompletedTasks this) GET (baseUrl this +:+ "/completed") TCompleted
    (λ data, TaskListResponse.mk (CompletedData.completed_tasks data)
               (CompletedData.count data))
    (λ _, None).
Proof. round_trip_tac. Qed.

Lemma getTaskContent_performs (this : t) (taskId : string) :
  performs (getTaskContent this taskId) GET (baseUrl this +:+ "/content/" +:+ taskId)
    TContent id (λ _, None).
Proof. round_trip_tac. Qed.

Lemma deleteTask_performs (this : t) (taskId : string) :
  performs (deleteTask this taskId) DELETE (baseUrl this +:+ "/delete/" +:+ taskId)
    TDelete id (λ _, None).
Proof. round_trip_tac. Qed.

Lemma createPullRequest_performs (this : t) (taskId : string)
    (request : CreatePRRequest.t) :
  performs (createPullRequest this taskId request) POST
    (baseUrl this +:+ "/create-pr/" +:+ taskId) TCreatePR id
    (λ errorData, supplied (CreatePRResponse.error errorData)).
Proof. round_trip_tac. Qed.

Lemma sendFeedback_performs (this : t) (taskId : string) (request : FeedbackRequest.t) :
  performs (sendFeedback this taskId request) POST
    (baseUrl this +:+ "/feedback/" +:+ taskId) TFeedback id
    (λ errorData, supplied (FeedbackResponse.error errorData)).
Proof. round_trip_tac. Qed.

(** The same operations when the call fails or the body is not JSON. *)
Ltac fails_tac :=
  eexists; split; [|split]; [| |
    intros srv; split;
    [ intros m Hsrv;
      cbn [run bind await fetch executeTask getTaskStatus listAllTasks listRunningTasks
           listCompletedTasks getTaskContent deleteTask createPullRequest sendFeedback
           get];
      rewrite Hsrv; reflexivity
    | intros resp m Hsrv Hjson;
      cbn [run bind await fetch executeTask getTaskStatus listAllTasks listRunningTasks
           listCompletedTasks getTaskContent deleteTask createPullRequest sendFeedback
           get];
      rewrite Hsrv; unfold resolve, throw, json;
      destruct resp as [[] status js]; cbn in Hjson; subst js; reflexivity ]];
  reflexivity.

Lemma executeTask_fails (this : t) (task : string) (repository : option string) :
  fails (executeTask this task repository) POST (baseUrl this +:+ "/execute")
    TExecute false.
Proof. fails_tac. Qed.

Lemma getTaskStatus_fails (this : t) (taskId : string) :
  fails (getTaskStatus this taskId) GET (baseUrl this +:+ "/status/" +:+ taskId)
    TStatus false.
Proof. fails_tac. Qed.

Lemma listAllTasks_fails (this : t) :
  fails (listAllTasks this) GET (baseUrl this +:+ "/tasks") TTasks false.
Proof. fails_tac. Qed.

Lemma listRunningTasks_fails (this : t) :
  fails (listRunningTasks this) GET (baseUrl this +:+ "/running") TRunning false.
Proof. fails_tac. Qed.

Lemma listCompletedTasks_fails (this : t) :
  fails (listCompletedTasks this) GET (baseUrl this +:+ "/completed") TCompleted false.
Proof. fails_tac. Qed.

Lemma getTaskContent_fails (this : t) (taskId : string) :
  fails (getTaskContent this taskId) GET (baseUrl this +:+ "/content/" +:+ taskId)
    TContent false.
Proof. fails_tac. Qed.

Lemma deleteTask_fails (this : t) (taskId : string) :
  fails (deleteTask this taskId) DELETE (baseUrl this +:+ "/delete/" +:+ taskId)
    TDelete false.
Proof. fails_tac. Qed.

Lemma createPullRequest_fails (this : t) (taskId : string) (request : CreatePRRequest.t) :
  fails (createPullRequest this taskId request) POST
    (baseUrl this +:+ "/create-pr/" +:+ taskId) TCreatePR true.
Proof. fails_tac. Qed.

Lemma sendFeedback_fails (this : t) (taskId : string) (request : FeedbackRequest.t) :
  fails (sendFeedback this taskId request) POST
    (baseUrl this +:+ "/feedback/" +:+ taskId) TFeedback true.
Proof. fails_tac. Qed.

End ApiClientFacts.

(** *** Trimming *)

Section TrimFacts.

Import JS.

Lemma trimStart_split (s : string) :
  ∃ pre, s = pre +:+ trimStart s ∧ whitespace_only pre ∧ starts_clean (trimStart s).
Proof.
  induction s as [|c s (pre & Hs & Hpre & Hclean)].
  - by exists EmptyString.
  - cbn [trimStart]. destruct (is_white_space c) eqn:Hc.
    + exists (String c pre). rewrite app_cons. by rewrite <- Hs.
    + by exists EmptyString.
Qed.

Lemma trimEnd_split (s : string) :
  ∃ post, s = trimEnd s +:+ post ∧ whitespace_only post ∧ ends_clean (trimEnd s).
Proof.
  induction s as [|c s (post & Hs & Hpost & Hclean)].
  - by exists EmptyString.
  - cbn [trimEnd]. destruct (trimEnd s) as [|d r] eqn:Hr.
    + rewrite app_nil_l in Hs. subst post.
      destruct (is_white_space c) eqn:Hc.
      * by exists (String c s).
      * by exists s.
    + exists post. rewrite app_cons, <- Hs. done.
Qed.

Lemma trimEnd_starts_clean (s : string) : starts_clean s → starts_clean (trimEnd s).
Proof.
  destruct s as [|c s]; [done|]. cbn. intros Hc.
  destruct (trimEnd s); [by rewrite Hc|done].
Qed.

(** [trim] removes a white-space prefix and a white-space suffix and leaves
    a string that neither starts nor ends with white space. *)
Lemma trim_split (s : string) :
  ∃ pre post, s = pre +:+ trim s +:+ post ∧ whitespace_only pre ∧ whitespace_only post
              ∧ starts_clean (trim s) ∧ ends_clean (trim s).
Proof.
  destruct (trimStart_split s) as (pre & Hs & Hpre & Hclean).
  destruct (trimEnd_split (trimStart s)) as (post & Hs' & Hpost & Hclean').
  exists pre, post. unfold trim. rewrite <- Hs', <- Hs.
  split_and!; auto using trimEnd_starts_clean.
Qed.

Lemma whitespace_only_app (a b : string) :
  whitespace_only (a +:+ b) ↔ whitespace_only a ∧ whitespace_only b.
Proof.
  induction a as [|c a IH]; [cbn; tauto|].
  rewrite app_cons. cbn. tauto.
Qed.

(** The trimmed text is empty exactly for a string of white space. *)
Lemma trim_empty_iff (s : string) : trim s = EmptyString ↔ whitespace_only s.
Proof.
  destruct (trim_split s) as (pre & post & Hs & Hpre & Hpost & Hstart & _).
  split.
  - intros Ht. rewrite Hs, Ht. rewrite !whitespace_only_app. done.
  - intros Hw. rewrite Hs in Hw. rewrite !whitespace_only_app in Hw.
    destruct Hw as (_ & Hw & _). destruct (trim s) as [|c r]; [done|].
    cbn in Hstart, Hw. destruct Hw as [Hc _]. congruence.
Qed.

Lemma truthy_false_iff (s : string) : truthy s = false ↔ s = EmptyString.
Proof.
  unfold truthy. rewrite bool_decide_eq_false. split; [|by intros ->; auto].
  intros H. by destruct (decide (s = EmptyString)).
Qed.

Lemma truthy_true_iff (s : string) : truthy s = true ↔ s ≠ EmptyString.
Proof. unfold truthy. by rewrite bool_decide_eq_true. Qed.

Example trim_padded :
  trim (String "009"%char " add  README " +:+ String "010"%char EmptyString)
  = "add  README".
Proof. reflexivity. Qed.

(** A character that is not white space stays where it is. *)
Lemma trimEnd_cons_clean (c : ascii) (s : string) :
  is_white_space c = false → trimEnd (String c s) = String c (trimEnd s).
Proof. intros Hc. cbn [trimEnd]. destruct (trimEnd s); [by rewrite Hc|done]. Qed.

Lemma trim_cons_clean (c : ascii) (s : string) :
  is_white_space c = false → trim (String c s) = String c (trimEnd s).
Proof.
  intros Hc. unfold trim. cbn [trimStart]. rewrite Hc. by apply trimEnd_cons_clean.
Qed.

Lemma or_undefined_trim_none (s : string) :
  or_undefined (trim s) = None ↔ whitespace_only s.
Proof.
  rewrite <- trim_empty_iff. unfold or_undefined.
  destruct (truthy (trim s)) eqn:Ht.
  - apply truthy_true_iff in Ht. split; [done|]. intros Hs. by destruct Ht.
  - apply truthy_false_iff in Ht. by split.
Qed.

(** Text that ends with a character which is not white space is kept by
    [trimEnd], whatever follows. *)
Lemma trimEnd_app_clean (a : string) (c : ascii) (b : string) :
  is_white_space c = false →
  trimEnd (a +:+ String c b) = a +:+ String c (trimEnd b).
Proof.
  intros Hc. induction a as [|x a IH].
  - rewrite !app_nil_l. by apply trimEnd_cons_clean.
  - rewrite !app_cons. cbn [trimEnd]. rewrite IH.
    by destruct a.
Qed.

End TrimFacts.

(** *** Cutting a text after its first code units *)

Section SubstringFacts.

Import JS.

Lemma string_length_app (a b : string) :
  String.length (a +:+ b) = (String.length a + String.length b)%nat.
Proof.
  induction a as [|c a IH]; [done|]. rewrite app_cons. cbn. by rewrite IH.
Qed.

Lemma substring_from_0 (s : string) (n : nat) :
  substring s 0 n = String.substring 0 n s.
Proof. unfold substring. by rewrite Nat.min_0_l, Nat.max_0_l, Nat.sub_0_r. Qed.

(** The first [n] code units are a prefix, of length [n] when the text is
    that long. *)
Lemma substring_split (s : string) (n : nat) :
  ∃ rest, s = substring s 0 n +:+ rest
          ∧ String.length (substring s 0 n) = Nat.min n (String.length s).
Proof.
  rewrite substring_from_0. revert n.
  induction s as [|c s IH]; intros [|n]; cbn [String.substring String.length].
  - by exists EmptyString.
  - by exists EmptyString.
  - by exists (String c s).
  - destruct (IH n) as (rest & Hs & Hlen). exists rest.
    rewrite app_cons, <- Hs. cbn [String.length]. by rewrite Hlen.
Qed.

Lemma substring_all (s : string) (n : nat) :
  (String.length s ≤ n)%nat → substring s 0 n = s.
Proof.
  rewrite substring_from_0. revert n.
  induction s as [|c s IH]; intros [|n]; cbn [String.substring String.length];
    intros Hn; try done; try lia.
  f_equal. apply IH. lia.
Qed.

End SubstringFacts.

(** *** Cutting a text at a separator *)

Section SplitFacts.

Import JS.

Lemma prefix_string_drop (sep s : string) :
  String.prefix sep s = true → s = sep +:+ string_drop (String.length sep) s.
Proof.
  revert s. induction sep as [|x sep IH]; intros s Hp; [done|].
  destruct s as [|c s]; [done|]. cbn in Hp.
  destruct (ascii_dec x c) as [->|]; [|done].
  rewrite app_cons. cbn [String.length string_drop]. f_equal. by apply IH.
Qed.

Lemma prefix_app_r (sep a b : string) :
  String.prefix sep a = true → String.prefix sep (a +:+ b) = true.
Proof.
  revert a. induction sep as [|x sep IH]; intros a Hp; [by destruct (a +:+ b)|].
  destruct a as [|c a]; [done|]. rewrite app_cons. cbn in *.
  destruct (ascii_dec x c); [by apply IH|done].
Qed.

Lemma includes_app_r (a b sep : string) :
  includes a sep = true → includes (a +:+ b) sep = true.
Proof.
  induction a as [|c a IH].
  - cbn. rewrite orb_false_r. intros Hp. destruct sep; [by destruct b|done].
  - rewrite app_cons. cbn [includes]. intros [Hp|Hi]%orb_true_iff.
    + change (String c (a +:+ b)) with (String c a +:+ b).
      by rewrite (prefix_app_r _ _ _ Hp).
    + rewrite (IH Hi). by rewrite orb_true_r.
Qed.

Lemma join_cons_char (c : ascii) (piece : string) (pieces : list string) (sep : string) :
  join (String c piece :: pieces) sep = String c (join (piece :: pieces) sep).
Proof. by destruct pieces. Qed.

Lemma join_two (piece : string) (pieces : list string) (other sep : string) :
  join (piece :: other :: pieces) sep = piece +:+ sep +:+ join (other :: pieces) sep.
Proof. done. Qed.

(** The pieces, joined by the separator, are the text that was cut. *)
Lemma split_from_join (sep s : string) (skip : nat) :
  sep ≠ EmptyString →
  join ((split_from sep skip s).1 :: (split_from sep skip s).2) sep = string_drop skip s.
Proof.
  intros Hsep. revert skip. induction s as [|c s IH]; intros skip.
  - by destruct skip.
  - destruct skip as [|skip]; cbn [split_from string_drop]; [|apply IH].
    destruct (String.prefix sep (String c s)) eqn:Hp.
    + specialize (IH (String.length sep - 1)%nat).
      destruct (split_from sep _ s) as [piece pieces]. cbn [fst snd] in *.
      rewrite join_two, IH, app_nil_l.
      rewrite (prefix_string_drop _ _ Hp) at 1.
      destruct sep as [|x sep]; [done|]. cbn [String.length string_drop].
      by replace (S (String.length sep) - 1)%nat with (String.length sep) by lia.
    + specialize (IH 0%nat).
      destruct (split_from sep 0 s) as [piece pieces]. cbn [fst snd] in *.
      by rewrite join_cons_char, IH.
Qed.

Lemma join_split (s sep : string) :
  sep ≠ EmptyString → join (split s sep) sep = s.
Proof.
  intros Hsep. unfold split. pose proof (split_from_join sep s 0 Hsep) as H.
  by destruct (split_from sep 0 s).
Qed.

(** There is more than one piece exactly when the separator occurs. *)
Lemma split_from_single (sep s : string) :
  sep ≠ EmptyString →
  (split_from sep 0 s).2 = [] ↔ includes s sep = false.
Proof.
  intros Hsep. induction s as [|c s IH].
  - cbn. by destruct sep.
  - cbn [split_from includes]. destruct (String.prefix sep (String c s)) eqn:Hp.
    + destruct (split_from sep (String.length sep - 1) s). by split.
    + cbn [orb]. rewrite <- IH. by destruct (split_from sep 0 s).
Qed.

(** The first piece is a prefix of the text, and no piece holds the
    separator. *)
Lemma split_from_clean (sep s : string) (skip : nat) :
  sep ≠ EmptyString →
  Forall (λ piece, includes piece sep = false)
    ((split_from sep skip s).1 :: (split_from sep skip s).2).
Proof.
  intros Hsep. revert skip. induction s as [|c s IH]; intros skip.
  - destruct skip; cbn; repeat constructor; by destruct sep.
  - destruct skip as [|skip]; cbn [split_from]; [|apply IH].
    destruct (String.prefix sep (String c s)) eqn:Hp.
    + specialize (IH (String.length sep - 1)%nat).
      destruct (split_from sep _ s) as [piece pieces]. cbn [fst snd] in *.
      constructor; [|done]. by destruct sep.
    + pose proof (split_from_join sep s 0 Hsep) as Hjoin.
      specialize (IH 0%nat).
      destruct (split_from sep 0 s) as [piece pieces]. cbn [fst snd string_drop] in *.
      apply Forall_cons in IH as [Hpiece Hpieces]. constructor; [|done].
      cbn [includes]. rewrite Hpiece, orb_false_r.
      destruct (String.prefix sep (String c piece)) eqn:Hp'; [|done].
      rewrite <- Hp, <- Hjoin. destruct pieces as [|other pieces].
      * done.
      * rewrite join_two. change (String c (piece +:+ ?r)) with (String c piece +:+ r).
        by rewrite (prefix_app_r _ _ _ Hp').
Qed.

End SplitFacts.

(** *** The task submission form *)

Section TaskFormFacts.

Import JS TaskForm.

(** Whether the optional [onTaskSubmitted] prop is given. *)
Variable onTaskSubmitted : bool.

Lemma handleSubmit_passed (c : State) (srv : Server) :
  trim (task c) ≠ EmptyString → selectedRepo c ≠ EmptyString →
  run srv (handleSubmit apiClient onTaskSubmitted c) =
  submitted onTaskSubmitted c (srv _ TExecute (execute_request (trim (task c)) (selectedRepo c))).
Proof.
  intros Ht%truthy_true_iff Hr%truthy_true_iff.
  unfold handleSubmit, submitted, execute_request, ApiClient.executeTask.
  rewrite Ht, Hr. cbn [negb orb truthy_opt]. rewrite Hr.
  cbn [run bind await ApiClient.fetch fmap option_fmap option_map].
  destruct (srv _ TExecute _) as [[[] status [response|m]]|m]; cbn;
    destruct onTaskSubmitted; reflexivity.
Qed.

Lemma handleSubmit_blocked (c : State) (srv : Server) :
  trim (task c) = EmptyString ∨ selectedRepo c = EmptyString →
  run srv (handleSubmit apiClient onTaskSubmitted c) = (c, [Out PreventDefault]).
Proof.
  intros H. unfold handleSubmit.
  assert (negb (truthy (trim (task c))) || negb (truthy (selectedRepo c)) = true) as ->;
    [|done].
  destruct H as [H%truthy_false_iff|H%truthy_false_iff]; rewrite H; [done|].
  by rewrite orb_true_r.
Qed.

Lemma requests_submitted (c : State) (answer : FetchResult ExecuteTaskResponse.t) :
  requests (submitted onTaskSubmitted c answer).2 = [execute_request (trim (task c)) (selectedRepo c)].
Proof.
  unfold submitted.
  destruct answer as [[[] status [response|m]]|m]; try reflexivity.
  by destruct onTaskSubmitted.
Qed.

(** C8.  Submitting the description add README for the repository octo/repo
    sends exactly one request, POST /execute with the JSON body made of the
    task and the repository; when the response is successful, the description
    is cleared, the success message carries the returned task_id, and the
    submitted-callback, when given, is called once with that task_id. *)
Theorem submit_add_readme_scenario (c : State) (srv : Server)
    (resp : Response.t ExecuteTaskResponse.t) (response : ExecuteTaskResponse.t) :
  task c = "add README" →
  selectedRepo c = "octo/repo" →
  requests (run srv (handleSubmit apiClient onTaskSubmitted c)).2 = [add_readme_request]
  ∧ (srv _ TExecute add_readme_request = Responded resp →
     Response.ok resp = true →
     Response.json resp = Parsed response →
     task (run srv (handleSubmit apiClient onTaskSubmitted c)).1 = EmptyString
     ∧ success (run srv (handleSubmit apiClient onTaskSubmitted c)).1 =
       Some ("Task submitted successfully! ID: " +:+ ExecuteTaskResponse.task_id response)
     ∧ isSubmitting (run srv (handleSubmit apiClient onTaskSubmitted c)).1 = false
     ∧ calls (run srv (handleSubmit apiClient onTaskSubmitted c)).2 =
       PreventDefault ::
         (if onTaskSubmitted
          then [OnTaskSubmitted (ExecuteTaskResponse.task_id response)] else [])).
Proof.
  intros Ht Hr.
  assert (execute_request (trim (task c)) (selectedRepo c) = add_readme_request) as Hreq
    by (rewrite Ht, Hr; reflexivity).
  rewrite handleSubmit_passed by (rewrite ?Ht, ?Hr; done).
  rewrite Hreq. split.
  - by rewrite requests_submitted, Hreq.
  - intros -> Hok Hjson. destruct resp as [ok status js]. cbn in Hok, Hjson. subst ok js.
    cbn. by destruct onTaskSubmitted.
Qed.

(** C10.  The description sent in the body of POST /execute is the trimmed
    text: the entered text without a prefix and a suffix of white space, itself
    neither starting nor ending with white space.  When the description is
    empty or white space only, or when no repository is selected, the handler
    sends no request and returns the form state as it was. *)
Theorem handleSubmit_trims_or_does_nothing (c : State) (srv : Server) :
  (¬ whitespace_only (task c) → selectedRepo c ≠ EmptyString →
   requests (run srv (handleSubmit apiClient onTaskSubmitted c)).2 =
   [execute_request (trim (task c)) (selectedRepo c)])
  ∧ (∃ pre post,
       task c = pre +:+ trim (task c) +:+ post
       ∧ whitespace_only pre ∧ whitespace_only post
       ∧ starts_clean (trim (task c)) ∧ ends_clean (trim (task c)))
  ∧ (whitespace_only (task c) ∨ selectedRepo c = EmptyString →
     run srv (handleSubmit apiClient onTaskSubmitted c) = (c, [Out PreventDefault])
     ∧ requests (run srv (handleSubmit apiClient onTaskSubmitted c)).2 = []).
Proof.
  split; [|split].
  - intros Ht Hr. rewrite handleSubmit_passed, requests_submitted; [done| |done].
    by rewrite trim_empty_iff.
  - apply trim_split.
  - intros H. rewrite handleSubmit_blocked; [done|].
    destruct H as [H|H]; [left; by apply trim_empty_iff|by right].
Qed.

(** X5.  The submit button is enabled only when no submission is under way,
    the description is not blank, a repository is selected and a user is
    connected. *)
Theorem submit_enabled_only_when (user : option GitHubUser.t) (c : State) :
  submit_disabled user c = false →
  isSubmitting c = false
  ∧ ¬ whitespace_only (task c)
  ∧ selectedRepo c ≠ EmptyString
  ∧ is_Some user.
Proof.
  unfold submit_disabled. rewrite !orb_false_iff, !negb_false_iff.
  intros [[[Hsub Ht%truthy_true_iff] Hr%truthy_true_iff] Hu%bool_decide_eq_true].
  split_and!; try done. by rewrite <- trim_empty_iff.
Qed.

(** X19.  A submission that fails (no response, a response that is not
    successful, or a body that is not JSON) leaves the description and the
    repository in the form, clears the success message of an earlier
    submission, shows the error of the client, does not call the
    submitted-callback, and ends with isSubmitting off. *)
Theorem failed_submission_keeps_form (c : State) (srv : Server) :
  ¬ whitespace_only (task c) →
  selectedRepo c ≠ EmptyString →
  fetched (srv _ TExecute (execute_request (trim (task c)) (selectedRepo c))) = None →
  let after := (run srv (handleSubmit apiClient onTaskSubmitted c)).1 in
  task after = task c
  ∧ selectedRepo after = selectedRepo c
  ∧ success after = None
  ∧ error after
    = failure_message (srv _ TExecute (execute_request (trim (task c)) (selectedRepo c)))
  ∧ is_Some (error after)
  ∧ isSubmitting after = false
  ∧ calls (run srv (handleSubmit apiClient onTaskSubmitted c)).2 = [PreventDefault].
Proof.
  intros Ht Hr Hfailed after. subst after.
  rewrite handleSubmit_passed; [|by rewrite trim_empty_iff|done].
  unfold submitted.
  destruct (srv _ TExecute _) as [[[] status [response|m]]|m]; cbn; try done;
    by split_and!.
Qed.

Lemma string_app_nil_r (a : string) : a +:+ EmptyString = a.
Proof. induction a as [|x a IH]; [done|]. rewrite app_cons. by f_equal. Qed.

(** X20.  The text of a repository option ends with nothing when the
    repository has no description or an empty one, and otherwise with a dash
    and the description cut after 60 code units, three dots marking the cut;
    this is the same cut as the one of the default pull-request title, though
    the two are written differently.  The text before it is the full name, a
    space, and the mark of a private repository. *)
Theorem option_label_shape (repo : GitHubRepo.t) :
  (GitHubRepo.description repo = None ∨ GitHubRepo.description repo = Some EmptyString →
   option_label repo
   = GitHubRepo.full_name repo +:+ " " +:+
     (if GitHubRepo.private repo then "(Private)" else EmptyString))
  ∧ (∀ description,
       GitHubRepo.description repo = Some description → description ≠ EmptyString →
       ∃ shown,
         option_label repo
         = GitHubRepo.full_name repo +:+ " " +:+
           (if GitHubRepo.private repo then "(Private)" else EmptyString) +:+
           " - " +:+ shown
         ∧ (String.length shown ≤ 63)%nat
         ∧ ((String.length description ≤ 60)%nat → shown = description)
         ∧ ∀ t : Task.t,
             Task.task t = description →
             TaskDetails.default_pr_title t = "AI Generated Changes: " +:+ shown).
Proof.
  unfold option_label, description_label. split.
  - intros [-> | ->]; cbn; by rewrite !string_app_nil_r.
  - intros description -> Hd%truthy_true_iff. rewrite Hd.
    destruct (substring_split description 60) as (rest & Hsplit & Hlen).
    destruct (60 <? String.length description)%nat eqn:Hlong.
    + apply Nat.ltb_lt in Hlong. exists (substring description 0 60 +:+ "...").
      split_and!.
      * done.
      * rewrite string_length_app, Hlen. change (String.length "...") with 3%nat. lia.
      * lia.
      * intros t Ht. unfold TaskDetails.default_pr_title. rewrite Ht.
        by rewrite (proj2 (Nat.ltb_lt _ _) Hlong).
    + apply Nat.ltb_ge in Hlong. exists description.
      rewrite substring_all, string_app_nil_r by done. split_and!.
      * done.
      * lia.
      * done.
      * intros t Ht. unfold TaskDetails.default_pr_title. rewrite Ht.
        by rewrite (proj2 (Nat.ltb_ge _ _) Hlong).
Qed.

End TaskFormFacts.

(** *** The task list *)

Section TasksListFacts.

Import TasksList.

(** C9.  With the filter on running, fetching the tasks sends GET /running
    and nothing else; the client returns the running_tasks of the body as tasks
    and its count as total, and the list displays these tasks.  With the filter
    on all it sends GET /tasks and the client returns the body as it is. *)
Theorem fetchTasks_by_filter (c : State) (srv : Server) :
  (filter c = running →
   (run srv (fetchTasks apiClient c)).2 = [Sent running_request]
   ∧ ∀ (resp : Response.t RunningData.t) (data : RunningData.t),
       srv _ TRunning running_request = Responded resp →
       Response.ok resp = true →
       Response.json resp = Parsed data →
       (run srv (ApiClient.listRunningTasks apiClient)).1 =
         Ok (TaskListResponse.mk (RunningData.running_tasks data) (RunningData.count data))
       ∧ tasks (run srv (fetchTasks apiClient c)).1 = RunningData.running_tasks data)
  ∧ (filter c = all →
     (run srv (fetchTasks apiClient c)).2 = [Sent tasks_request]
     ∧ ∀ (resp : Response.t TaskListResponse.t) (body : TaskListResponse.t),
         srv _ TTasks tasks_request = Responded resp →
         Response.ok resp = true →
         Response.json resp = Parsed body →
         (run srv (ApiClient.listAllTasks apiClient)).1 = Ok body
         ∧ tasks (run srv (fetchTasks apiClient c)).1 = TaskListResponse.tasks body).
Proof.
  unfold fetchTasks, running_request, tasks_request. split; intros ->.
  - cbn [run bind await ApiClient.listRunningTasks ApiClient.fetch].
    unfold ApiClient.get. split.
    + by destruct (srv _ TRunning _) as [[[] status [data|m]]|m].
    + intros resp data -> Hok Hjson. destruct resp as [ok status js].
      cbn in Hok, Hjson. by subst ok js.
  - cbn [run bind await ApiClient.listAllTasks ApiClient.fetch].
    unfold ApiClient.get. split.
    + by destruct (srv _ TTasks _) as [[[] status [data|m]]|m].
    + intros resp data -> Hok Hjson. destruct resp as [ok status js].
      cbn in Hok, Hjson. by subst ok js.
Qed.


Lemma string_app_inv_head (a b c : string) : a +:+ b = a +:+ c → b = c.
Proof.
  induction a as [|x a IH]; [done|]. rewrite !app_cons. intros [= H]. by apply IH.
Qed.

(** Fetching the list sends the request of the filter and nothing else. *)
Lemma fetchTasks_events (c : State) (srv : Server) :
  (run srv (fetchTasks apiClient c)).2 = [Sent (list_request (filter c))].
Proof.
  unfold fetchTasks, list_request, tasks_request, running_request, completed_request.
  destruct (filter c);
    cbn [run bind await ApiClient.listAllTasks ApiClient.listRunningTasks
         ApiClient.listCompletedTasks ApiClient.fetch]; unfold ApiClient.get.
  - by destruct (srv _ TTasks _) as [[[] status [data|m]]|m].
  - by destruct (srv _ TRunning _) as [[[] status [data|m]]|m].
  - by destruct (srv _ TCompleted _) as [[[] status [data|m]]|m].
Qed.

(** X18.  Fetching the list sends one request, GET /tasks, /running or
    /completed by the filter, and the three requests differ.  When the backend
    gives the tasks they replace the tasks shown and no error is shown; when
    it does not, the tasks shown stay and the error of the client is shown.
    Either way the loading indicator is off afterwards and the filter is what
    it was. *)
Theorem fetchTasks_outcome (c : State) (srv : Server) :
  let after := (run srv (fetchTasks apiClient c)).1 in
  (run srv (fetchTasks apiClient c)).2 = [Sent (list_request (filter c))]
  ∧ (∀ f g, list_request f = list_request g → f = g)
  ∧ tasks after = default (tasks c) (list_fetched srv (filter c))
  ∧ error after = list_failure srv (filter c)
  ∧ (list_fetched srv (filter c) = None ↔ is_Some (list_failure srv (filter c)))
  ∧ loading after = false
  ∧ filter after = filter c.
Proof.
  intros after. subst after. split_and!.
  - apply fetchTasks_events.
  - unfold list_request, tasks_request, running_request, completed_request.
    intros [] []; try done; intros [= H%string_app_inv_head]; discriminate H.
  - unfold fetchTasks, list_fetched, tasks_request, running_request, completed_request.
    destruct (filter c);
      cbn [run bind await ApiClient.listAllTasks ApiClient.listRunningTasks
           ApiClient.listCompletedTasks ApiClient.fetch]; unfold ApiClient.get.
    + by destruct (srv _ TTasks _) as [[[] status [data|m]]|m].
    + by destruct (srv _ TRunning _) as [[[] status [data|m]]|m].
    + by destruct (srv _ TCompleted _) as [[[] status [data|m]]|m].
  - unfold fetchTasks, list_failure, tasks_request, running_request, completed_request.
    destruct (filter c);
      cbn [run bind await ApiClient.listAllTasks ApiClient.listRunningTasks
           ApiClient.listCompletedTasks ApiClient.fetch]; unfold ApiClient.get.
    + by destruct (srv _ TTasks _) as [[[] status [data|m]]|m].
    + by destruct (srv _ TRunning _) as [[[] status [data|m]]|m].
    + by destruct (srv _ TCompleted _) as [[[] status [data|m]]|m].
  - unfold list_fetched, list_failure. destruct (filter c).
    + destruct (srv _ TTasks _) as [[[] status [data|m]]|m]; cbn;
        split; try done; try (by eauto); by intros [x [=]].
    + destruct (srv _ TRunning _) as [[[] status [data|m]]|m]; cbn;
        split; try done; try (by eauto); by intros [x [=]].
    + destruct (srv _ TCompleted _) as [[[] status [data|m]]|m]; cbn;
        split; try done; try (by eauto); by intros [x [=]].
  - unfold fetchTasks.
    destruct (filter c);
      cbn [run bind await ApiClient.listAllTasks ApiClient.listRunningTasks
           ApiClient.listCompletedTasks ApiClient.fetch].
    + by destruct (srv _ TTasks _) as [[[] status [data|m]]|m].
    + by destruct (srv _ TRunning _) as [[[] status [data|m]]|m].
    + by destruct (srv _ TCompleted _) as [[[] status [data|m]]|m].
  - unfold fetchTasks.
    destruct (filter c) eqn:Hf;
      cbn [run bind await ApiClient.listAllTasks ApiClient.listRunningTasks
           ApiClient.listCompletedTasks ApiClient.fetch].
    + by destruct (srv _ TTasks _) as [[[] status [data|m]]|m].
    + by destruct (srv _ TRunning _) as [[[] status [data|m]]|m].
    + by destruct (srv _ TCompleted _) as [[[] status [data|m]]|m].
Qed.

End TasksListFacts.

(** *** The task details panel *)

Section TaskDetailsFacts.

Import JS TaskDetails.

(** The props of the panel and the session. *)
Variable task : option Task.t.
Variable session : option Session.t.

Lemma hasChanges_false_iff (updatedTask currentTask : Task.t) :
  hasChanges updatedTask currentTask = false ↔ tracked_fields_equal updatedTask currentTask.
Proof.
  unfold hasChanges, tracked_fields_equal, strict_ne.
  rewrite !orb_false_iff, !bool_decide_eq_false.
  split.
  - intros ((((H1 & H2) & H3) & H4) & H5).
    split_and!; try (by apply dec_stable).
    apply stringify_history_inj. by apply dec_stable.
  - intros (H1 & H2 & H3 & H4 & H5). rewrite H1, H2, H3, H4, H5. naive_solver.
Qed.

Lemma hasChanges_true_iff (updatedTask currentTask : Task.t) :
  hasChanges updatedTask currentTask = true ↔ ¬ tracked_fields_equal updatedTask currentTask.
Proof.
  rewrite <- hasChanges_false_iff. by destruct (hasChanges updatedTask currentTask).
Qed.

(** [fetchTaskData] leaves the displayed task as it is. *)
Lemma fetchTaskData_currentTask (srv : Server) (c st : State) :
  currentTask (run srv (fetchTaskData apiClient task c st)).1 = currentTask st.
Proof.
  unfold fetchTaskData. destruct task as [task'|]; [|done].
  destruct (negb _ || negb _); [done|].
  cbn [run bind await ApiClient.getTaskContent ApiClient.fetch].
  unfold ApiClient.get.
  destruct (srv _ TContent _) as [[[] status [content|m]]|m]; cbn;
    by destruct (isMounted c).
Qed.

Lemma fetchTaskData_events (srv : Server) (c st : State) (task' : Task.t) :
  task = Some task' → Task.id task' ≠ EmptyString → isMounted c = true →
  (run srv (fetchTaskData apiClient task c st)).2 = [Sent (content_request (Task.id task'))].
Proof.
  intros -> Hid%truthy_true_iff Hm. unfold fetchTaskData. rewrite Hid, Hm.
  cbn [negb orb run bind await ApiClient.getTaskContent ApiClient.fetch].
  unfold ApiClient.get, content_request.
  by destruct (srv _ TContent _) as [[[] status [content|m]]|m].
Qed.

Lemma silentRefreshTask_run (srv : Server) (c : State) (currentTask' : Task.t) :
  currentTask c = Some currentTask' → Task.id currentTask' ≠ EmptyString →
  isMounted c = true →
  run srv (silentRefreshTask apiClient task c c) =
  refreshed task srv c currentTask' (srv _ TStatus (status_request (Task.id currentTask'))).
Proof.
  intros Hc Hid%truthy_true_iff Hm. unfold silentRefreshTask, refreshed.
  rewrite Hc, Hid, Hm.
  cbn [negb orb run bind await ApiClient.getTaskStatus ApiClient.fetch].
  unfold ApiClient.get, status_request.
  destruct (srv _ TStatus _) as [[[] status [updatedTask|m]]|m]; cbn; try done.
  destruct (hasChanges _ _); [|done].
  destruct (strict_ne _ _ && is_terminal _); [|done].
  by destruct (run srv _).
Qed.

Lemma silentRefreshTask_idle (srv : Server) (c : State) :
  has_id (currentTask c) = false ∨ isMounted c = false →
  run srv (silentRefreshTask apiClient task c c) = (c, []).
Proof.
  unfold silentRefreshTask, has_id. destruct (currentTask c) as [cur|]; [|done].
  intros [->| ->]; [done|]. by rewrite orb_true_r.
Qed.


Lemma prefix_app (a b c : string) :
  String.prefix (a +:+ b) (a +:+ c) = String.prefix b c.
Proof.
  induction a as [|x a IH]; [done|].
  rewrite !app_cons. cbn. by destruct (ascii_dec x x).
Qed.

Lemma is_content_request_content (taskId : string) :
  is_content_request (content_request taskId) = true.
Proof.
  unfold is_content_request, content_request. cbn.
  rewrite prefix_app. cbn. by destruct taskId.
Qed.

Lemma is_content_request_status (taskId : string) :
  is_content_request (status_request taskId) = false.
Proof.
  unfold is_content_request, status_request. cbn. by rewrite prefix_app.
Qed.


Lemma content_fetches_sent (req : Request.t) (evs : list Event) :
  content_fetches (Sent req :: evs) =
  ((if is_content_request req then 1 else 0) + content_fetches evs)%nat.
Proof.
  unfold content_fetches. cbn. by destruct (is_content_request req).
Qed.

Lemma fetchTaskData_isMounted (srv : Server) (c st : State) :
  isMounted (run srv (fetchTaskData apiClient task c st)).1 = isMounted st.
Proof.
  unfold fetchTaskData. destruct task as [task'|]; [|done].
  destruct (negb _ || negb _); [done|].
  cbn [run bind await ApiClient.getTaskContent ApiClient.fetch].
  unfold ApiClient.get.
  destruct (srv _ TContent _) as [[[] status [content|m]]|m]; cbn;
    by destruct (isMounted c).
Qed.

Lemma poll_isMounted (srv : Server) (c : State) :
  isMounted (poll apiClient task srv c).1 = isMounted c.
Proof.
  unfold poll. destruct (polling_enabled c); [|done].
  destruct (has_id (currentTask c)) eqn:Hid, (isMounted c) eqn:Hm;
    try (rewrite silentRefreshTask_idle by auto; done).
  unfold has_id in Hid. destruct (currentTask c) as [cur|] eqn:Hc; [|done].
  apply truthy_true_iff in Hid.
  rewrite (silentRefreshTask_run srv c cur) by done. unfold refreshed.
  destruct (srv _ TStatus _) as [[[] status [updatedTask|m]]|m]; try done.
  destruct (hasChanges _ _); [|done].
  destruct (strict_ne _ _ && is_terminal _); [|done].
  cbn [fst]. by rewrite fetchTaskData_isMounted.
Qed.

(** The guard of the content fetch, seen from a running task. *)
Lemma fetch_guard (s : Status.t) :
  strict_ne s Status.running && is_terminal s = is_terminal s.
Proof. by destruct s. Qed.

(** One firing sends a content request exactly when it takes the displayed
    status from running into a terminal state. *)
Lemma poll_content_fetches (srv : Server) (c : State) (task' : Task.t) :
  task = Some task' → Task.id task' ≠ EmptyString → isMounted c = true →
  content_fetches (poll apiClient task srv c).2 =
  if enters_terminal c (poll apiClient task srv c).1 then 1%nat else 0%nat.
Proof.
  intros Ht Hid Hm. unfold poll, enters_terminal, displayed_status, polling_enabled.
  destruct (currentTask c) as [cur|] eqn:Hc.
  2: { cbn. by rewrite bool_decide_eq_false_2. }
  destruct (decide (Task.status cur = Status.running)) as [Hrun|Hrun].
  2: { rewrite (bool_decide_eq_false_2 _ Hrun). cbn [snd fst].
       rewrite bool_decide_eq_false_2; [done|cbn; congruence]. }
  rewrite (bool_decide_eq_true_2 _ Hrun), bool_decide_eq_true_2
    by (cbn; congruence).
  cbn [andb]. unfold status_is_terminal.
  destruct (decide (Task.id cur = EmptyString)) as [Hcur|Hcur].
  { rewrite silentRefreshTask_idle.
    - cbn [fst snd]. by rewrite Hc, Hrun.
    - left. rewrite Hc. cbn. by apply truthy_false_iff. }
  rewrite (silentRefreshTask_run srv c cur) by done. unfold refreshed.
  destruct (srv _ TStatus _) as [[[] status [updatedTask|m]]|m]; cbn [fst snd];
    rewrite ?content_fetches_sent, ?is_content_request_status, ?Hc, ?Hrun; try done.
  destruct (hasChanges _ _); cbn [fst snd];
    rewrite ?content_fetches_sent, ?is_content_request_status, ?Hc, ?Hrun; try done.
  rewrite ?Hrun, fetch_guard.
  destruct (is_terminal (Task.status updatedTask)) eqn:Hterm; cbn [fst snd].
  - rewrite content_fetches_sent, is_content_request_status.
    rewrite (fetchTaskData_events _ _ _ task') by done.
    rewrite content_fetches_sent, is_content_request_content.
    rewrite fetchTaskData_currentTask. cbn. by rewrite Hterm.
  - rewrite content_fetches_sent, is_content_request_status. cbn. by rewrite Hterm.
Qed.

Lemma poll_terminal (srv : Server) (c : State) :
  status_is_terminal c = true → poll apiClient task srv c = (c, []).
Proof.
  unfold status_is_terminal, poll, polling_enabled.
  destruct (currentTask c) as [cur|]; [|done].
  by destruct (Task.status cur).
Qed.

Lemma polls_terminal (srvs : list Server) (c : State) :
  status_is_terminal c = true →
  polls apiClient task srvs c = (replicate (length srvs) c, []).
Proof.
  intros Hc. induction srvs as [|srv srvs IH]; [done|].
  cbn [polls]. by rewrite poll_terminal, IH.
Qed.

Lemma polls_cons (srv : Server) (srvs : list Server) (c : State) :
  polls apiClient task (srv :: srvs) c =
  ((poll apiClient task srv c).1 ::
     (polls apiClient task srvs (poll apiClient task srv c).1).1,
   (poll apiClient task srv c).2 ++
     (polls apiClient task srvs (poll apiClient task srv c).1).2).
Proof.
  cbn [polls]. destruct (poll apiClient task srv c) as [c1 evs1]. cbn [fst snd].
  by destruct (polls apiClient task srvs c1).
Qed.

(** *** The poll in the event loop *)










Lemma happenings_cons (h : TaskDetailsLoop.Happening) (hs : list TaskDetailsLoop.Happening)
    (l : EventLoop.Loop State) :
  TaskDetailsLoop.happenings apiClient task (h :: hs) l =
  ((TaskDetailsLoop.happen apiClient task h l).1 ::
     (TaskDetailsLoop.happenings apiClient task hs
        (TaskDetailsLoop.happen apiClient task h l).1).1,
   (TaskDetailsLoop.happen apiClient task h l).2 ++
     (TaskDetailsLoop.happenings apiClient task hs
        (TaskDetailsLoop.happen apiClient task h l).1).2).
Proof.
  cbn [TaskDetailsLoop.happenings].
  destruct (TaskDetailsLoop.happen apiClient task h l) as [l1 evs1]. cbn [fst snd].
  by destruct (TaskDetailsLoop.happenings apiClient task hs l1).
Qed.



(** The jobs are the handlers: when every answer arrives at once, the job of
    the silent poll leaves the state and sends the requests of
    [silentRefreshTask] run to its end. *)
Lemma fetchTaskData_atomic (srv : Server) (c st : State) :
  EventLoop.atomic srv (TaskDetailsLoop.fetchTaskData apiClient task c EventLoop.Finished) st
  = run srv (fetchTaskData apiClient task c st).
Proof.
  unfold TaskDetailsLoop.fetchTaskData, fetchTaskData.
  destruct task as [task'|]; [|done].
  destruct (truthy (Task.id task')), (isMounted c); try done.
  cbn [negb orb EventLoop.update_if EventLoop.awaiting EventLoop.atomic run bind await
       ApiClient.getTaskContent ApiClient.fetch].
  unfold ApiClient.get.
  by destruct (srv _ TContent _) as [[[] status [content|m]]|m].
Qed.

Lemma silentRefreshTask_atomic (srv : Server) (c st : State) :
  EventLoop.atomic srv (TaskDetailsLoop.silentRefreshTask apiClient task c) st
  = run srv (silentRefreshTask apiClient task c st).
Proof.
  unfold TaskDetailsLoop.silentRefreshTask, silentRefreshTask.
  destruct (currentTask c) as [cur|]; [|done].
  destruct (truthy (Task.id cur)), (isMounted c) eqn:Hm; try done.
  cbn [negb orb EventLoop.awaiting EventLoop.atomic run bind await
       ApiClient.getTaskStatus ApiClient.fetch].
  unfold ApiClient.get.
  destruct (srv _ TStatus _) as [[[] status [updatedTask|m]]|m]; try done.
  cbn [negb EventLoop.awaiting EventLoop.atomic run bind await ApiClient.json
       Response.ok Response.json resolve throw].
  destruct (hasChanges updatedTask cur); [|done].
  destruct (strict_ne _ _ && is_terminal _); [|done].
  cbn [EventLoop.atomic]. rewrite fetchTaskData_atomic.
  by destruct (run srv _).
Qed.

(** A firing whose requests are answered before anything else happens is a
    firing of [poll]. *)
Lemma settled_poll (srv : Server) (c : State) :
  ∃ l1 l2,
    TaskDetailsLoop.happenings apiClient task
      [TaskDetailsLoop.Fire; TaskDetailsLoop.Answer 0 srv; TaskDetailsLoop.Answer 0 srv]
      (EventLoop.resting c)
    = ([l1; l2; EventLoop.resting (poll apiClient task srv c).1],
       (poll apiClient task srv c).2).
Proof.
  unfold poll. rewrite <- silentRefreshTask_atomic.
  unfold TaskDetailsLoop.happenings, TaskDetailsLoop.happen, EventLoop.resting,
    EventLoop.answer, EventLoop.start.
  cbn [EventLoop.live EventLoop.pending].
  destruct (polling_enabled c); [|by eexists _, _].
  unfold TaskDetailsLoop.silentRefreshTask.
  destruct (currentTask c) as [cur|]; [|by eexists _, _].
  destruct (truthy (Task.id cur)), (isMounted c) eqn:Hm; try by eexists _, _.
  unfold ApiClient.getTaskStatus, ApiClient.fetch, ApiClient.get. cbn.
  destruct (srv _ TStatus _) as [[[] status [updatedTask|m]]|m]; cbn;
    try by eexists _, _.
  destruct (hasChanges updatedTask cur); cbn; [|by eexists _, _].
  destruct (strict_ne _ _ && is_terminal _); cbn; [|by eexists _, _].
  unfold TaskDetailsLoop.fetchTaskData.
  destruct task as [task'|]; cbn; [|by eexists _, _].
  rewrite Hm. destruct (truthy (Task.id task')); cbn; [|by eexists _, _].
  destruct (srv _ TContent _) as [[[] status' [content|m]]|m]; cbn; by eexists _, _.
Qed.

Lemma happenings_app (hs1 hs2 : list TaskDetailsLoop.Happening) (l : EventLoop.Loop State) :
  TaskDetailsLoop.happenings apiClient task (hs1 ++ hs2) l
  = ((TaskDetailsLoop.happenings apiClient task hs1 l).1
       ++ (TaskDetailsLoop.happenings apiClient task hs2
             (default l (last (TaskDetailsLoop.happenings apiClient task hs1 l).1))).1,
     (TaskDetailsLoop.happenings apiClient task hs1 l).2
       ++ (TaskDetailsLoop.happenings apiClient task hs2
             (default l (last (TaskDetailsLoop.happenings apiClient task hs1 l).1))).2).
Proof.
  revert l. induction hs1 as [|h hs1 IH]; intros l.
  { cbn. by destruct (TaskDetailsLoop.happenings apiClient task hs2 l). }
  rewrite <- app_comm_cons, !happenings_cons, IH. cbn [fst snd].
  rewrite last_cons, <- List.app_assoc.
  by destruct (last _).
Qed.

(** Firings that are each answered before the next never overlap, and they
    are the firings of [polls]. *)
Lemma settled_polls (srvs : list Server) (c : State) :
  TaskDetailsLoop.no_overlap apiClient task (TaskDetailsLoop.settled srvs)
    (EventLoop.resting c) = true
  ∧ (TaskDetailsLoop.happenings apiClient task (TaskDetailsLoop.settled srvs)
       (EventLoop.resting c)).2
    = (polls apiClient task srvs c).2
  ∧ default (EventLoop.resting c)
      (last (TaskDetailsLoop.happenings apiClient task (TaskDetailsLoop.settled srvs)
               (EventLoop.resting c)).1)
    = EventLoop.resting (default c (last (polls apiClient task srvs c).1)).
Proof.
  revert c. induction srvs as [|srv srvs IH]; intros c; [done|].
  unfold TaskDetailsLoop.settled in *. rewrite bind_cons.
  destruct (settled_poll srv c) as (l1 & l2 & Hpoll).
  destruct (IH (poll apiClient task srv c).1) as (Hno & Hevents & Hlast).
  rewrite happenings_app, Hpoll, polls_cons. cbn [fst snd last default id from_option].
  split_and!.
  - change ([TaskDetailsLoop.Fire; TaskDetailsLoop.Answer 0 srv;
             TaskDetailsLoop.Answer 0 srv] ++ ?rest)
      with (TaskDetailsLoop.Fire :: TaskDetailsLoop.Answer 0 srv ::
            TaskDetailsLoop.Answer 0 srv :: rest).
    pose proof Hpoll as Hsteps. rewrite !happenings_cons in Hsteps.
    injection Hsteps as _ _ H3 _.
    cbn [TaskDetailsLoop.no_overlap EventLoop.pending EventLoop.resting].
    etrans; [|exact Hno]. f_equal. exact H3.
  - by rewrite Hevents.
  - rewrite last_app, last_cons.
    destruct (last (TaskDetailsLoop.happenings _ _ _ _).1) as [l3|];
      cbn [default from_option id last] in *; rewrite Hlast, last_cons;
      by destruct (last (polls apiClient task srvs _).1).
Qed.


(** C6.  When feedback is sent on a displayed task and the backend answers
    with success: the feedback modal is closed, the success modal shows the
    returned feedback_task_id, and the displayed task is a new task whose id is
    that feedback_task_id, whose status is running and whose session_id is the
    one of the task it replaces; the poll is then enabled, with an interval of
    1000 ms, and its next firing asks for the status of the feedback task. *)
Theorem feedback_success_starts_feedback_task (now : string) (srv : Server) (c : State)
    (currentTask' : Task.t) (resp : Response.t FeedbackResponse.t)
    (response : FeedbackResponse.t) :
  currentTask c = Some currentTask' →
  Task.id currentTask' ≠ EmptyString →
  ¬ whitespace_only (feedback c) →
  srv _ TFeedback (feedback_request (Task.id currentTask') (trim (feedback c)))
    = Responded resp →
  Response.ok resp = true →
  Response.json resp = Parsed response →
  FeedbackResponse.success response = true →
  showFeedbackModal (after_feedback now srv c) = false
  ∧ feedback_success_modal (after_feedback now srv c)
    = Some (Some (FeedbackResponse.feedback_task_id response))
  ∧ (∃ feedbackTask,
       currentTask (after_feedback now srv c) = Some feedbackTask
       ∧ Task.id feedbackTask = FeedbackResponse.feedback_task_id response
       ∧ Task.status feedbackTask = Status.running
       ∧ Task.session_id feedbackTask = Task.session_id currentTask')
  ∧ polling_enabled (after_feedback now srv c) = true
  ∧ polling_interval = 1000%nat
  ∧ (FeedbackResponse.feedback_task_id response ≠ EmptyString →
     isMounted c = true →
     ∀ srv' : Server, ∃ evs,
       (poll apiClient task srv' (after_feedback now srv c)).2 =
       Sent (status_request (FeedbackResponse.feedback_task_id response)) :: evs).
Proof.
  intros Hc Hid Hfb Hsrv Hok Hjson Hsuccess.
  assert (trim (feedback c) ≠ EmptyString) as Ht%truthy_true_iff
    by (by rewrite trim_empty_iff).
  apply truthy_true_iff in Hid as Hid'.
  assert (after_feedback now srv c =
          setSendingFeedback false
            (setTaskContent None
               (setCurrentTask
                  (Some (Task.mk (FeedbackResponse.feedback_task_id response)
                           ("Feedback: " +:+ trim (feedback c)) Status.running now
                           Null Undefined Undefined None None (Task.session_id currentTask')
                           None Undefined))
                  (setShowFeedbackSuccess true
                     (setFeedbackTaskId
                        (Some (FeedbackResponse.feedback_task_id response))
                        (setFeedback EmptyString
                           (setShowFeedbackModal false
                              (setError None (setSendingFeedback true c))))))))) as Heq.
  { unfold after_feedback, sendFeedback. rewrite Hc, Hid', Ht.
    cbn [negb orb run bind await ApiClient.sendFeedback ApiClient.fetch
         ApiClient.stringify_feedback_request FeedbackRequest.feedback].
    unfold feedback_request in Hsrv.
    unfold ApiClient.json_headers, ApiClient.stringify_feedback_request.
    cbn [FeedbackRequest.feedback]. rewrite Hsrv. destruct resp as [ok status js]. cbn in Hok, Hjson. subst ok js.
    cbn. by rewrite Hsuccess. }
  rewrite Heq. split_and!; try done.
  - eexists. split; [reflexivity|done].
  - intros Hfid Hm srv'. unfold poll.
    change (polling_enabled _) with true. cbn match.
    erewrite silentRefreshTask_run; [|reflexivity|done|done].
    unfold refreshed. cbn [Task.id].
    destruct (srv' _ TStatus _) as [[[] status [updatedTask|m]]|m]; try by eexists.
    destruct (hasChanges _ _); [|by eexists].
    destruct (strict_ne _ _ && is_terminal _); by eexists.
Qed.

(** *** Two more properties of the silent poll *)

(** X1.  A silent poll whose fetch fails shows no error: it leaves the state of
    the panel, its error field included, as it was. *)
Theorem silent_poll_swallows_errors (srv : Server) (c : State) (currentTask' : Task.t) :
  currentTask c = Some currentTask' →
  Task.id currentTask' ≠ EmptyString →
  isMounted c = true →
  fetch_failed (srv _ TStatus (status_request (Task.id currentTask'))) →
  run srv (silentRefreshTask apiClient task c c) =
  (c, [Sent (status_request (Task.id currentTask'))]).
Proof.
  intros Hc Hid Hm Hfail.
  rewrite (silentRefreshTask_run srv c currentTask') by done. unfold refreshed.
  destruct (srv _ TStatus _) as [[[] status [updatedTask|m]]|m]; try done.
  destruct Hfail as [Hok|[m Hjson]]; discriminate.
Qed.

(** X2.  When the poll sees the displayed task enter a terminal state, the
    content that it requests is the content of the task given as the [task]
    prop, whatever the id of the displayed task. *)
Theorem silent_poll_fetches_content_of_prop (srv : Server) (c : State)
    (task' currentTask' updatedTask : Task.t) (resp : Response.t Task.t) :
  task = Some task' →
  Task.id task' ≠ EmptyString →
  isMounted c = true →
  currentTask c = Some currentTask' →
  Task.id currentTask' ≠ EmptyString →
  Task.status currentTask' = Status.running →
  srv _ TStatus (status_request (Task.id currentTask')) = Responded resp →
  Response.ok resp = true →
  Response.json resp = Parsed updatedTask →
  is_terminal (Task.status updatedTask) = true →
  (run srv (silentRefreshTask apiClient task c c)).2 =
  [Sent (status_request (Task.id currentTask')); Sent (content_request (Task.id task'))].
Proof.
  intros Ht Hid Hm Hc Hcur Hrun Hsrv Hok Hjson Hterm.
  rewrite (silentRefreshTask_run srv c currentTask') by done.
  rewrite Hsrv. destruct resp as [ok status js]. cbn in Hok, Hjson. subst ok js.
  cbn [refreshed].
  assert (¬ tracked_fields_equal updatedTask currentTask') as Hch%hasChanges_true_iff.
  { intros [Hs _]. rewrite Hs, Hrun in Hterm. discriminate Hterm. }
  rewrite Hch, Hrun, fetch_guard, Hterm. cbn [snd].
  by rewrite (fetchTaskData_events _ _ _ task').
Qed.

(** *** Deleting, and creating a pull request *)

(** X6.  Confirming the deletion of the displayed task sends DELETE
    /delete/<id> and nothing else.  On a successful response the handler calls
    onTaskDeleted, when given, with the id, and then onClose, and sets no
    error; on a response that is not successful it calls neither and shows the
    error carrying the HTTP status. *)
Theorem confirm_delete_scenario (onTaskDeleted : bool) (srv : Server) (c : State)
    (currentTask' : Task.t) :
  currentTask c = Some currentTask' →
  Task.id currentTask' ≠ EmptyString →
  isMounted c = true →
  requests (run srv (confirmDelete apiClient onTaskDeleted c c)).2
  = [delete_request (Task.id currentTask')]
  ∧ (∀ (resp : Response.t DeleteTaskResponse.t) (body : DeleteTaskResponse.t),
       srv _ TDelete (delete_request (Task.id currentTask')) = Responded resp →
       Response.ok resp = true →
       Response.json resp = Parsed body →
       calls (run srv (confirmDelete apiClient onTaskDeleted c c)).2
       = (if onTaskDeleted then [OnTaskDeleted (Task.id currentTask')] else [])
         ++ [OnClose]
       ∧ error (run srv (confirmDelete apiClient onTaskDeleted c c)).1 = None)
  ∧ (∀ resp : Response.t DeleteTaskResponse.t,
       srv _ TDelete (delete_request (Task.id currentTask')) = Responded resp →
       Response.ok resp = false →
       calls (run srv (confirmDelete apiClient onTaskDeleted c c)).2 = []
       ∧ error (run srv (confirmDelete apiClient onTaskDeleted c c)).1
         = Some ("HTTP error! status: " +:+ of_nat (Response.status resp))
       ∧ deleting (run srv (confirmDelete apiClient onTaskDeleted c c)).1 = false).
Proof.
  intros Hc Hid%truthy_true_iff Hm. unfold confirmDelete, delete_request.
  rewrite Hc, Hid, Hm.
  cbn [negb orb run bind await ApiClient.deleteTask ApiClient.fetch].
  split_and!.
  - destruct (srv _ TDelete _) as [[[] status [body|m]]|m]; cbn;
      by destruct onTaskDeleted.
  - intros resp body -> Hok Hjson. destruct resp as [ok status js].
    cbn in Hok, Hjson. subst ok js. cbn. by destruct onTaskDeleted.
  - intros resp -> Hok. destruct resp as [ok status js]. cbn in Hok. by subst ok.
Qed.

(** X7.  Creating the pull request of the displayed task with the token of the
    session sends POST /create-pr/<id> with the token and the trimmed title and
    body, each left out when empty.  When the response is successful and
    carries success and a pr_url, the handler opens that URL in a new tab,
    closes the modal and announces the pull request. *)
Theorem create_pull_request_success (srv : Server) (c : State) (currentTask' : Task.t)
    (token url : string) (resp : Response.t CreatePRResponse.t)
    (response : CreatePRResponse.t) :
  currentTask c = Some currentTask' →
  Task.id currentTask' ≠ EmptyString →
  session ≫= Session.accessToken = Some token →
  token ≠ EmptyString →
  srv _ TCreatePR
    (create_pr_request (Task.id currentTask')
       (CreatePRRequest.mk token (or_undefined (trim (prTitle c)))
          (or_undefined (trim (prBody c)))))
  = Responded resp →
  Response.ok resp = true →
  Response.json resp = Parsed response →
  CreatePRResponse.success response = true →
  CreatePRResponse.pr_url response = Some url →
  url ≠ EmptyString →
  (run srv (createPullRequest apiClient session c c)).2
  = [Sent (create_pr_request (Task.id currentTask')
             (CreatePRRequest.mk token (or_undefined (trim (prTitle c)))
                (or_undefined (trim (prBody c)))));
     Out (WindowOpen url "_blank");
     Out (Alert ("Pull request created successfully! PR #" +:+
                 pr_number_text (CreatePRResponse.pr_number response)))]
  ∧ showPRModal (run srv (createPullRequest apiClient session c c)).1 = false
  ∧ creatingPR (run srv (createPullRequest apiClient session c c)).1 = false.
Proof.
  intros Hc Hid%truthy_true_iff Htok Htoken%truthy_true_iff Hsrv Hok Hjson Hsucc Hurl
    Hu%truthy_true_iff.
  unfold createPullRequest, accessToken. rewrite Hc, Htok, Hid, Htoken.
  cbn [negb orb run bind await ApiClient.createPullRequest ApiClient.fetch].
  unfold create_pr_request in *. unfold ApiClient.json_headers, ApiClient.stringify_pr_request.
  cbn [CreatePRRequest.github_token CreatePRRequest.pr_title CreatePRRequest.pr_body] in *.
  rewrite Hsrv. destruct resp as [ok status js]. cbn in Hok, Hjson. subst ok js.
  cbn. by rewrite Hurl, Hsucc, Hu.
Qed.

(** *** The buttons of the panel *)

(** X3.  The Give Feedback button is on the page only when the displayed task
    has a non-empty session identifier and its status is completed or failed. *)
Theorem feedback_button_only_when (c : State) :
  feedback_button_rendered c = true →
  ∃ displayed sid,
    currentTask c = Some displayed
    ∧ Task.session_id displayed = Some sid ∧ sid ≠ EmptyString
    ∧ (Task.status displayed = Status.completed ∨ Task.status displayed = Status.failed).
Proof.
  unfold feedback_button_rendered, status_is_terminal.
  destruct (currentTask c) as [displayed|]; [|done]. cbn.
  destruct (Task.session_id displayed) as [sid|] eqn:Hsid; [|done]. cbn.
  intros [Hs Ht]%andb_true_iff. exists displayed, sid.
  split_and!; try done; [by apply truthy_true_iff|].
  apply orb_true_iff in Ht as [H%bool_decide_eq_true|H%bool_decide_eq_true]; auto.
Qed.

(** *** The Create PR button *)

(** C5, as the code has it.  The Create PR button is on the page and can be
    clicked only when the loaded content has its is_git_repo flag set, the
    session holds a non-empty access token, and the displayed status is
    completed or failed. *)
Theorem create_pr_enabled_only_when (c : State) :
  create_pr_enabled session c = true →
  (∃ content, taskContent c = Some content
              ∧ TaskContentResponse.is_git_repo content = true)
  ∧ (∃ token, session ≫= Session.accessToken = Some token ∧ token ≠ EmptyString)
  ∧ (∃ displayed, currentTask c = Some displayed
                  ∧ (Task.status displayed = Status.completed
                     ∨ Task.status displayed = Status.failed)).
Proof.
  unfold create_pr_enabled, create_pr_button_rendered, status_is_terminal, accessToken.
  rewrite !andb_true_iff. intros [[[Hgit Htoken] Hterm] _]. split_and!.
  - destruct (taskContent c) as [content|]; [|done]. by exists content.
  - destruct (session ≫= Session.accessToken) as [token|]; [|done].
    exists token. split; [done|]. by apply truthy_true_iff.
  - destruct (currentTask c) as [displayed|]; [|done]. exists displayed.
    split; [done|]. unfold is_terminal in Hterm.
    apply orb_true_iff in Hterm as [H%bool_decide_eq_true|H%bool_decide_eq_true]; auto.
Qed.

(** *** The classification of diff files *)

(** C3.  With a missing (absent or empty) path replaced by /dev/null, a parsed
    diff file is classified as add when its old path is /dev/null; otherwise as
    delete when its new path is /dev/null; otherwise as rename when the two
    paths differ, and as modify when they are equal. *)
Theorem getFileType_classification (file : DiffFile) :
  (or_else None "/dev/null" = "/dev/null"
   ∧ or_else (Some EmptyString) "/dev/null" = "/dev/null")
  ∧ (or_else (oldPath file) "/dev/null" = "/dev/null" → getFileType file = add)
  ∧ (or_else (oldPath file) "/dev/null" ≠ "/dev/null" →
     or_else (newPath file) "/dev/null" = "/dev/null" → getFileType file = delete)
  ∧ (or_else (oldPath file) "/dev/null" ≠ "/dev/null" →
     or_else (newPath file) "/dev/null" ≠ "/dev/null" →
     or_else (oldPath file) "/dev/null" ≠ or_else (newPath file) "/dev/null" →
     getFileType file = rename)
  ∧ (or_else (oldPath file) "/dev/null" ≠ "/dev/null" →
     or_else (newPath file) "/dev/null" ≠ "/dev/null" →
     or_else (oldPath file) "/dev/null" = or_else (newPath file) "/dev/null" →
     getFileType file = modify).
Proof.
  unfold getFileType, strict_ne. cbv zeta.
  split_and!; try done; intros; repeat case_bool_decide; congruence.
Qed.

(** *** The pull-request modal *)

(** X9.  The default title of a pull request is AI Generated Changes: followed
    by the text of the task when it has at most 60 code units, and otherwise
    by its first 60 code units and three dots; it never exceeds 85 code
    units. *)
Theorem default_pr_title_shape (t : Task.t) :
  ∃ shown,
    default_pr_title t = "AI Generated Changes: " +:+ shown
    ∧ ((String.length (Task.task t) ≤ 60)%nat → shown = Task.task t)
    ∧ ((60 < String.length (Task.task t))%nat →
       ∃ head rest,
         Task.task t = head +:+ rest ∧ String.length head = 60%nat
         ∧ shown = head +:+ "...")
    ∧ (String.length (default_pr_title t) ≤ 85)%nat.
Proof.
  unfold default_pr_title.
  destruct (substring_split (Task.task t) 60) as (rest & Hsplit & Hlen).
  destruct (60 <? String.length (Task.task t))%nat eqn:Hlong.
  - apply Nat.ltb_lt in Hlong. eexists. split; [reflexivity|].
    split_and!.
    + lia.
    + intros _. exists (substring (Task.task t) 0 60), rest.
      split_and!; [done|lia|done].
    + rewrite !string_length_app, Hlen.
      change (String.length "AI Generated Changes: ") with 22%nat.
      change (String.length "...") with 3%nat. lia.
  - apply Nat.ltb_ge in Hlong. eexists. split; [reflexivity|].
    split_and!.
    + done.
    + lia.
    + rewrite string_length_app.
      change (String.length "AI Generated Changes: ") with 22%nat. lia.
Qed.

Lemma createPullRequest_requests (srv : Server) (c : State) (currentTask' : Task.t)
    (token : string) :
  currentTask c = Some currentTask' →
  Task.id currentTask' ≠ EmptyString →
  session ≫= Session.accessToken = Some token →
  token ≠ EmptyString →
  requests (run srv (createPullRequest apiClient session c c)).2
  = [create_pr_request (Task.id currentTask')
       (CreatePRRequest.mk token (or_undefined (trim (prTitle c)))
          (or_undefined (trim (prBody c))))].
Proof.
  intros Hc Hid%truthy_true_iff Htok Htoken%truthy_true_iff.
  unfold createPullRequest, accessToken. rewrite Hc, Htok, Hid, Htoken.
  cbn [negb orb run bind await ApiClient.createPullRequest ApiClient.fetch].
  unfold create_pr_request, ApiClient.json_headers, ApiClient.stringify_pr_request.
  cbn [CreatePRRequest.github_token CreatePRRequest.pr_title CreatePRRequest.pr_body].
  destruct (srv _ TCreatePR _) as [[[] status [response|m]]|m]; cbn; try done.
  destruct (CreatePRResponse.pr_url response) as [url|]; [|done].
  by destruct (CreatePRResponse.success response && truthy url).
Qed.

Lemma trim_default_pr_title (t : Task.t) :
  ∃ rest, trim (default_pr_title t) = "AI Generated Changes:" +:+ rest.
Proof.
  unfold default_pr_title.
  set (shown := if (60 <? _)%nat then _ else _).
  change ("AI Generated Changes: " +:+ shown)
    with (String "A" ("I Generated Changes" +:+ String ":" (" " +:+ shown))).
  rewrite trim_cons_clean by done. rewrite trimEnd_app_clean by done.
  by eexists.
Qed.

Lemma trim_default_pr_body (t : Task.t) :
  ∃ rest, trim (default_pr_body t) = "## AI Generated Changes" +:+ rest.
Proof.
  unfold default_pr_body.
  match goal with
  | |- context [trim ("## AI Generated Changes" +:+ ?r)] =>
      change ("## AI Generated Changes" +:+ r)
        with (String "#" ("# AI Generated Change" +:+ String "s" r))
  end.
  rewrite trim_cons_clean by done. rewrite trimEnd_app_clean by done.
  by eexists.
Qed.

(** X10.  Pressing Create PR while the title and the body are empty opens the
    modal with the defaults of the displayed task, and creating the pull
    request from there sends them, trimmed: the request always carries a title
    that begins with AI Generated Changes: and a body that begins with the
    heading.  A title that was typed is kept by the button, and cancelling the
    modal brings the defaults back at the next opening. *)
Theorem fresh_modal_sends_defaults (srv : Server) (c : State) (t : Task.t)
    (token : string) :
  currentTask c = Some t →
  Task.id t ≠ EmptyString →
  session ≫= Session.accessToken = Some token →
  token ≠ EmptyString →
  prTitle c = EmptyString →
  prBody c = EmptyString →
  showPRModal (handleCreatePR c c) = true
  ∧ requests
      (run srv (createPullRequest apiClient session (handleCreatePR c c)
                  (handleCreatePR c c))).2
    = [create_pr_request (Task.id t)
         (CreatePRRequest.mk token (Some (trim (default_pr_title t)))
            (Some (trim (default_pr_body t))))]
  ∧ (∃ rest, trim (default_pr_title t) = "AI Generated Changes:" +:+ rest)
  ∧ (∃ rest, trim (default_pr_body t) = "## AI Generated Changes" +:+ rest)
  ∧ (∀ c' : State,
       currentTask c' = Some t →
       (prTitle c' ≠ EmptyString → prTitle (handleCreatePR c' c') = prTitle c')
       ∧ prTitle (handleCreatePR (cancelCreatePR c') (cancelCreatePR c'))
         = default_pr_title t
       ∧ prBody (handleCreatePR (cancelCreatePR c') (cancelCreatePR c'))
         = default_pr_body t).
Proof.
  intros Hc Hid Htok Htoken Htitle Hbody.
  destruct (trim_default_pr_title t) as (rest & Hrest).
  destruct (trim_default_pr_body t) as (rest' & Hrest').
  split_and!.
  - done.
  - rewrite (createPullRequest_requests srv _ t token); try done;
      [|by unfold handleCreatePR; rewrite Hc, Htitle, Hbody].
    unfold handleCreatePR. rewrite Hc, Htitle, Hbody.
    cbn [truthy negb prTitle prBody setShowPRModal setPrBody setPrTitle].
    change (truthy EmptyString) with false. cbn [negb prTitle prBody setPrBody setPrTitle].
    unfold or_undefined. rewrite Hrest, Hrest'. done.
  - by exists rest.
  - by exists rest'.
  - intros c' Hc'. split_and!.
    + intros Ht%truthy_true_iff. unfold handleCreatePR. rewrite Hc', Ht.
      by destruct (negb (truthy (prBody c'))).
    + unfold handleCreatePR, cancelCreatePR. cbn. by rewrite Hc'.
    + unfold handleCreatePR, cancelCreatePR. cbn. by rewrite Hc'.
Qed.

(** X11.  Creating a pull request sends one request, whose title and body are
    left out exactly when the field is blank.  The handler opens a page only
    when the response is successful and its body reports success with an
    address, and it opens that address, in a new tab.  In every other case it
    calls nothing, leaves the modal as it is and shows the error of the
    client, or nothing at all when a successful response reports no success.
    It never changes the two fields, and it always ends with creatingPR
    off. *)
Theorem create_pull_request_outcome (srv : Server) (c : State) (currentTask' : Task.t)
    (token : string) :
  currentTask c = Some currentTask' →
  Task.id currentTask' ≠ EmptyString →
  session ≫= Session.accessToken = Some token →
  token ≠ EmptyString →
  let request :=
    CreatePRRequest.mk token (or_undefined (trim (prTitle c)))
      (or_undefined (trim (prBody c))) in
  let answer := srv _ TCreatePR (create_pr_request (Task.id currentTask') request) in
  let after := (run srv (createPullRequest apiClient session c c)).1 in
  let events := (run srv (createPullRequest apiClient session c c)).2 in
  requests events = [create_pr_request (Task.id currentTask') request]
  ∧ (CreatePRRequest.pr_title request = None ↔ whitespace_only (prTitle c))
  ∧ (CreatePRRequest.pr_body request = None ↔ whitespace_only (prBody c))
  ∧ (∀ url target, WindowOpen url target ∈ calls events →
       target = "_blank" ∧ pr_made answer url)
  ∧ ((∀ url, ¬ pr_made answer url) →
     calls events = []
     ∧ showPRModal after = showPRModal c
     ∧ error after = backend_failure_message CreatePRResponse.error answer)
  ∧ prTitle after = prTitle c ∧ prBody after = prBody c ∧ creatingPR after = false.
Proof.
  intros Hc Hid Htok Htoken request answer after events.
  split; [by apply createPullRequest_requests|].
  split; [by apply or_undefined_trim_none|].
  split; [by apply or_undefined_trim_none|].
  apply truthy_true_iff in Hid, Htoken.
  subst after events answer. unfold createPullRequest, accessToken.
  rewrite Hc, Htok, Hid, Htoken.
  cbn [negb orb run bind await ApiClient.createPullRequest ApiClient.fetch].
  unfold create_pr_request, ApiClient.json_headers, ApiClient.stringify_pr_request.
  subst request.
  cbn [CreatePRRequest.github_token CreatePRRequest.pr_title CreatePRRequest.pr_body].
  destruct (srv _ TCreatePR _) as [[[] status [response|m]]|m] eqn:Hsrv; cbn;
    try (split_and!; try done; intros url target H; by apply elem_of_nil in H).
  destruct (CreatePRResponse.pr_url response) as [url|] eqn:Hurl; cbn;
    [|split_and!; try done; intros url target H; by apply elem_of_nil in H].
  destruct (CreatePRResponse.success response) eqn:Hsucc; cbn;
    [|split_and!; try done; intros url' target H; by apply elem_of_nil in H].
  destruct (truthy url) eqn:Hu; cbn;
    [|split_and!; try done; intros url' target H; by apply elem_of_nil in H].
  split_and!; try done.
  - intros url' target H. apply elem_of_cons in H as [[= -> ->]|H].
    + split; [done|]. exists response. by apply truthy_true_iff in Hu.
    + apply elem_of_cons in H as [[=]|H]. by apply elem_of_nil in H.
  - intros Hnone. destruct (Hnone url). exists response.
    by apply truthy_true_iff in Hu.
Qed.

(** *** Feedback that is not accepted *)

(** X12.  Sending feedback on a displayed task: with a blank text nothing is
    sent and nothing changes.  Otherwise one request is sent, and unless the
    backend accepts the feedback (a successful response whose body reports
    success), the displayed task, the loaded content, the modal and the typed
    text all stay as they were, so that the user can send again; the panel
    shows the error of the client, or no error at all when a successful
    response reports no success.  The handler always ends with
    sendingFeedback off. *)
Theorem send_feedback_outcome (now : string) (srv : Server) (c : State)
    (currentTask' : Task.t) :
  currentTask c = Some currentTask' →
  Task.id currentTask' ≠ EmptyString →
  let answer :=
    srv _ TFeedback (feedback_request (Task.id currentTask') (trim (feedback c))) in
  let after := (run srv (sendFeedback apiClient now c c)).1 in
  (whitespace_only (feedback c) → run srv (sendFeedback apiClient now c c) = (c, []))
  ∧ (¬ whitespace_only (feedback c) →
     (run srv (sendFeedback apiClient now c c)).2
     = [Sent (feedback_request (Task.id currentTask') (trim (feedback c)))]
     ∧ sendingFeedback after = false
     ∧ (feedback_accepted answer = false →
        currentTask after = currentTask c
        ∧ taskContent after = taskContent c
        ∧ showFeedbackModal after = showFeedbackModal c
        ∧ feedback after = feedback c
        ∧ showFeedbackSuccess after = showFeedbackSuccess c
        ∧ feedbackTaskId after = feedbackTaskId c
        ∧ error after = backend_failure_message FeedbackResponse.error answer)).
Proof.
  intros Hc Hid%truthy_true_iff answer after. subst answer after.
  unfold sendFeedback. rewrite Hc, Hid. cbn [negb orb]. split.
  - intros Hw%trim_empty_iff%truthy_false_iff. by rewrite Hw.
  - intros Hw. assert (truthy (trim (feedback c)) = true) as ->.
    { apply truthy_true_iff. by rewrite trim_empty_iff. }
    cbn [negb run bind await ApiClient.sendFeedback ApiClient.fetch].
    unfold feedback_request, ApiClient.json_headers, ApiClient.stringify_feedback_request.
    cbn [FeedbackRequest.feedback].
    unfold feedback_accepted.
    destruct (srv _ TFeedback _) as [[[] status [response|m]]|m]; cbn; try done.
    by destruct (FeedbackResponse.success response).
Qed.

(** *** Refreshing by hand, and opening a task *)

Lemma failure_message_fetched {X : Type} (answer : FetchResult X) :
  fetched answer = None → is_Some (failure_message answer).
Proof. by destruct answer as [[[] status [body|m]]|m]. Qed.

(** X13.  The Refresh button of a mounted panel asks for the status of the
    displayed task.  When that succeeds, the fetched task is displayed
    whatever it holds, and the content of the task given as prop is requested
    next; the content is replaced when that request succeeds, and otherwise
    kept while the panel shows the error of the content request.  When the
    status request fails, no content is requested, the task and content stay
    and the panel shows that error.  The loading indicator is off at the
    end. *)
Theorem manual_refresh_outcome (srv : Server) (c : State) (currentTask' task' : Task.t) :
  currentTask c = Some currentTask' →
  Task.id currentTask' ≠ EmptyString →
  isMounted c = true →
  task = Some task' →
  Task.id task' ≠ EmptyString →
  let status_answer := srv _ TStatus (status_request (Task.id currentTask')) in
  let content_answer := srv _ TContent (content_request (Task.id task')) in
  let after := (run srv (refreshTask apiClient task c c)).1 in
  let events := (run srv (refreshTask apiClient task c c)).2 in
  (∀ updatedTask, fetched status_answer = Some updatedTask →
     events = [Sent (status_request (Task.id currentTask'));
               Sent (content_request (Task.id task'))]
     ∧ currentTask after = Some updatedTask
     ∧ taskContent after = from_option Some (taskContent c) (fetched content_answer)
     ∧ error after = failure_message content_answer
     ∧ filesLoading after = false)
  ∧ (fetched status_answer = None →
     events = [Sent (status_request (Task.id currentTask'))]
     ∧ currentTask after = currentTask c
     ∧ taskContent after = taskContent c
     ∧ error after = failure_message status_answer
     ∧ is_Some (error after))
  ∧ loading after = false.
Proof.
  intros Hc Hid%truthy_true_iff Hm Ht Hid'%truthy_true_iff.
  intros status_answer content_answer after events.
  subst status_answer content_answer after events.
  unfold refreshTask, fetchTaskData. rewrite Hc, Hid, Hm, Ht, Hid'.
  cbn [negb orb run bind await ApiClient.getTaskStatus ApiClient.getTaskContent
       ApiClient.fetch].
  unfold ApiClient.get, status_request, content_request.
  destruct (srv _ TStatus _) as [[[] status [updatedTask|m]]|m]; cbn;
    try (split_and!; [intros ? [=]|intros _; split_and!; by eauto|done]).
  destruct (srv _ TContent _) as [[[] status' [content|m']]|m']; cbn;
    (split_and!; [intros ? [= <-]; by split_and!|intros [=]|done]).
Qed.

(** X14.  The effect that runs when a mounted panel is given a task with an
    id: it displays that task, forgets the content and the error, then asks
    for the status and, whether or not that succeeds, for the content, both
    of the task given.  At the end the panel displays the fetched task, or the
    task given when the status request failed, and the fetched content, or
    none; the error that it shows is the one of the content request alone: a
    failure of the status request is not shown.  Given no task, or a task
    without id, the effect sends nothing. *)
Theorem task_effect_outcome (srv : Server) (c : State) :
  isMounted c = true →
  let after := (run srv (task_effect apiClient task c c)).1 in
  let events := (run srv (task_effect apiClient task c c)).2 in
  (∀ task', task = Some task' → Task.id task' ≠ EmptyString →
     let status_answer := srv _ TStatus (status_request (Task.id task')) in
     let content_answer := srv _ TContent (content_request (Task.id task')) in
     events = [Sent (status_request (Task.id task'));
               Sent (content_request (Task.id task'))]
     ∧ currentTask after = Some (default task' (fetched status_answer))
     ∧ taskContent after = fetched content_answer
     ∧ error after = failure_message content_answer
     ∧ loading after = false
     ∧ filesLoading after = false)
  ∧ (has_id task = false →
     events = []
     ∧ after = setError None (setTaskContent None (setCurrentTask task c))).
Proof.
  intros Hm after events. subst after events. split.
  - intros task' Ht Hid%truthy_true_iff status_answer content_answer.
    subst status_answer content_answer.
    unfold task_effect, initializeTaskData, refreshTaskData, fetchTaskData, has_id.
    rewrite Ht, Hid, Hm.
    cbn [negb orb run bind await ApiClient.getTaskStatus ApiClient.getTaskContent
         ApiClient.fetch].
    unfold ApiClient.get, status_request, content_request.
    destruct (srv _ TStatus _) as [[[] status [updatedTask|m]]|m]; cbn;
      by destruct (srv _ TContent _) as [[[] status' [content|m']]|m'].
  - intros Hno. unfold task_effect. by rewrite Hno.
Qed.

(** *** What holds throughout the life of a panel *)

Ltac invariant_tac :=
  solve [ cbn; unfold at_rest; cbn;
          try match goal with
              | H : currentTask ?c = _ |- context [currentTask ?c] => rewrite H
              end;
          split_and!; try done; try (by eauto) ].

Lemma act_invariant (a : Action) (c : State) :
  panel_invariant task c → panel_invariant task (act task session a c).
Proof.
  intros (Hm & Hcur & Hfb & Hl & Hfl & Hd & Hpr & Hsf). unfold panel_invariant.
  destruct a as [srv|srv|srv| |onTaskDeleted srv| | |text|text|srv| | |text|now srv| |];
    cbn [act].
  - unfold task_effect, initializeTaskData, refreshTaskData, fetchTaskData.
    destruct (has_id task) eqn:Hid; [|invariant_tac].
    destruct task as [task'|]; [|done]. cbn in Hid. rewrite Hid, Hm.
    cbn [negb orb run bind await ApiClient.getTaskStatus ApiClient.getTaskContent
         ApiClient.fetch].
    destruct (srv _ TStatus _) as [[[] status [updatedTask|m]]|m]; cbn;
      destruct (srv _ TContent _) as [[[] status' [content|m']]|m']; invariant_tac.
  - unfold poll. destruct (polling_enabled c); [|invariant_tac].
    unfold silentRefreshTask, fetchTaskData.
    destruct (currentTask c) as [currentTask'|] eqn:Hc; [|invariant_tac].
    rewrite Hm. destruct (truthy (Task.id currentTask')); [|invariant_tac].
    cbn [negb orb run bind await ApiClient.getTaskStatus ApiClient.fetch].
    destruct (srv _ TStatus _) as [[[] status [updatedTask|m]]|m]; cbn;
      [|invariant_tac..].
    destruct (hasChanges updatedTask currentTask'); [|invariant_tac].
    destruct (strict_ne _ _ && is_terminal _); [|invariant_tac].
    destruct task as [task'|]; [|invariant_tac].
    destruct (truthy (Task.id task')); [|invariant_tac].
    cbn [negb orb run bind await ApiClient.getTaskContent ApiClient.fetch].
    destruct (srv _ TContent _) as [[[] status' [content|m']]|m']; invariant_tac.
  - unfold refreshTask, fetchTaskData.
    destruct (currentTask c) as [currentTask'|] eqn:Hc; [|invariant_tac].
    rewrite Hm. destruct (truthy (Task.id currentTask')); [|invariant_tac].
    cbn [negb orb run bind await ApiClient.getTaskStatus ApiClient.fetch].
    destruct (srv _ TStatus _) as [[[] status [updatedTask|m]]|m]; cbn;
      [|invariant_tac..].
    destruct task as [task'|]; [|invariant_tac].
    destruct (truthy (Task.id task')); [|invariant_tac].
    cbn [negb orb run bind await ApiClient.getTaskContent ApiClient.fetch].
    destruct (srv _ TContent _) as [[[] status' [content|m']]|m']; invariant_tac.
  - invariant_tac.
  - unfold confirmDelete.
    destruct (currentTask c) as [currentTask'|] eqn:Hc; [|invariant_tac].
    rewrite Hm. destruct (truthy (Task.id currentTask')); [|invariant_tac].
    cbn [negb orb run bind await ApiClient.deleteTask ApiClient.fetch].
    destruct (srv _ TDelete _) as [[[] status [body|m]]|m]; cbn;
      try destruct onTaskDeleted; invariant_tac.
  - invariant_tac.
  - unfold handleCreatePR.
    destruct (currentTask c) as [currentTask'|] eqn:Hc; [|invariant_tac].
    destruct (negb (truthy (prTitle c))), (negb (truthy (prBody c))); invariant_tac.
  - invariant_tac.
  - invariant_tac.
  - unfold createPullRequest.
    destruct (currentTask c) as [currentTask'|] eqn:Hc; [|invariant_tac].
    destruct (accessToken session) as [token|]; [|invariant_tac].
    destruct (truthy (Task.id currentTask')), (truthy token); [|invariant_tac..].
    cbn [negb orb run bind await ApiClient.createPullRequest ApiClient.fetch].
    destruct (srv _ TCreatePR _) as [[[] status [response|m]]|m]; cbn;
      [|invariant_tac..].
    destruct (CreatePRResponse.pr_url response) as [url|]; [|invariant_tac].
    destruct (CreatePRResponse.success response && truthy url); invariant_tac.
  - invariant_tac.
  - invariant_tac.
  - invariant_tac.
  - unfold sendFeedback.
    destruct (currentTask c) as [currentTask'|] eqn:Hc; [|invariant_tac].
    destruct (truthy (Task.id currentTask')), (truthy (trim (feedback c)));
      [|invariant_tac..].
    cbn [negb orb run bind await ApiClient.sendFeedback ApiClient.fetch].
    destruct (srv _ TFeedback _) as [[[] status [response|m]]|m]; cbn;
      [|invariant_tac..].
    destruct (FeedbackResponse.success response); invariant_tac.
  - invariant_tac.
  - invariant_tac.
Qed.

Lemma acts_invariant (l : list Action) (c : State) :
  panel_invariant task c → panel_invariant task (acts task session l c).
Proof.
  revert c. induction l as [|a l IH]; intros c Hc; [done|].
  cbn. apply IH. by apply act_invariant.
Qed.

(** X15.  Throughout the life of a panel, between any two of its actions (the
    effect on the task, a firing of the poll, a button, a text typed), whatever
    the backend answered: the mounted flag is on, so that no guard on it ever
    stops a handler; a panel that was given a task displays a task; the
    success modal of the feedback is open exactly when it has the identifier of
    a feedback task to show; and no indicator (loading, filesLoading, deleting,
    creatingPR, sendingFeedback) is left on. *)
Theorem panel_invariants (c : State) :
  panel_reachable task session c →
  isMounted c = true
  ∧ (is_Some task → is_Some (currentTask c))
  ∧ (showFeedbackSuccess c = true ↔ is_Some (feedbackTaskId c))
  ∧ at_rest c.
Proof.
  intros (l & ->). apply acts_invariant.
  unfold panel_invariant, at_rest. cbn. by split_and!.
Qed.

(** *** The sections of the content *)

(** X16.  Of the three sections that show the loaded content (the diff, the
    notice that a git repository has no changes, the list of created files) at
    most one is on the page, and none before a content is loaded.  The list of
    files is shown only for a content that is a list with at least one file.
    A content of type diff that does not come from a git repository is not
    shown at all. *)
Theorem content_sections_exclusive (c : State) :
  at_most_one (diff_rendered c) (no_changes_rendered c) (files_rendered c)
  ∧ (taskContent c = None →
     diff_rendered c = false ∧ no_changes_rendered c = false ∧ files_rendered c = false)
  ∧ (files_rendered c = true →
     ∃ content file files,
       taskContent c = Some content
       ∧ TaskContentResponse.content_type content = ContentType.files
       ∧ TaskContentResponse.content content = ContentFiles (file :: files))
  ∧ (∀ content,
       taskContent c = Some content →
       TaskContentResponse.is_git_repo content = false →
       TaskContentResponse.content_type content = ContentType.diff →
       diff_rendered c = false ∧ no_changes_rendered c = false
       ∧ files_rendered c = false).
Proof.
  unfold at_most_one, diff_rendered, no_changes_rendered, files_rendered.
  destruct (taskContent c) as [[id git [] content count]|]; cbn;
    split_and!; try done; try (intros ? [= <-]; cbn; try done);
    try (destruct git, content as [[|file files]|s|]; cbn;
         try destruct (truthy s); by eauto 10).
  all: intros; simplify_eq/=; by destruct content as [[|file files]|s|].
Qed.

(** *** The messages of a task *)

(** X29.  A block of code of a message, the text between two fences: its
    lines are the pieces between its line feeds.  When the first line is
    blank, the block has no header, the default colour, and shows the whole
    text, first line included.  Otherwise the language is the first line
    trimmed; it is the header unless it is the word text; the code shown is
    what follows the first line feed, and nothing at all when the text has no
    line feed: a fenced text of one line shows as a header over an empty
    block. *)
Theorem code_block_shape (part : string) :
  ∃ first rest,
    split part LF = first :: rest
    ∧ part = join (first :: rest) LF
    ∧ includes first LF = false
    ∧ (whitespace_only first → code_block part = Code None "text-green-400" part)
    ∧ (¬ whitespace_only first →
       code_block part
       = Code (if bool_decide (trim first = "text") then None else Some (trim first))
           (getLanguageStyles (trim first)) (join rest LF)
       ∧ (rest = [] → part = first ∧ join rest LF = EmptyString)
       ∧ (rest ≠ [] → part = first +:+ LF +:+ join rest LF)).
Proof.
  assert (LF ≠ EmptyString) as Hlf by done.
  pose proof (join_split part LF Hlf) as Hjoin.
  pose proof (split_from_clean LF part 0 Hlf) as Hclean.
  unfold code_block. unfold split in *.
  destruct (split_from LF 0 part) as [first rest]. cbn [fst snd] in *.
  apply Forall_cons in Hclean as [Hfirst _]. subst part.
  exists first, rest. split_and!; try done.
  - intros Hw%trim_empty_iff. cbn [head fmap option_fmap option_map or_else].
    rewrite Hw. done.
  - intros Hw. assert (truthy (trim first) = true) as Ht.
    { apply truthy_true_iff. by rewrite trim_empty_iff. }
    cbn [head fmap option_fmap option_map or_else]. rewrite Ht. cbv iota.
    rewrite !Ht. cbn [drop andb]. split_and!.
    + unfold strict_ne. cbn [drop]. by repeat case_bool_decide.
    + by intros ->.
    + intros Hrest. by destruct rest as [|line rest].
Qed.

Lemma omap_id_cons {A : Type} (o : option A) (l : list (option A)) :
  omap id (o :: l) = option_list o ++ omap id l.
Proof. by destruct o. Qed.

(** X30.  The content of a message is cut at the code fences: the pieces,
    joined by the fence, are the content, and no piece holds a fence.  A
    content without a fence is shown as it stands.  A content with a fence is
    shown piece by piece: the first piece as HTML, its line feeds turned into
    breaks, unless it is empty; the second piece, which exists, as a block of
    code; and so on in turn, so that the piece after a fence that is not
    closed is shown as code. *)
Theorem message_body_pieces (content : string) :
  join (split content fence) fence = content
  ∧ Forall (λ part, includes part fence = false) (split content fence)
  ∧ (includes content fence = false →
     split content fence = [content] ∧ message_body content = Plain content)
  ∧ (includes content fence = true →
     ∃ text code rest,
       split content fence = text :: code :: rest
       ∧ message_body content
         = Pieces
             (option_list (text_piece text) ++ [code_block code] ++
              omap id
                (imap (λ i part,
                         if Nat.even i then text_piece part else Some (code_block part))
                   rest))).
Proof.
  assert (fence ≠ EmptyString) as Hfence by done.
  pose proof (join_split content fence Hfence) as Hjoin.
  pose proof (split_from_clean fence content 0 Hfence) as Hclean.
  pose proof (split_from_single fence content Hfence) as Hsingle.
  unfold message_body. unfold split in *.
  destruct (split_from fence 0 content) as [text pieces]. cbn [fst snd] in *.
  split_and!; try done.
  - intros Hnone. rewrite Hnone. apply Hsingle in Hnone as ->. by rewrite <- Hjoin.
  - intros Hsome. rewrite Hsome.
    destruct pieces as [|code rest].
    { destruct Hsingle as [Hempty _]. rewrite Hempty in Hsome; done. }
    exists text, code, rest. split; [done|]. f_equal.
    cbn [imap]. rewrite !omap_id_cons.
    rewrite (imap_ext _ (λ i part,
                           if Nat.even i then text_piece part
                           else Some (code_block part)) rest) by done.
    done.
Qed.

End TaskDetailsFacts.

(** *** Components that poll *)

Section ScheduleFacts.

Import usePolling.

Context {St : Type} `{EqDecision St}.

Variable callback : St → Server → St * list Event.
Variable interval : nat.
Variable enabled : St → bool.

Hypothesis interval_positive : (1 ≤ interval)%nat.

(** The [k]-th firing happens with the backend of the millisecond
    [remaining + k * interval]. *)
Lemma firings_lookup (remaining : nat) (srvs : list Server) (k : nat) :
  (1 ≤ remaining)%nat →
  firings interval remaining srvs !! k = srvs !! (remaining - 1 + k * interval)%nat.
Proof.
  revert remaining k. induction srvs as [|srv srvs IH]; intros remaining k Hr; [done|].
  destruct remaining as [|[|remaining]]; [lia| |].
  - cbn [firings]. destruct k as [|k]; [done|].
    cbn [lookup list_lookup]. rewrite IH by lia.
    replace (1 - 1 + S k * interval)%nat with (S (interval - 1 + k * interval)) by lia.
    done.
  - cbn [firings]. rewrite IH by lia.
    replace (S (S remaining) - 1 + k * interval)%nat
      with (S (S remaining - 1 + k * interval)) by lia.
    done.
Qed.

Lemma fire_all_disabled (srvs : list Server) (s : St) :
  enabled s = false → fire_all callback enabled srvs s = (s, []).
Proof.
  intros Hs. induction srvs as [|srv srvs IH]; [done|].
  cbn [fire_all]. unfold fire. by rewrite Hs, IH.
Qed.

Lemma idle_elapses (srvs : list Server) (m : Polling.Mounted St) :
  idle interval enabled m →
  Polling.view (Polling.elapses callback interval enabled srvs m).1 = Polling.view m
  ∧ (Polling.elapses callback interval enabled srvs m).2 = [].
Proof.
  revert m. induction srvs as [|srv srvs IH]; intros m (Hd & Hdeps & Hactive); [done|].
  cbn [Polling.elapses]. unfold Polling.elapse, elapse. rewrite Hactive.
  match goal with |- context [Polling.elapses _ _ _ srvs ?m'] =>
    destruct (IH m') as [Hview Hevents]; [done|] end.
  destruct (Polling.elapses _ _ _ srvs _) as [m2 evs2].
  cbn in *. by rewrite Hview, Hevents.
Qed.

(** The render that follows a firing. *)
Lemma rendered_after_firing (s s' : St) (h : State St) (t : Timer) :
  savedCallback h = Some s → callback_deps h = Some s →
  timer_deps h = Some (interval, true) →
  active h = Some t → period t = interval → due t = (clock h + interval)%nat →
  if enabled s' then waiting interval enabled interval (Polling.rendered interval enabled s' h)
  else idle interval enabled (Polling.rendered interval enabled s' h).
Proof.
  intros Hsaved Hcb Hdeps Hactive Hperiod Hdue.
  unfold Polling.rendered, render, timer_effect, save_effect.
  destruct (enabled s') eqn:Hs'.
  - unfold waiting. cbn [Polling.view Polling.hook].
    destruct (decide (callback_deps h = Some s')) as [Heq|Hne].
    + rewrite decide_True by done.
      assert (s = s') as -> by congruence.
      split_and!; try done. by exists t.
    + cbn. rewrite decide_True by done. cbn.
      split_and!; try done. by exists t.
  - unfold idle. cbn [Polling.view Polling.hook].
    destruct (decide (callback_deps h = Some s')) as [Heq|Hne].
    + rewrite decide_False by (rewrite Hdeps; congruence). done.
    + cbn. rewrite decide_False by (rewrite Hdeps; congruence). done.
Qed.

Lemma waiting_elapses (srvs : list Server) (m : Polling.Mounted St) (remaining : nat) :
  waiting interval enabled remaining m →
  (Polling.view (Polling.elapses callback interval enabled srvs m).1,
   (Polling.elapses callback interval enabled srvs m).2)
  = fire_all callback enabled (firings interval remaining srvs) (Polling.view m).
Proof.
  revert m remaining. induction srvs as [|srv srvs IH]; intros m remaining Hm; [done|].
  destruct Hm as (Hen & Hsaved & Hcb & Hdeps & Hr & t & Hactive & Hperiod & Hdue).
  cbn [Polling.elapses]. unfold Polling.elapse, elapse. rewrite Hactive.
  destruct remaining as [|[|remaining]]; [lia| |].
  - rewrite decide_True by lia. unfold tick. cbn [savedCallback clock].
    rewrite Hsaved. cbv iota. cbn [firings fire_all]. unfold fire at 1. rewrite Hen.
    destruct (callback (Polling.view m) srv) as [s' evs] eqn:Hcall.
    match goal with |- context [Polling.rendered _ _ s' ?h'] =>
      pose proof (rendered_after_firing (Polling.view m) s' h'
                    (mkTimer (timer_id t) (period t) (due t + period t))
                    eq_refl Hcb Hdeps eq_refl Hperiod) as Hrendered
    end.
    cbn [clock due] in Hrendered. specialize (Hrendered ltac:(lia)).
    destruct (enabled s') eqn:Hs'.
    + specialize (IH _ _ Hrendered). cbn [Polling.view Polling.rendered] in IH.
      destruct (Polling.elapses _ _ _ srvs _) as [m2 evs2].
      cbn [fst snd] in *. rewrite <- IH. done.
    + destruct (idle_elapses srvs _ Hrendered) as [Hview Hevents].
      rewrite fire_all_disabled by done.
      destruct (Polling.elapses _ _ _ srvs _) as [m2 evs2].
      cbn [fst snd Polling.view Polling.rendered] in *. by rewrite Hview, Hevents.
  - rewrite decide_False by lia. cbn [firings].
    match goal with |- context [Polling.elapses _ _ _ srvs ?m'] =>
      specialize (IH m' (S remaining)) end.
    cbn [Polling.view] in IH. rewrite <- IH.
    + by destruct (Polling.elapses _ _ _ srvs _) as [m2 evs2].
    + unfold waiting. cbn [Polling.view Polling.hook savedCallback callback_deps
                             timer_deps active clock].
      split_and!; try done; [lia|]. exists t. split_and!; try done. lia.
Qed.

(** The render that follows the effect of the first render. *)
Lemma rendered_when_idle (s' : St) (h : State St) :
  savedCallback h = callback_deps h →
  timer_deps h = Some (interval, false) → active h = None →
  if enabled s' then waiting interval enabled interval (Polling.rendered interval enabled s' h)
  else idle interval enabled (Polling.rendered interval enabled s' h).
Proof.
  intros Hsaved Hdeps Hactive.
  unfold Polling.rendered, render, timer_effect, save_effect.
  destruct (enabled s') eqn:Hs'.
  - unfold waiting. cbn [Polling.view Polling.hook].
    destruct (decide (callback_deps h = Some s')) as [Heq|Hne].
    + rewrite decide_False by (rewrite Hdeps; congruence). cbn.
      destruct h; simplify_eq/=. split_and!; try done. by eexists.
    + cbn. rewrite decide_False by (rewrite Hdeps; congruence). cbn.
      split_and!; try done. by eexists.
  - unfold idle. cbn [Polling.view Polling.hook].
    destruct (decide (callback_deps h = Some s')) as [Heq|Hne].
    + by rewrite decide_True by done.
    + cbn. by rewrite decide_True by done.
Qed.

Lemma rendered_after_mount (s s' : St) (now fresh : nat) :
  if enabled s'
  then waiting interval enabled interval
         (Polling.rendered interval enabled s'
            (Polling.hook (Polling.first_render interval enabled now fresh s)))
  else idle interval enabled
         (Polling.rendered interval enabled s'
            (Polling.hook (Polling.first_render interval enabled now fresh s))).
Proof.
  unfold Polling.first_render.
  unfold Polling.rendered at 2 4. cbn [Polling.hook].
  unfold render, timer_effect, save_effect, mounting.
  cbn [callback_deps timer_deps savedCallback active clock next_id].
  rewrite ?decide_False by done.
  cbn [callback_deps timer_deps savedCallback active clock next_id].
  rewrite ?decide_False by done.
  destruct (enabled s).
  - by apply (rendered_after_firing s s' _ (mkTimer fresh interval (now + interval))).
  - by apply rendered_when_idle.
Qed.

(** A component, from the moment it is mounted: the requests that it sends
    as the milliseconds pass are those of its firings, one every interval,
    each with the backend of its moment, from the state that the effect of
    the first render left. *)
Lemma mounted_elapses (effect : St → Server → St * list Event) (srvs : list Server)
    (now fresh : nat) (s : St) (srv : Server) :
  (Polling.mount interval enabled effect now fresh s srv).2 = (effect s srv).2
  ∧ Polling.view (Polling.mount interval enabled effect now fresh s srv).1
    = (effect s srv).1
  ∧ (Polling.view
       (Polling.elapses callback interval enabled srvs
          (Polling.mount interval enabled effect now fresh s srv).1).1,
     (Polling.elapses callback interval enabled srvs
        (Polling.mount interval enabled effect now fresh s srv).1).2)
    = fire_all callback enabled (firings interval interval srvs) (effect s srv).1.
Proof.
  unfold Polling.mount. destruct (effect s srv) as [s' evs]. cbn [fst snd].
  split_and!; [done|done|].
  pose proof (rendered_after_mount s s' now fresh) as Hrendered.
  destruct (enabled s') eqn:Hs'.
  - by rewrite (waiting_elapses srvs _ interval).
  - rewrite fire_all_disabled by done.
    destruct (idle_elapses srvs _ Hrendered) as [Hview Hevents].
    by rewrite Hview, Hevents.
Qed.

End ScheduleFacts.

(** *** The panel and the list in time *)

Section ComponentSchedules.

Variable task : option Task.t.

Lemma polls_fire_all (srvs : list Server) (c : TaskDetails.State) :
  (default c (last (TaskDetails.polls apiClient task srvs c).1),
   (TaskDetails.polls apiClient task srvs c).2)
  = fire_all (λ c srv, run srv (TaskDetails.silentRefreshTask apiClient task c c))
      TaskDetails.polling_enabled srvs c.
Proof.
  revert c. induction srvs as [|srv srvs IH]; intros c; [done|].
  cbn [TaskDetails.polls fire_all]. unfold fire at 1.
  change (if TaskDetails.polling_enabled c
          then run srv (TaskDetails.silentRefreshTask apiClient task c c)
          else (c, []))
    with (TaskDetails.poll apiClient task srv c).
  destruct (TaskDetails.poll apiClient task srv c) as [c1 evs1].
  rewrite <- IH. destruct (TaskDetails.polls apiClient task srvs c1) as [cs evs].
  cbn [fst snd]. rewrite last_cons. by destruct (last cs).
Qed.

(** The requests of the effect on the task prop. *)
Lemma task_effect_events (srv : Server) (c : TaskDetails.State) (task' : Task.t) :
  task = Some task' → Task.id task' ≠ EmptyString → TaskDetails.isMounted c = true →
  (run srv (TaskDetails.task_effect apiClient task c c)).2
  = [Sent (status_request (Task.id task')); Sent (content_request (Task.id task'))].
Proof.
  intros Ht Hid%truthy_true_iff Hm.
  unfold TaskDetails.task_effect, TaskDetails.initializeTaskData,
    TaskDetails.refreshTaskData, TaskDetails.fetchTaskData, TaskDetails.has_id.
  rewrite Ht, Hid, Hm.
  cbn [negb orb run bind await ApiClient.getTaskStatus ApiClient.getTaskContent
       ApiClient.fetch].
  unfold ApiClient.get, status_request, content_request.
  destruct (srv _ TStatus _) as [[[] status [updatedTask|m]]|m]; cbn;
    by destruct (srv _ TContent _) as [[[] status' [content|m']]|m'].
Qed.

(** X26.  A panel from the moment it is mounted with its task prop, on the
    schedule on which every request is answered before the next millisecond
    and nothing else happens.  At mount the effect on the task prop runs: for
    a task with an id it sends the status request and the content request of
    that task, and without one it sends nothing.  Then, as the milliseconds
    pass, what the panel sends is what the firings of its silent poll send
    from the state that the effect left, the firing number k (from 0) running
    against the backend of the millisecond 1000 * (k + 1); these firings are
    the happenings of the event loop in which each firing is answered before
    the next; the task displayed at the end is the one that the last firing
    left.  After the requests of the mount nothing is sent before the
    millisecond 1000, and nothing at all when the task displayed after the
    effect is not running. *)
Theorem panel_polls_on_schedule (srv : Server) (srvs : list Server) (now fresh : nat) :
  let mounted := panel_polling apiClient task now fresh srv in
  let c :=
    (run srv (TaskDetails.task_effect apiClient task (TaskDetails.initial task)
                (TaskDetails.initial task))).1 in
  (∀ task', task = Some task' → Task.id task' ≠ EmptyString →
     mounted.2 = [Sent (status_request (Task.id task'));
                  Sent (content_request (Task.id task'))])
  ∧ (TaskDetails.has_id task = false → mounted.2 = [])
  ∧ Polling.view mounted.1 = c
  ∧ (panel_elapses apiClient task srvs mounted.1).2
    = (TaskDetails.polls apiClient task (firings 1000 1000 srvs) c).2
  ∧ (TaskDetails.polls apiClient task (firings 1000 1000 srvs) c).2
    = (TaskDetailsLoop.happenings apiClient task
         (TaskDetailsLoop.settled (firings 1000 1000 srvs)) (EventLoop.resting c)).2
  ∧ Polling.view (panel_elapses apiClient task srvs mounted.1).1
    = default c (last (TaskDetails.polls apiClient task (firings 1000 1000 srvs) c).1)
  ∧ (∀ k, firings 1000 1000 srvs !! k = srvs !! (999 + k * 1000)%nat)
  ∧ ((length srvs < 1000)%nat →
     (panel_elapses apiClient task srvs mounted.1).2 = [])
  ∧ (TaskDetails.polling_enabled c = false →
     (panel_elapses apiClient task srvs mounted.1).2 = []).
Proof.
  intros mounted c. subst mounted c. unfold panel_polling, panel_elapses.
  change TaskDetails.polling_interval with 1000%nat.
  destruct (mounted_elapses
              (λ c srv, run srv (TaskDetails.silentRefreshTask apiClient task c c))
              1000 TaskDetails.polling_enabled ltac:(lia)
              (λ c srv, run srv (TaskDetails.task_effect apiClient task c c))
              srvs now fresh (TaskDetails.initial task) srv) as (Hmount & Hview0 & Hrun).
  cbn beta in Hmount, Hview0, Hrun.
  set (c := (run srv (TaskDetails.task_effect apiClient task (TaskDetails.initial task)
                        (TaskDetails.initial task))).1) in *.
  pose proof (polls_fire_all (firings 1000 1000 srvs) c) as Hpolls.
  rewrite <- Hpolls in Hrun.
  pose proof (f_equal fst Hrun) as Hview. pose proof (f_equal snd Hrun) as Hevents.
  cbn [fst snd] in Hview, Hevents.
  assert (∀ k, firings 1000 1000 srvs !! k = srvs !! (999 + k * 1000)%nat) as Hlookup.
  { intros k. by rewrite firings_lookup by lia. }
  split_and!; try done.
  - intros task' Ht Hid. rewrite Hmount. by apply task_effect_events.
  - intros Hno. rewrite Hmount. unfold TaskDetails.task_effect. by rewrite Hno.
  - by destruct (settled_polls task (firings 1000 1000 srvs) c) as (_ & -> & _).
  - intros Hshort. rewrite Hevents.
    assert (firings 1000 1000 srvs = []) as ->; [|done].
    destruct (firings 1000 1000 srvs) as [|srv' rest] eqn:Hf; [done|].
    specialize (Hlookup 0%nat).
    change ((srv' :: rest) !! 0%nat) with (Some srv') in Hlookup.
    symmetry in Hlookup. apply lookup_lt_Some in Hlookup. lia.
  - intros Hoff. rewrite Hevents.
    pose proof (polls_fire_all (firings 1000 1000 srvs) c) as Hp.
    rewrite fire_all_disabled in Hp by done. by injection Hp.
Qed.

(** X27.  The list from the moment it is mounted, on the schedule on which
    every request is answered before the next millisecond and nothing else
    happens.  At mount its effect fetches the tasks: it sends GET /tasks.
    Then it fetches the tasks again at the millisecond 2000 * (k + 1) for
    k = 0, 1, and so on, each time with the filter of the moment and against
    the backend of the moment, for as long as the tasks that it shows include
    a running one, and shows what each fetch brings; a fetch after which no
    task shown is running is the last.  After the request of the mount
    nothing is sent before the millisecond 2000, and nothing at all when the
    fetch of the mount brought no running task. *)
Theorem list_polls_on_schedule (srv : Server) (srvs : list Server) (now fresh : nat) :
  let mounted := list_polling apiClient now fresh srv in
  let c := (run srv (TasksList.fetchTasks apiClient TasksList.initial)).1 in
  mounted.2 = [Sent tasks_request]
  ∧ Polling.view mounted.1 = c
  ∧ (list_elapses apiClient srvs mounted.1).2
    = (fire_all (λ c srv, run srv (TasksList.fetchTasks apiClient c))
         TasksList.polling_enabled (firings 2000 2000 srvs) c).2
  ∧ Polling.view (list_elapses apiClient srvs mounted.1).1
    = (fire_all (λ c srv, run srv (TasksList.fetchTasks apiClient c))
         TasksList.polling_enabled (firings 2000 2000 srvs) c).1
  ∧ (∀ k, firings 2000 2000 srvs !! k = srvs !! (1999 + k * 2000)%nat)
  ∧ (∀ (srv : Server) (rest : list Server) (shown : TasksList.State),
       TasksList.polling_enabled shown = true →
       TasksList.polling_enabled (run srv (TasksList.fetchTasks apiClient shown)).1
       = false →
       fire_all (λ c srv, run srv (TasksList.fetchTasks apiClient c))
         TasksList.polling_enabled (srv :: rest) shown
       = ((run srv (TasksList.fetchTasks apiClient shown)).1,
          [Sent (list_request (TasksList.filter shown))]))
  ∧ ((length srvs < 2000)%nat →
     (list_elapses apiClient srvs mounted.1).2 = [])
  ∧ (TasksList.polling_enabled c = false →
     (list_elapses apiClient srvs mounted.1).2 = []).
Proof.
  intros mounted c. subst mounted c. unfold list_polling, list_elapses.
  change TasksList.polling_interval with 2000%nat.
  destruct (mounted_elapses (λ c srv, run srv (TasksList.fetchTasks apiClient c))
              2000 TasksList.polling_enabled ltac:(lia)
              (λ c srv, run srv (TasksList.fetchTasks apiClient c))
              srvs now fresh TasksList.initial srv) as (Hmount & Hview0 & Hrun).
  cbn beta in Hmount, Hview0, Hrun.
  set (c := (run srv (TasksList.fetchTasks apiClient TasksList.initial)).1) in *.
  pose proof (f_equal fst Hrun) as Hview. pose proof (f_equal snd Hrun) as Hevents.
  cbn [fst snd] in Hview, Hevents.
  assert (∀ k, firings 2000 2000 srvs !! k = srvs !! (1999 + k * 2000)%nat) as Hlookup.
  { intros k. by rewrite firings_lookup by lia. }
  split_and!; try done.
  - rewrite Hmount. apply (fetchTasks_events TasksList.initial srv).
  - intros srv' rest shown Hon Hoff. cbn [fire_all]. unfold fire at 1. rewrite Hon.
    pose proof (fetchTasks_events shown srv') as Hsent.
    destruct (run srv' (TasksList.fetchTasks apiClient shown)) as [shown' evs].
    cbn [fst snd] in *. rewrite fire_all_disabled by done. by rewrite Hsent.
  - intros Hshort. rewrite Hevents.
    assert (firings 2000 2000 srvs = []) as ->; [|done].
    destruct (firings 2000 2000 srvs) as [|srv' rest] eqn:Hf; [done|].
    specialize (Hlookup 0%nat).
    change ((srv' :: rest) !! 0%nat) with (Some srv') in Hlookup.
    symmetry in Hlookup. apply lookup_lt_Some in Hlookup. lia.
  - intros Hoff. rewrite Hevents.
    by rewrite fire_all_disabled.
Qed.

End ComponentSchedules.

(** *** The page and the sign-in *)

Section PageFacts.

Lemma on_calls_refreshTrigger (os : list Output) (home : Home.State) :
  Home.refreshTrigger (Home.on_calls os home)
  = (Home.refreshTrigger home + Z.of_nat (length (List.filter refreshing os)))%Z.
Proof.
  unfold Home.on_calls. revert home.
  induction os as [|o os IH]; intros home; cbn [foldl List.filter length].
  - lia.
  - rewrite IH. destruct o; cbn; lia.
Qed.

(** X21.  The page counts in refreshTrigger the submissions and deletions that
    its components report, and nothing else changes it.  When the panel
    confirms a deletion, with the callbacks that the page gives it: if the
    backend deleted the task, the page closes the panel and refreshTrigger
    grows by one, which changes the dependencies of the list's fetching
    effect; if not, the page stays as it was, the panel open.  When the form
    submits: the selected task stays; refreshTrigger grows by one if the
    backend took the task, and the page stays as it was if the form was not
    sent or the submission failed. *)
Theorem page_follows_components (home : Home.State) :
  (∀ os : list Output,
     Home.refreshTrigger (Home.on_calls os home)
     = (Home.refreshTrigger home + Z.of_nat (length (List.filter refreshing os)))%Z)
  ∧ (∀ (srv : Server) (c : TaskDetails.State) (currentTask' : Task.t),
       TaskDetails.currentTask c = Some currentTask' →
       Task.id currentTask' ≠ EmptyString →
       TaskDetails.isMounted c = true →
       let answer := srv _ TDelete (delete_request (Task.id currentTask')) in
       let home' :=
         Home.on_calls
           (calls (run srv (TaskDetails.confirmDelete apiClient true c c)).2) home in
       (is_Some (fetched answer) →
        Home.details_task home' = None
        ∧ Home.refreshTrigger home' = (Home.refreshTrigger home + 1)%Z
        ∧ ∀ f, Home.list_effect_deps f home' ≠ Home.list_effect_deps f home)
       ∧ (fetched answer = None → home' = home))
  ∧ (∀ (srv : Server) (form : TaskForm.State),
       let answer :=
         srv _ TExecute
           (execute_request (JS.trim (TaskForm.task form)) (TaskForm.selectedRepo form)) in
       let home' :=
         Home.on_calls (calls (run srv (TaskForm.handleSubmit apiClient true form)).2)
           home in
       Home.details_task home' = Home.details_task home
       ∧ (¬ whitespace_only (TaskForm.task form) →
          TaskForm.selectedRepo form ≠ EmptyString →
          is_Some (fetched answer) →
          Home.refreshTrigger home' = (Home.refreshTrigger home + 1)%Z
          ∧ ∀ f, Home.list_effect_deps f home' ≠ Home.list_effect_deps f home)
       ∧ (whitespace_only (TaskForm.task form) ∨ TaskForm.selectedRepo form = EmptyString
          ∨ fetched answer = None →
          home' = home)).
Proof.
  split; [intros os; apply on_calls_refreshTrigger|]. split.
  - intros srv c currentTask' Hc Hid%truthy_true_iff Hm answer home'.
    subst answer home'. unfold TaskDetails.confirmDelete, delete_request.
    rewrite Hc, Hid, Hm.
    cbn [negb orb run bind await ApiClient.deleteTask ApiClient.fetch].
    destruct (srv _ TDelete _) as [[[] status [body|m]]|m]; cbn;
      (split; [intros [x [=]]|]); try (by destruct home).
    split_and!; try done. intros f [=]. lia.
  - intros srv form answer home'. subst answer home'.
    destruct (decide (JS.trim (TaskForm.task form) = EmptyString)) as [Ht|Ht];
      [|destruct (decide (TaskForm.selectedRepo form = EmptyString)) as [Hr|Hr]].
    + rewrite handleSubmit_blocked by (by left). cbn. split_and!; try done.
      intros Hw. by apply trim_empty_iff in Ht.
    + rewrite handleSubmit_blocked by (by right). cbn. by split_and!.
    + rewrite handleSubmit_passed by done. unfold submitted.
      destruct (srv _ TExecute _) as [[[] status [response|m]]|m]; cbn;
        split_and!; try done; try (by intros _ _ [x [=]]); try (by destruct home).
      * intros _ _ _. split; [done|]. intros f [=]. lia.
      * intros [Hw|[Hr'|[=]]]; [by apply trim_empty_iff in Hw|done].
Qed.

Lemma sendFeedback_events (now : string) (srv : Server) (c : TaskDetails.State)
    (currentTask' : Task.t) :
  TaskDetails.currentTask c = Some currentTask' →
  Task.id currentTask' ≠ EmptyString →
  JS.trim (TaskDetails.feedback c) ≠ EmptyString →
  (run srv (TaskDetails.sendFeedback apiClient now c c)).2
  = [Sent (feedback_request (Task.id currentTask') (JS.trim (TaskDetails.feedback c)))].
Proof.
  intros Hc Hid%truthy_true_iff Ht%truthy_true_iff.
  unfold TaskDetails.sendFeedback. rewrite Hc, Hid, Ht.
  cbn [negb orb run bind await ApiClient.sendFeedback ApiClient.fetch].
  unfold feedback_request, ApiClient.json_headers, ApiClient.stringify_feedback_request.
  cbn [FeedbackRequest.feedback].
  by destruct (srv _ TFeedback _) as [[[] status [response|m]]|m].
Qed.

(** X28.  A button that is enabled does something.  When the submit button of
    the form is enabled, its text is Submit Task and submitting sends the
    request for the trimmed description and the selected repository.  When
    the Send Feedback button of the modal is enabled and the displayed task
    has an id, sending sends the request for the trimmed text; and when that
    button is disabled while nothing is being sent, the handler would send
    nothing. *)
Theorem enabled_buttons_send (srv : Server) :
  (∀ (onTaskSubmitted : bool) (user : option GitHubUser.t) (form : TaskForm.State),
     TaskForm.submit_disabled user form = false →
     TaskForm.submit_label user form = "Submit Task"
     ∧ requests (run srv (TaskForm.handleSubmit apiClient onTaskSubmitted form)).2
       = [execute_request (JS.trim (TaskForm.task form)) (TaskForm.selectedRepo form)])
  ∧ (∀ (now : string) (c : TaskDetails.State) (currentTask' : Task.t),
       TaskDetails.currentTask c = Some currentTask' →
       Task.id currentTask' ≠ EmptyString →
       (TaskDetails.send_feedback_disabled c = false →
        (run srv (TaskDetails.sendFeedback apiClient now c c)).2
        = [Sent (feedback_request (Task.id currentTask')
                   (JS.trim (TaskDetails.feedback c)))])
       ∧ (TaskDetails.send_feedback_disabled c = true →
          TaskDetails.sendingFeedback c = false →
          run srv (TaskDetails.sendFeedback apiClient now c c) = (c, []))).
Proof.
  split.
  - intros onTaskSubmitted user form. unfold TaskForm.submit_disabled, TaskForm.submit_label.
    rewrite !orb_false_iff, !negb_false_iff.
    intros [[[Hsub Ht] Hr] Hu]. rewrite Hsub, Hu, Hr. split; [done|].
    apply truthy_true_iff in Ht, Hr.
    by rewrite handleSubmit_passed, requests_submitted.
  - intros now c currentTask' Hc Hid. unfold TaskDetails.send_feedback_disabled. split.
    + rewrite orb_false_iff, negb_false_iff. intros [_ Ht%truthy_true_iff].
      by apply sendFeedback_events.
    + intros Hdisabled Hsending. rewrite Hsending in Hdisabled. cbn in Hdisabled.
      apply negb_true_iff in Hdisabled. apply truthy_true_iff in Hid.
      unfold TaskDetails.sendFeedback. by rewrite Hc, Hid, Hdisabled.
Qed.

Lemma jwt_refreshed_same (n : nat) (token : NextAuth.JWT) :
  jwt_refreshed n token = token.
Proof. unfold jwt_refreshed. induction n as [|n IH]; [done|]. exact IH. Qed.

(** X22.  The access token of the session that the page reads, however many
    times the token was read since the sign-in, is the access_token of the
    account that signed in, and it is the github_token that the panel sends
    when it creates a pull request.  When the account carries no access
    token, the session has none, the Create PR button is not on the page and
    the handler sends nothing.  Without a further sign-in the token keeps what
    it carries. *)
Theorem sign_in_token_reaches_backend (account : NextAuth.Account) (n : nat)
    (token : NextAuth.JWT) (session : Session.t) :
  Session.accessToken (session_after_sign_in account n token session)
  = NextAuth.access_token account
  ∧ (∀ (srv : Server) (c : TaskDetails.State) (currentTask' : Task.t) (tok : string),
       NextAuth.access_token account = Some tok → tok ≠ EmptyString →
       TaskDetails.currentTask c = Some currentTask' →
       Task.id currentTask' ≠ EmptyString →
       requests
         (run srv
            (TaskDetails.createPullRequest apiClient
               (Some (session_after_sign_in account n token session)) c c)).2
       = [create_pr_request (Task.id currentTask')
            (CreatePRRequest.mk tok
               (JS.or_undefined (JS.trim (TaskDetails.prTitle c)))
               (JS.or_undefined (JS.trim (TaskDetails.prBody c))))])
  ∧ (NextAuth.access_token account = None →
     ∀ (srv : Server) (c : TaskDetails.State),
       TaskDetails.create_pr_button_rendered
         (Some (session_after_sign_in account n token session)) c = false
       ∧ run srv
           (TaskDetails.createPullRequest apiClient
              (Some (session_after_sign_in account n token session)) c c)
         = (c, []))
  ∧ Session.accessToken (NextAuth.session session (jwt_refreshed n token))
    = NextAuth.accessToken token.
Proof.
  unfold session_after_sign_in. rewrite !jwt_refreshed_same. cbn. split_and!.
  - done.
  - intros srv c currentTask' tok Htok Hne Hc Hid.
    by apply createPullRequest_requests.
  - intros Hnone srv c.
    unfold TaskDetails.create_pr_button_rendered, TaskDetails.createPullRequest,
      TaskDetails.accessToken. cbn. rewrite Hnone. cbn. split.
    + by rewrite andb_false_r.
    + by destruct (TaskDetails.currentTask c).
  - done.
Qed.

End PageFacts.

(** *** The GitHub context *)

Section GitHubFacts.

Import GitHubAuthContext.

(** X24.  The effect on the session of the GitHub context.  With a token in
    the session it starts two calls to api.github.com, for the user and for
    the repositories, each with the token in its Authorization header, and
    raises isLoading.  The first call that settles lowers isLoading while the
    other one is still awaited.  Once both have settled, in either order, the
    user and the repositories are those fetched, or those held before for a
    call that failed; the error is that of the call that settled last if it
    failed, otherwise that of the other call; a response that is not
    successful gives a fixed message, whatever its status.  Without a token,
    the effect forgets user, repositories and error when the status is
    unauthenticated, and does nothing otherwise; it makes no call. *)
Theorem github_session_effect (session : option Session.t) (status : SessionStatus)
    (user_answer : FetchResult GitHubUser.t)
    (repos_answer : FetchResult (list GitHubRepo.t)) (st : State) :
  let started := (session_effect session status st).1.1 in
  let pending_user := (session_effect session status st).1.2 in
  let pending_repos := (session_effect session status st).2 in
  let user_failure := github_failure "Failed to fetch user data" user_answer in
  let repos_failure := github_failure "Failed to fetch repositories" repos_answer in
  (∀ token,
     session ≫= Session.accessToken = Some token → token ≠ EmptyString →
     request <$> pending_user = Some (github_user_request token)
     ∧ request <$> pending_repos = Some (github_repos_request token)
     ∧ isLoading started = true
     ∧ isLoading (settled pending_user user_answer started) = false
     ∧ isLoading (settled pending_repos repos_answer started) = false
     ∧ user (user_then_repos session status user_answer repos_answer st)
       = match fetched user_answer with Some userData => Some userData | None => user st end
     ∧ user (repos_then_user session status user_answer repos_answer st)
       = match fetched user_answer with Some userData => Some userData | None => user st end
     ∧ repos (user_then_repos session status user_answer repos_answer st)
       = default (repos st) (fetched repos_answer)
     ∧ repos (repos_then_user session status user_answer repos_answer st)
       = default (repos st) (fetched repos_answer)
     ∧ error (user_then_repos session status user_answer repos_answer st)
       = match repos_failure with Some m => Some m | None => user_failure end
     ∧ error (repos_then_user session status user_answer repos_answer st)
       = match user_failure with Some m => Some m | None => repos_failure end
     ∧ isLoading (user_then_repos session status user_answer repos_answer st) = false
     ∧ isLoading (repos_then_user session status user_answer repos_answer st) = false)
  ∧ (JS.truthy_opt (session ≫= Session.accessToken) = false →
     pending_user = None ∧ pending_repos = None
     ∧ (status = unauthenticated →
        user started = None ∧ repos started = [] ∧ error started = None
        ∧ isLoading started = isLoading st)
     ∧ (status ≠ unauthenticated → started = st)).
Proof.
  intros started pending_user pending_repos user_failure repos_failure.
  subst started pending_user pending_repos user_failure repos_failure.
  unfold user_then_repos, repos_then_user, session_effect, fetchUser, fetchRepos,
    accessToken, github_user_request, github_repos_request, github_headers.
  split.
  - intros token -> Htoken%truthy_true_iff. cbn [JS.truthy_opt]. rewrite Htoken.
    cbn [negb fst snd settled settle request fmap option_fmap option_map].
    destruct user_answer as [[[] ustatus [userData|um]]|um],
             repos_answer as [[[] rstatus [reposData|rm]]|rm]; by cbn.
  - intros ->. by case_bool_decide as Hs; split_and!.
Qed.

(** X25.  When a signed-in user's data arrive and the fetch of the
    repositories fails, in either order, on a context that held no
    repositories: the GitHub corner shows the user as connected, and the
    form, in place of the select, says that no repositories were found; the
    error of the fetch is in the state of the context and is shown by
    neither. *)
Theorem repos_failure_is_silent (session : Session.t) (token : string)
    (user_answer : FetchResult GitHubUser.t)
    (repos_answer : FetchResult (list GitHubRepo.t)) (userData : GitHubUser.t)
    (st final : State) (form : TaskForm.State) :
  Session.accessToken session = Some token → token ≠ EmptyString →
  fetched user_answer = Some userData →
  fetched repos_answer = None →
  repos st = [] →
  final = user_then_repos (Some session) authenticated user_answer repos_answer st
  ∨ final = repos_then_user (Some session) authenticated user_answer repos_answer st →
  is_Some (error final)
  ∧ GitHubAuth.GitHubAuth (Some session) authenticated (user final)
      (context_isLoading authenticated final) (error final)
    = GitHubAuth.Connected (GitHubUser.avatar_url userData)
        (if JS.truthy (GitHubUser.name userData) then GitHubUser.name userData
         else GitHubUser.login userData)
  ∧ TaskForm.repo_field (user final) (repos final)
      (context_isLoading authenticated final) form
    = TaskForm.Notice
        "No repositories found. Please make sure you have access to at least one repository.".
Proof.
  intros Htok Htoken%truthy_true_iff Huser Hrepos Hnone Hfinal.
  assert (user final = Some userData ∧ repos final = [] ∧ isLoading final = false
          ∧ is_Some (error final)) as (Hu & Hr & Hl & He).
  { unfold user_then_repos, repos_then_user, session_effect, fetchUser, fetchRepos,
      accessToken in Hfinal. cbn in Hfinal. rewrite Htok in Hfinal.
    cbn in Hfinal. rewrite Htoken in Hfinal. cbn in Hfinal.
    destruct user_answer as [[[] ustatus [userData'|um]]|um]; try done.
    injection Huser as ->.
    destruct repos_answer as [[[] rstatus [reposData|rm]]|rm]; try done;
      destruct Hfinal as [-> | ->]; cbn; by eauto. }
  split; [done|].
  unfold GitHubAuth.GitHubAuth, TaskForm.repo_field, context_isLoading.
  rewrite Hu, Hr, Hl. cbn. done.
Qed.

End GitHubFacts.

(** *** The duration of a task *)

Section DisplayFacts.

(** X17.  The duration shown for a task, in the list and in the panel, is
    computed from the whole seconds between its start and its end, or the
    present moment when it has no end time: below 60 seconds (a negative
    difference included) it is the number of seconds; below one hour it is
    the minutes and the seconds, which add up to the difference; from one
    hour on it is the hours and the minutes, and drops up to 59 seconds. *)
Theorem getDuration_shape (getTime : string → Z) (now : Z) (startTime : string)
    (endTime : option string) :
  let seconds := elapsed_seconds getTime now startTime endTime in
  ((seconds < 60)%Z →
   getDuration getTime now startTime endTime = pretty seconds +:+ "s")
  ∧ ((60 ≤ seconds < 3600)%Z →
     ∃ m s : Z,
       getDuration getTime now startTime endTime
       = pretty m +:+ "m " +:+ pretty s +:+ "s"
       ∧ (1 ≤ m ≤ 59)%Z ∧ (0 ≤ s ≤ 59)%Z ∧ seconds = (60 * m + s)%Z)
  ∧ ((3600 ≤ seconds)%Z →
     ∃ h m : Z,
       getDuration getTime now startTime endTime
       = pretty h +:+ "h " +:+ pretty m +:+ "m"
       ∧ (1 ≤ h)%Z ∧ (0 ≤ m ≤ 59)%Z
       ∧ (3600 * h + 60 * m ≤ seconds < 3600 * h + 60 * m + 60)%Z)
  ∧ (endTime = None →
     seconds = ((now - getTime startTime) / 1000)%Z).
Proof.
  intros seconds. unfold getDuration. fold (elapsed_seconds getTime now startTime endTime).
  fold seconds. cbv zeta. split_and!.
  - intros Hs. by rewrite (proj2 (Z.ltb_lt _ _) Hs).
  - intros [Hlo Hhi].
    rewrite (proj2 (Z.ltb_ge _ _) Hlo), (proj2 (Z.ltb_lt _ _) Hhi).
    exists (seconds / 60)%Z, (Z.rem seconds 60). split; [done|].
    rewrite Z.rem_mod_nonneg by lia.
    pose proof (Z.div_mod seconds 60 ltac:(lia)) as Hdm.
    pose proof (Z.mod_pos_bound seconds 60 ltac:(lia)) as Hb.
    lia.
  - intros Hlo.
    rewrite (proj2 (Z.ltb_ge seconds 60) ltac:(lia)), (proj2 (Z.ltb_ge _ _) Hlo).
    exists (seconds / 3600)%Z, (Z.rem seconds 3600 / 60)%Z. split; [done|].
    rewrite Z.rem_mod_nonneg by lia.
    pose proof (Z.div_mod seconds 3600 ltac:(lia)) as Hdm.
    pose proof (Z.mod_pos_bound seconds 3600 ltac:(lia)) as Hb.
    pose proof (Z.div_mod (seconds mod 3600) 60 ltac:(lia)) as Hdm'.
    pose proof (Z.mod_pos_bound (seconds mod 3600) 60 ltac:(lia)) as Hb'.
    lia.
  - by intros ->.
Qed.

End DisplayFacts.

(** *** The polling hook *)

Section usePollingFacts.

Import usePolling.

Lemma consistent_step (a : Action Callback) (st : State Callback) :
  consistent st → consistent (step a st).1.
Proof.
  intros [Hsaved Htimer]. destruct a as [callback interval enabled| |]; cbn [step fst].
  - unfold render, timer_effect, save_effect.
    destruct (decide (callback_deps st = Some callback));
      (case_decide as Hdeps; [|destruct enabled]); split; cbn in *;
      rewrite ?Hdeps in *; eauto.
  - done.
  - unfold elapse. destruct (active st) as [t|] eqn:Ht.
    + case_decide; split; cbn; try done.
      destruct (timer_deps st) as [[interval []]|]; try done.
      destruct Htimer as (t' & [= <-] & Hp). eauto.
    + split; cbn; [done|].
      by destruct (timer_deps st) as [[interval []]|]; try destruct Htimer as (? & ? & ?).
Qed.

Lemma consistent_steps (acts : list (Action Callback)) (st : State Callback) :
  consistent st → consistent (steps acts st).1.
Proof.
  revert st. induction acts as [|a acts IH]; intros st Hst; [done|].
  cbn [steps]. pose proof (consistent_step a st Hst) as Hstep.
  destruct (step a st) as [st1 calls1]. specialize (IH st1 Hstep).
  by destruct (steps acts st1).
Qed.

Lemma reachable_consistent (st : State Callback) : reachable st → consistent st.
Proof. intros (now & fresh & acts & ->). by apply consistent_steps. Qed.

Lemma due_at_multiple (interval t0 now due : nat) :
  (0 < interval)%nat → (t0 ≤ now)%nat → (now < due ≤ now + interval)%nat →
  ((due - t0) mod interval = 0)%nat →
  ((S now - t0) mod interval = 0)%nat ↔ (due ≤ S now)%nat.
Proof.
  intros Hi Ht0 Hdue Hmod. split.
  - intros Hnow.
    pose proof (Nat.div_mod_eq (due - t0) interval) as H1.
    pose proof (Nat.div_mod_eq (S now - t0) interval) as H2.
    rewrite Hmod in H1. rewrite Hnow in H2.
    destruct (decide (due ≤ S now)%nat) as [|Hgt]; [done|exfalso].
    set (q1 := ((due - t0) / interval)%nat) in *.
    set (q2 := ((S now - t0) / interval)%nat) in *.
    assert (q2 < q1)%nat as Hq by nia.
    assert (interval * (q2 + 1) ≤ interval * q1)%nat by (apply Nat.mul_le_mono_l; lia).
    lia.
  - intros Hle. assert (due = S now) as <- by lia. done.
Qed.

Lemma next_due_multiple (interval t0 due : nat) :
  (0 < interval)%nat → (t0 ≤ due)%nat →
  ((due - t0) mod interval = 0)%nat → ((due + interval - t0) mod interval = 0)%nat.
Proof.
  intros Hi Ht0 Hmod.
  replace (due + interval - t0)%nat with (due - t0 + 1 * interval)%nat by lia.
  by rewrite Nat.Div0.mod_add.
Qed.

Lemma ticking_steps (interval t0 : nat) (acts : list (Action Callback))
    (latest : Callback) (st : State Callback) :
  (0 < interval)%nat → ticking interval t0 latest st → Forall (keeps_timer interval) acts →
  (steps acts st).2 = expected_calls interval t0 (clock st) latest acts.
Proof.
  intros Hi. revert latest st.
  induction acts as [|a acts IH]; intros latest st Hst Hacts; [done|].
  apply Forall_cons in Hacts as [Ha Hacts].
  destruct Hst as (Hsaved & Hcb & Hdeps & t & Ht & Hp & Hdue & Ht0 & Hmod).
  destruct a as [callback interval' enabled| |]; [|done|].
  - destruct Ha as [-> ->]. cbn [steps step expected_calls].
    assert (ticking interval t0 callback (render callback interval true st)) as Hst'.
    { unfold render, timer_effect, save_effect.
      destruct (decide (callback_deps st = Some callback)) as [Heq|Hne]; cbn;
        rewrite Hdeps, decide_True by done.
      - assert (latest = callback) as -> by congruence.
        repeat split; eauto 10.
      - repeat split; cbn; eauto 10. }
    specialize (IH callback _ Hst' Hacts).
    assert (clock (render callback interval true st) = clock st) as Hclock.
    { unfold render, timer_effect, save_effect.
      by repeat (case_decide; cbn). }
    rewrite Hclock in IH. destruct (steps acts _). by rewrite <- IH.
  - cbn [steps step expected_calls]. unfold elapse. rewrite Ht.
    pose proof (due_at_multiple interval t0 (clock st) (due t) Hi Ht0 Hdue Hmod) as Hiff.
    destruct (decide (due t ≤ S (clock st))%nat) as [Hfire|Hwait].
    + rewrite decide_True by (by apply Hiff).
      match goal with |- context [steps acts ?st'] => specialize (IH latest st') end.
      destruct (steps acts _) as [st2 calls2]. cbn [snd tick savedCallback clock].
      rewrite Hsaved. cbn [app]. f_equal. apply IH; [|done].
      repeat split; cbn; try done. eexists. split; [done|]. cbn.
      split_and!; try lia. rewrite Hp. apply next_due_multiple; [done|lia|done].
    + rewrite decide_False by (by rewrite Hiff).
      match goal with |- context [steps acts ?st'] => specialize (IH latest st') end.
      destruct (steps acts _) as [st2 calls2]. cbn [snd app].
      apply IH; [|done].
      repeat split; cbn; try done. exists t. split_and!; try done; lia.
Qed.

Lemma render_starts_ticking (callback : Callback) (interval : nat) (st : State Callback) :
  (0 < interval)%nat → consistent st → timer_deps st ≠ Some (interval, true) →
  ticking interval (clock st) callback (render callback interval true st).
Proof.
  intros Hi [Hsaved _] Hdeps. unfold render, timer_effect, save_effect.
  destruct (decide (callback_deps st = Some callback)) as [Heq|Hne]; cbn;
    rewrite decide_False by done; cbn; rewrite ?Hsaved.
  - repeat split; try done. eexists. split; [done|]. cbn.
    split_and!; try lia. replace (clock st + interval - clock st)%nat with interval by lia.
    apply Nat.Div0.mod_same.
  - repeat split; try done. eexists. split; [done|]. cbn.
    split_and!; try lia. replace (clock st + interval - clock st)%nat with interval by lia.
    apply Nat.Div0.mod_same.
Qed.

Lemma render_clock (callback : Callback) (interval : nat) (enabled : bool)
    (st : State Callback) :
  clock (render callback interval enabled st) = clock st.
Proof.
  unfold render, timer_effect, save_effect.
  by repeat (case_decide; cbn); destruct enabled.
Qed.

(** Without an interval, time passes and nothing is called. *)
Lemma idle_steps (n : nat) (st : State Callback) :
  active st = None → (steps (replicate n Elapse) st).2 = [].
Proof.
  revert st. induction n as [|n IH]; intros st Hst; [done|].
  cbn [replicate steps step]. unfold elapse. rewrite Hst.
  match goal with |- context [steps _ ?st'] => specialize (IH st' eq_refl) end.
  destruct (steps _ _). cbn in *. done.
Qed.

Lemma render_disabled (callback : Callback) (interval : nat) (st : State Callback) :
  consistent st → active (render callback interval false st) = None.
Proof.
  intros [_ Htimer]. unfold render, timer_effect, save_effect.
  destruct (decide (callback_deps st = Some callback)); cbn.
  - case_decide as Hdeps; [|done]. by rewrite Hdeps in Htimer.
  - case_decide as Hdeps; [|done]. by rewrite Hdeps in Htimer.
Qed.

Lemma render_same_deps (callback : Callback) (interval : nat) (enabled : bool)
    (st : State Callback) :
  consistent st → timer_deps st = Some (interval, enabled) →
  active (render callback interval enabled st) = active st
  ∧ savedCallback (render callback interval enabled st) = Some callback.
Proof.
  intros [Hsaved _] Hdeps. unfold render, timer_effect, save_effect.
  destruct (decide (callback_deps st = Some callback)) as [Heq|Hne]; cbn;
    rewrite Hdeps, decide_True by done; [|done].
  split; [done|]. congruence.
Qed.

(** C7.  (1) After a render that sets the interval (a mount, or a new interval
    or enabled flag) with enabled true, and for as long as the component only
    renders again with the same interval, still enabled, the saved callback is
    called once every interval milliseconds, and each call goes to the callback
    of the latest render.  (2) A render that changes the callback alone leaves
    the running interval as it is, same timer and same due time, and saves the
    new callback.  (3) A render with enabled false leaves no interval running,
    and no call is made afterwards, however long.  (4) So does tearing the
    component down. *)
Theorem usePolling_contract :
  (∀ (st : State Callback) (callback : Callback) (interval : nat)
     (acts : list (Action Callback)),
     reachable st → (0 < interval)%nat → timer_deps st ≠ Some (interval, true) →
     Forall (keeps_timer interval) acts →
     (steps acts (render callback interval true st)).2 =
     expected_calls interval (clock st) (clock st) callback acts)
  ∧ (∀ (st : State Callback) (callback : Callback) (interval : nat) (enabled : bool),
       reachable st → timer_deps st = Some (interval, enabled) →
       active (render callback interval enabled st) = active st
       ∧ savedCallback (render callback interval enabled st) = Some callback)
  ∧ (∀ (st : State Callback) (callback : Callback) (interval n : nat),
       reachable st →
       active (render callback interval false st) = None
       ∧ (steps (replicate n Elapse) (render callback interval false st)).2 = [])
  ∧ (∀ (st : State Callback) (n : nat),
       active (unmount st) = None
       ∧ (steps (replicate n Elapse) (unmount st)).2 = []).
Proof.
  split_and!.
  - intros st callback interval acts Hst%reachable_consistent Hi Hdeps Hacts.
    rewrite (ticking_steps interval (clock st) acts callback); try done.
    + by rewrite render_clock.
    + by apply render_starts_ticking.
  - intros st callback interval enabled Hst%reachable_consistent Hdeps.
    by apply render_same_deps.
  - intros st callback interval n Hst%reachable_consistent.
    pose proof (render_disabled callback interval st Hst) as Hnone.
    split; [done|]. by apply idle_steps.
  - intros st n. split; [done|]. by apply idle_steps.
Qed.

(** The quotient by the interval grows by one exactly at its multiples. *)
Lemma div_succ (a i : nat) :
  (0 < i)%nat →
  ((S a mod i = 0)%nat → (S a / i = S (a / i))%nat ∧ (S a = S (a / i) * i)%nat)
  ∧ ((S a mod i ≠ 0)%nat → (S a / i = a / i)%nat).
Proof.
  intros Hi.
  pose proof (Nat.div_mod_eq a i) as Ha.
  pose proof (Nat.mod_upper_bound a i ltac:(lia)) as Hr.
  set (q := (a / i)%nat) in *. set (r := (a mod i)%nat) in *.
  destruct (decide (S r = i)) as [Heq|Hne].
  - assert (S a = i * S q + 0)%nat as Hsa by nia.
    pose proof (Nat.div_unique (S a) i (S q) 0 ltac:(lia) Hsa) as Hdiv.
    pose proof (Nat.mod_unique (S a) i (S q) 0 ltac:(lia) Hsa) as Hmod.
    split; [|by rewrite <- Hmod]. intros _. rewrite <- Hdiv. split; [done|nia].
  - assert (S a = i * q + S r)%nat as Hsa by lia.
    pose proof (Nat.div_unique (S a) i q (S r) ltac:(lia) Hsa) as Hdiv.
    pose proof (Nat.mod_unique (S a) i q (S r) ltac:(lia) Hsa) as Hmod.
    split; [rewrite <- Hmod; lia|]. intros _. by rewrite <- Hdiv.
Qed.

(** While time only passes, the calls expected are those at the multiples of
    the interval that fall in the window. *)
Lemma expected_calls_elapse (interval t0 now n : nat) (latest : Callback) :
  (0 < interval)%nat → (t0 ≤ now)%nat →
  expected_calls interval t0 now latest (replicate n Elapse)
  = (λ k, (t0 + k * interval, latest)%nat)
      <$> seq (S ((now - t0) / interval))
            ((now + n - t0) / interval - (now - t0) / interval).
Proof.
  intros Hi. revert now. induction n as [|n IH]; intros now Hnow.
  - rewrite Nat.add_0_r, Nat.sub_diag. done.
  - cbn [replicate expected_calls]. rewrite IH by lia.
    replace (S now + n - t0)%nat with (now + S n - t0)%nat by lia.
    replace (S now - t0)%nat with (S (now - t0)) by lia.
    assert ((S (now - t0)) / interval ≤ (now + S n - t0) / interval)%nat as Hmono
      by (apply Nat.Div0.div_le_mono; lia).
    destruct (div_succ (now - t0) interval Hi) as [Hzero Hpos].
    case_decide as Hmod.
    + destruct (Hzero Hmod) as [Hq Hsa]. rewrite Hq in *.
      replace ((now + S n - t0) / interval - (now - t0) / interval)%nat
        with (S ((now + S n - t0) / interval - S ((now - t0) / interval))) by lia.
      cbn [seq fmap list_fmap app]. f_equal. f_equal. lia.
    + rewrite (Hpos Hmod). done.
Qed.

(** X23.  After a render that sets the interval with enabled true, and while
    time only passes, the callback of that render is called at the times
    clock + interval, clock + 2 * interval, and so on, and at no other time:
    in a window of n milliseconds it is called n / interval times. *)
Theorem polls_at_multiples (st : State Callback) (callback : Callback)
    (interval n : nat) :
  reachable st → (0 < interval)%nat → timer_deps st ≠ Some (interval, true) →
  (steps (replicate n Elapse) (render callback interval true st)).2
  = (λ k, (clock st + k * interval, callback)%nat) <$> seq 1 (n / interval)
  ∧ length (steps (replicate n Elapse) (render callback interval true st)).2
    = (n / interval)%nat.
Proof.
  intros Hst%reachable_consistent Hi Hdeps.
  assert ((steps (replicate n Elapse) (render callback interval true st)).2
          = (λ k, (clock st + k * interval, callback)%nat) <$> seq 1 (n / interval))
    as Hcalls.
  { rewrite (ticking_steps interval (clock st) _ callback); try done.
    - rewrite render_clock, expected_calls_elapse by done.
      rewrite Nat.sub_diag, Nat.Div0.div_0_l, Nat.sub_0_r.
      by replace (clock st + n - clock st)%nat with n by lia.
    - by apply render_starts_ticking.
    - by apply Forall_replicate. }
  split; [done|]. by rewrite Hcalls, length_fmap, length_seq.
Qed.

End usePollingFacts.

(** *** The API client, all operations *)

(** C4.  Each operation of the client performs one round-trip.  It throws
    whenever the response is not successful; for a response whose body is JSON
    it throws only then, and otherwise returns the parsed body as the record of
    the operation (for the running and the completed tasks, the record made of
    the running_tasks or completed_tasks and the count of the body).  On a JSON
    body, the error thrown by createPullRequest and sendFeedback carries the
    error message of the body when the body has a non-empty one and the HTTP
    status otherwise; the error thrown by the other operations carries the HTTP
    status. *)
Theorem api_client_operations (this : ApiClient.t) :
  (∀ task repository,
     performs (ApiClient.executeTask this task repository) POST
       (ApiClient.baseUrl this +:+ "/execute") TExecute id (λ _, None))
  ∧ (∀ taskId,
       performs (ApiClient.getTaskStatus this taskId) GET
         (ApiClient.baseUrl this +:+ "/status/" +:+ taskId) TStatus id (λ _, None))
  ∧ performs (ApiClient.listAllTasks this) GET
      (ApiClient.baseUrl this +:+ "/tasks") TTasks id (λ _, None)
  ∧ performs (ApiClient.listRunningTasks this) GET
      (ApiClient.baseUrl this +:+ "/running") TRunning
      (λ data, TaskListResponse.mk (RunningData.running_tasks data)
                 (RunningData.count data))
      (λ _, None)
  ∧ performs (ApiClient.listCompletedTasks this) GET
      (ApiClient.baseUrl this +:+ "/completed") TCompleted
      (λ data, TaskListResponse.mk (CompletedData.completed_tasks data)
                 (CompletedData.count data))
      (λ _, None)
  ∧ (∀ taskId,
       performs (ApiClient.getTaskContent this taskId) GET
         (ApiClient.baseUrl this +:+ "/content/" +:+ taskId) TContent id (λ _, None))
  ∧ (∀ taskId,
       performs (ApiClient.deleteTask this taskId) DELETE
         (ApiClient.baseUrl this +:+ "/delete/" +:+ taskId) TDelete id (λ _, None))
  ∧ (∀ taskId request,
       performs (ApiClient.createPullRequest this taskId request) POST
         (ApiClient.baseUrl this +:+ "/create-pr/" +:+ taskId) TCreatePR id
         (λ errorData, supplied (CreatePRResponse.error errorData)))
  ∧ (∀ taskId request,
       performs (ApiClient.sendFeedback this taskId request) POST
         (ApiClient.baseUrl this +:+ "/feedback/" +:+ taskId) TFeedback id
         (λ errorData, supplied (FeedbackResponse.error errorData))).
Proof.
  split_and!; intros;
    auto using executeTask_performs, getTaskStatus_performs, listAllTasks_performs,
      listRunningTasks_performs, listCompletedTasks_performs, getTaskContent_performs,
      deleteTask_performs, createPullRequest_performs, sendFeedback_performs.
Qed.

(** X8.  Each operation of the client, when the call itself fails (no
    response), throws the error of the failure after that one request.  When
    the body of the response is not JSON, an operation throws the error of the
    parser if the response is successful; if it is not, createPullRequest and
    sendFeedback still throw the error of the parser, since they read the body
    first, and the seven other operations throw the HTTP status. *)
Theorem api_client_failures (this : ApiClient.t) :
  (∀ task repository,
     fails (ApiClient.executeTask this task repository) POST
       (ApiClient.baseUrl this +:+ "/execute") TExecute false)
  ∧ (∀ taskId,
       fails (ApiClient.getTaskStatus this taskId) GET
         (ApiClient.baseUrl this +:+ "/status/" +:+ taskId) TStatus false)
  ∧ fails (ApiClient.listAllTasks this) GET
      (ApiClient.baseUrl this +:+ "/tasks") TTasks false
  ∧ fails (ApiClient.listRunningTasks this) GET
      (ApiClient.baseUrl this +:+ "/running") TRunning false
  ∧ fails (ApiClient.listCompletedTasks this) GET
      (ApiClient.baseUrl this +:+ "/completed") TCompleted false
  ∧ (∀ taskId,
       fails (ApiClient.getTaskContent this taskId) GET
         (ApiClient.baseUrl this +:+ "/content/" +:+ taskId) TContent false)
  ∧ (∀ taskId,
       fails (ApiClient.deleteTask this taskId) DELETE
         (ApiClient.baseUrl this +:+ "/delete/" +:+ taskId) TDelete false)
  ∧ (∀ taskId request,
       fails (ApiClient.createPullRequest this taskId request) POST
         (ApiClient.baseUrl this +:+ "/create-pr/" +:+ taskId) TCreatePR true)
  ∧ (∀ taskId request,
       fails (ApiClient.sendFeedback this taskId request) POST
         (ApiClient.baseUrl this +:+ "/feedback/" +:+ taskId) TFeedback true).
Proof.
  split_and!; intros;
    auto using executeTask_fails, getTaskStatus_fails, listAllTasks_fails,
      listRunningTasks_fails, listCompletedTasks_fails, getTaskContent_fails,
      deleteTask_fails, createPullRequest_fails, sendFeedback_fails.
Qed.

End Properties.

(** * Worked examples *)





(** The scenario of the spec: feedback on the task of session sess-1. *)
Lemma feedback_example :
  TaskDetails.feedback_success_modal
    (after_feedback local_client "2026-01-01T11:00:00.000Z"
       (with_feedback (ok_with accepted_feedback) offline) panel_with_feedback)
  = Some (Some "fb-789")
  ∧ TaskDetails.polling_enabled
      (after_feedback local_client "2026-01-01T11:00:00.000Z"
         (with_feedback (ok_with accepted_feedback) offline) panel_with_feedback)
    = true.
Proof.
  destruct (feedback_success_starts_feedback_task local_client (Some completed_task)
              "2026-01-01T11:00:00.000Z"
              (with_feedback (ok_with accepted_feedback) offline) panel_with_feedback
              completed_task (Response.mk true 200 (Parsed accepted_feedback))
              accepted_feedback)
    as (_ & Hmodal & _ & Henabled & _); try reflexivity.
  - discriminate.
  - intros [Hf _]. discriminate Hf.
  - split; [exact Hmodal|exact Henabled].
Defined.

(** The button is enabled on a diff of a signed-in user's completed task. *)
Lemma create_pr_example :
  TaskContentResponse.is_git_repo diff_content = true
  ∧ TaskDetails.create_pr_enabled signed_in (panel_with diff_content) = true.
Proof.
  destruct (create_pr_enabled_only_when signed_in (panel_with diff_content))
    as [(content & Hcontent & Hgit) _]; [reflexivity|].
  injection Hcontent as <-. split; [exact Hgit|reflexivity].
Defined.

(** The button is enabled as well when the content of the git repository is
    a list of files: the content is no diff and no diff is displayed. *)
Lemma create_pr_enabled_without_diff :
  TaskDetails.create_pr_enabled signed_in (panel_with files_content) = true
  ∧ TaskContentResponse.content_type files_content = ContentType.files
  ∧ ContentType.files ≠ ContentType.diff
  ∧ TaskDetails.diff_rendered (panel_with files_content) = false.
Proof. split_and!; [reflexivity|reflexivity|discriminate|reflexivity]. Qed.

(** One file of each type. *)
Lemma getFileType_example :
  TaskDetails.getFileType (TaskDetails.mkDiffFile (Some "/dev/null") (Some "b.txt"))
  = TaskDetails.add
  ∧ TaskDetails.getFileType (TaskDetails.mkDiffFile (Some "a.txt") None)
    = TaskDetails.delete
  ∧ TaskDetails.getFileType (TaskDetails.mkDiffFile (Some "a.txt") (Some "b.txt"))
    = TaskDetails.rename
  ∧ TaskDetails.getFileType (TaskDetails.mkDiffFile (Some "a.txt") (Some "a.txt"))
    = TaskDetails.modify.
Proof.
  split_and!.
  - apply (getFileType_classification _). reflexivity.
  - apply (getFileType_classification _); [discriminate|reflexivity].
  - apply (getFileType_classification _); discriminate.
  - apply (getFileType_classification _); [discriminate|discriminate|reflexivity].
Defined.

(** The scenario of the spec: the request sent, and the calls made when the
    backend accepts the task. *)
Lemma submit_example :
  requests (run accepting (TaskForm.handleSubmit local_client true filled_form)).2
  = [add_readme_request local_client]
  ∧ calls (run accepting (TaskForm.handleSubmit local_client true filled_form)).2
    = [PreventDefault; OnTaskSubmitted "task-42"]
  ∧ TaskForm.task (run accepting (TaskForm.handleSubmit local_client true filled_form)).1
    = EmptyString.
Proof.
  destruct (submit_add_readme_scenario local_client true filled_form accepting
              (Response.mk true 200 (Parsed (ExecuteTaskResponse.mk "task-42" "Task started")))
              (ExecuteTaskResponse.mk "task-42" "Task started"))
    as [Hreq Hok]; [reflexivity|reflexivity|].
  destruct Hok as (Htask & _ & _ & Hcalls); [reflexivity|reflexivity|reflexivity|].
  split_and!; [exact Hreq|exact Hcalls|exact Htask].
Defined.

(** A padded description is sent trimmed; a blank one is not sent. *)
Lemma trimmed_submit_example :
  requests (run accepting (TaskForm.handleSubmit local_client true padded_form)).2
  = [execute_request local_client "add README" "octo/repo"]
  ∧ run accepting (TaskForm.handleSubmit local_client true blank_form)
    = (blank_form, [Out PreventDefault]).
Proof.
  split.
  - destruct (handleSubmit_trims_or_does_nothing local_client true padded_form accepting)
      as [Hsent _]. apply Hsent.
    + intros [_ [_ [Ha _]]]. discriminate Ha.
    + discriminate.
  - destruct (handleSubmit_trims_or_does_nothing local_client true blank_form accepting)
      as (_ & _ & Hblocked). apply Hblocked. left. repeat split.
Defined.

(** The running filter against a backend with one running task. *)
Lemma running_filter_example :
  (run (with_running (ok_with (RunningData.mk [running_task] 1%Z)) offline)
     (TasksList.fetchTasks local_client (TasksList.mkState [] true None TasksList.running))).2
  = [Sent (running_request local_client)]
  ∧ (run (with_running (ok_with (RunningData.mk [running_task] 1%Z)) offline)
       (ApiClient.listRunningTasks local_client)).1
    = Ok (TaskListResponse.mk [running_task] 1%Z).
Proof.
  destruct (fetchTasks_by_filter local_client
              (TasksList.mkState [] true None TasksList.running)
              (with_running (ok_with (RunningData.mk [running_task] 1%Z)) offline))
    as [Hrunning _].
  destruct Hrunning as [Hsent Hmapped]; [reflexivity|].
  split; [exact Hsent|].
  apply (Hmapped (Response.mk true 200 (Parsed (RunningData.mk [running_task] 1%Z)))
           (RunningData.mk [running_task] 1%Z)); reflexivity.
Defined.

(** A pull request refused with a message, and a submission refused without. *)
Lemma api_errors_example :
  (run (with_create_pr
          (failed_with 422
             (CreatePRResponse.mk false None None None None (Some "No changes to commit")))
          offline)
     (ApiClient.createPullRequest local_client "abc123"
        (CreatePRRequest.mk "gho_token" None None))).1
  = Throw (ErrorObject "No changes to commit")
  ∧ (run (with_execute (failed_with 500 (ExecuteTaskResponse.mk EmptyString "boom")) offline)
       (ApiClient.executeTask local_client "add README" (Some "octo/repo"))).1
    = Throw (ErrorObject "HTTP error! status: 500").
Proof.
  destruct (api_client_operations local_client)
    as (Hexecute & _ & _ & _ & _ & _ & _ & Hpr & _).
  split.
  - destruct (Hpr "abc123" (CreatePRRequest.mk "gho_token" None None))
      as (req & _ & _ & Hcontract).
    destruct (Hcontract
                (with_create_pr
                   (failed_with 422
                      (CreatePRResponse.mk false None None None None
                         (Some "No changes to commit")))
                   offline)
                (Response.mk false 422
                   (Parsed (CreatePRResponse.mk false None None None None
                              (Some "No changes to commit"))))
                eq_refl)
      as (_ & _ & Hbody).
    destruct (Hbody (CreatePRResponse.mk false None None None None
                       (Some "No changes to commit")) eq_refl) as [_ Hfail].
    exact (Hfail eq_refl).
  - destruct (Hexecute "add README" (Some "octo/repo")) as (req & _ & _ & Hcontract).
    destruct (Hcontract
                (with_execute (failed_with 500 (ExecuteTaskResponse.mk EmptyString "boom")) offline)
                (Response.mk false 500 (Parsed (ExecuteTaskResponse.mk EmptyString "boom")))
                eq_refl)
      as (_ & _ & Hbody).
    destruct (Hbody (ExecuteTaskResponse.mk EmptyString "boom") eq_refl) as [_ Hfail].
    exact (Hfail eq_refl).
Defined.

(** A hook mounted at time 0 with an interval of 3 ms, rendered again with a
    new callback after 4 ms: one call every 3 ms, the second to the new
    callback. *)
Lemma usePolling_example :
  (usePolling.steps
     [usePolling.Elapse; usePolling.Elapse; usePolling.Elapse; usePolling.Elapse;
      usePolling.Render "second" 3 true;
      usePolling.Elapse; usePolling.Elapse; usePolling.Elapse]
     (usePolling.render "first" 3 true (usePolling.mounting 0 0))).2
  = [(3%nat, "first"); (6%nat, "second")].
Proof.
  destruct (@usePolling_contract string _) as [Hperiodic _].
  rewrite Hperiodic.
  - reflexivity.
  - exists 0%nat, 0%nat, []. reflexivity.
  - lia.
  - discriminate.
  - repeat constructor.
Defined.

(** A failed poll changes nothing. *)
Lemma swallowed_error_example :
  run offline (TaskDetails.silentRefreshTask local_client (Some running_task) panel panel)
  = (panel, [Sent (status_request local_client "abc123")]).
Proof.
  apply (silent_poll_swallows_errors local_client (Some running_task) offline panel
           running_task); try reflexivity; try exact I.
  discriminate.
Defined.

(** The feedback task fb-789 completes while the task prop is still abc123:
    the poll asks for the status of fb-789 and for the content of abc123. *)
Lemma content_of_prop_example :
  (run feedback_completed
     (TaskDetails.silentRefreshTask local_client (Some completed_task)
        panel_on_feedback_task panel_on_feedback_task)).2
  = [Sent (status_request local_client "fb-789");
     Sent (content_request local_client "abc123")].
Proof.
  apply (silent_poll_fetches_content_of_prop local_client (Some completed_task)
           feedback_completed panel_on_feedback_task completed_task feedback_task
           feedback_task_completed
           (Response.mk true 200 (Parsed feedback_task_completed)));
    try reflexivity; discriminate.
Defined.

(** The feedback button is shown for the completed task of session sess-1. *)
Lemma feedback_button_example :
  ∃ displayed sid,
    TaskDetails.currentTask (panel_with diff_content) = Some displayed
    ∧ Task.session_id displayed = Some sid ∧ sid ≠ EmptyString
    ∧ (Task.status displayed = Status.completed ∨ Task.status displayed = Status.failed).
Proof. apply (feedback_button_only_when (panel_with diff_content)). reflexivity. Defined.

(** The submit button of the filled form of a connected user. *)
Lemma submit_button_example :
  TaskForm.isSubmitting filled_form = false
  ∧ ¬ whitespace_only (TaskForm.task filled_form)
  ∧ TaskForm.selectedRepo filled_form ≠ EmptyString
  ∧ is_Some (Some connected_user).
Proof.
  apply (submit_enabled_only_when (Some connected_user) filled_form). reflexivity.
Defined.

(** The scenario of the spec: deleting the task abc123, accepted and refused. *)
Lemma delete_example :
  requests
    (run (with_delete (ok_with deleted) offline)
       (TaskDetails.confirmDelete local_client true
          (panel_with diff_content) (panel_with diff_content))).2
  = [delete_request local_client "abc123"]
  ∧ calls
      (run (with_delete (ok_with deleted) offline)
         (TaskDetails.confirmDelete local_client true
            (panel_with diff_content) (panel_with diff_content))).2
    = [OnTaskDeleted "abc123"; OnClose]
  ∧ TaskDetails.error
      (run (with_delete (failed_with 404 deleted) offline)
         (TaskDetails.confirmDelete local_client true
            (panel_with diff_content) (panel_with diff_content))).1
    = Some "HTTP error! status: 404".
Proof.
  split_and!.
  - destruct (confirm_delete_scenario local_client true
                (with_delete (ok_with deleted) offline) (panel_with diff_content)
                completed_task) as [Hreq _]; [reflexivity|discriminate|reflexivity|].
    exact Hreq.
  - destruct (confirm_delete_scenario local_client true
                (with_delete (ok_with deleted) offline) (panel_with diff_content)
                completed_task) as (_ & Hok & _); [reflexivity|discriminate|reflexivity|].
    destruct (Hok (Response.mk true 200 (Parsed deleted)) deleted) as [Hcalls _];
      [reflexivity..|]. exact Hcalls.
  - destruct (confirm_delete_scenario local_client true
                (with_delete (failed_with 404 deleted) offline) (panel_with diff_content)
                completed_task) as (_ & _ & Hfail); [reflexivity|discriminate|reflexivity|].
    destruct (Hfail (Response.mk false 404 (Parsed deleted))) as (_ & Herror & _);
      [reflexivity..|]. exact Herror.
Defined.

(** A pull request created for the completed task. *)
Lemma create_pr_success_example :
  calls
    (run (with_create_pr (ok_with pr_created) offline)
       (TaskDetails.createPullRequest local_client signed_in
          (panel_with diff_content) (panel_with diff_content))).2
  = [WindowOpen "https://github.com/octo/repo/pull/7" "_blank";
     Alert "Pull request created successfully! PR #7"].
Proof.
  destruct (create_pull_request_success local_client signed_in
              (with_create_pr (ok_with pr_created) offline) (panel_with diff_content)
              completed_task "gho_token" "https://github.com/octo/repo/pull/7"
              (Response.mk true 200 (Parsed pr_created)) pr_created)
    as [Hevents _];
    [reflexivity|discriminate|reflexivity|discriminate|reflexivity|reflexivity
    |reflexivity|reflexivity|reflexivity|discriminate|].
  rewrite Hevents. reflexivity.
Defined.

(** The client on a backend that cannot be reached: the error of the call. *)
Lemma api_offline_example :
  ∃ req,
    Request.url req = "http://localhost:8080/create-pr/abc123"
    ∧ run offline
        (ApiClient.createPullRequest local_client "abc123"
           (CreatePRRequest.mk "gho_token" None None))
      = (Throw (ErrorObject "Failed to fetch"), [Sent req]).
Proof.
  destruct (api_client_failures local_client) as (_ & _ & _ & _ & _ & _ & _ & Hpr & _).
  destruct (Hpr "abc123" (CreatePRRequest.mk "gho_token" None None))
    as (req & _ & Hurl & Hfails).
  exists req. split; [exact Hurl|].
  destruct (Hfails offline) as [Hrejected _]. apply Hrejected. reflexivity.
Defined.

(** The modal opened on the completed task, and the request made from it. *)
Lemma fresh_modal_example :
  requests
    (run offline
       (TaskDetails.createPullRequest local_client signed_in
          (TaskDetails.handleCreatePR (panel_with diff_content) (panel_with diff_content))
          (TaskDetails.handleCreatePR (panel_with diff_content)
             (panel_with diff_content)))).2
  = [create_pr_request local_client "abc123"
       (CreatePRRequest.mk "gho_token" (Some "AI Generated Changes: add README")
          (Some (JS.trim (TaskDetails.default_pr_body completed_task))))].
Proof.
  destruct (fresh_modal_sends_defaults local_client signed_in offline
              (panel_with diff_content) completed_task "gho_token")
    as (_ & Hreq & _);
    [reflexivity|discriminate|reflexivity|discriminate|reflexivity|reflexivity|].
  exact Hreq.
Defined.

(** A pull request that the backend refuses with the status 400. *)
Lemma create_pr_refused_example :
  calls
    (run (with_create_pr (failed_with 400 pr_refused) offline)
       (TaskDetails.createPullRequest local_client signed_in
          (panel_with diff_content) (panel_with diff_content))).2
  = []
  ∧ TaskDetails.error
      (run (with_create_pr (failed_with 400 pr_refused) offline)
         (TaskDetails.createPullRequest local_client signed_in
            (panel_with diff_content) (panel_with diff_content))).1
    = Some "No changes to commit".
Proof.
  destruct (create_pull_request_outcome local_client signed_in
              (with_create_pr (failed_with 400 pr_refused) offline)
              (panel_with diff_content) completed_task "gho_token")
    as (_ & _ & _ & _ & Hrefused & _);
    [reflexivity|discriminate|reflexivity|discriminate|].
  destruct Hrefused as (Hcalls & _ & Herror).
  - intros url (response & Hfetched & _). discriminate Hfetched.
  - split; [exact Hcalls|exact Herror].
Defined.

(** A feedback that the backend answers without accepting it: the text stays
    in the open modal and no error is shown. *)
Lemma feedback_refused_example :
  TaskDetails.feedback
    (run (with_feedback (ok_with refused_feedback) offline)
       (TaskDetails.sendFeedback local_client "2026-01-01T11:00:00.000Z"
          panel_with_feedback panel_with_feedback)).1
  = "fix the typo"
  ∧ TaskDetails.showFeedbackModal
      (run (with_feedback (ok_with refused_feedback) offline)
         (TaskDetails.sendFeedback local_client "2026-01-01T11:00:00.000Z"
            panel_with_feedback panel_with_feedback)).1
    = true
  ∧ TaskDetails.error
      (run (with_feedback (ok_with refused_feedback) offline)
         (TaskDetails.sendFeedback local_client "2026-01-01T11:00:00.000Z"
            panel_with_feedback panel_with_feedback)).1
    = None.
Proof.
  destruct (send_feedback_outcome local_client "2026-01-01T11:00:00.000Z"
              (with_feedback (ok_with refused_feedback) offline)
              panel_with_feedback completed_task)
    as [_ Hsent]; [reflexivity|discriminate|].
  destruct Hsent as (_ & _ & Hkept).
  - intros [Hspace _]. discriminate Hspace.
  - destruct Hkept as (_ & _ & Hmodal & Htext & _ & _ & Herror); [reflexivity|].
    split_and!; [exact Htext|exact Hmodal|exact Herror].
Defined.

(** The Refresh button on a panel that displays the feedback task of the
    task that it was given. *)
Lemma manual_refresh_example :
  (run feedback_completed
     (TaskDetails.refreshTask local_client (Some completed_task)
        panel_on_feedback_task panel_on_feedback_task)).2
  = [Sent (status_request local_client "fb-789");
     Sent (content_request local_client "abc123")]
  ∧ TaskDetails.currentTask
      (run feedback_completed
         (TaskDetails.refreshTask local_client (Some completed_task)
            panel_on_feedback_task panel_on_feedback_task)).1
    = Some feedback_task_completed.
Proof.
  destruct (manual_refresh_outcome local_client (Some completed_task) feedback_completed
              panel_on_feedback_task feedback_task completed_task)
    as (Hfetched & _);
    [reflexivity|discriminate|reflexivity|reflexivity|discriminate|].
  destruct (Hfetched feedback_task_completed) as (Hevents & Htask & _); [reflexivity|].
  split; [exact Hevents|exact Htask].
Defined.

(** The panel opened on the running task while the status cannot be had: the
    content is fetched all the same, and no error is shown. *)
Lemma task_effect_example :
  (run content_only
     (TaskDetails.task_effect local_client (Some running_task) panel panel)).2
  = [Sent (status_request local_client "abc123");
     Sent (content_request local_client "abc123")]
  ∧ TaskDetails.currentTask
      (run content_only
         (TaskDetails.task_effect local_client (Some running_task) panel panel)).1
    = Some running_task
  ∧ TaskDetails.taskContent
      (run content_only
         (TaskDetails.task_effect local_client (Some running_task) panel panel)).1
    = Some diff_content
  ∧ TaskDetails.error
      (run content_only
         (TaskDetails.task_effect local_client (Some running_task) panel panel)).1
    = None.
Proof.
  destruct (task_effect_outcome local_client (Some running_task) content_only panel)
    as [Hgiven _]; [reflexivity|].
  destruct (Hgiven running_task) as (Hevents & Htask & Hcontent & Herror & _);
    [reflexivity|discriminate|].
  split_and!; [exact Hevents|exact Htask|exact Hcontent|exact Herror].
Defined.

(** The panel after a round of feedback. *)
Lemma panel_invariants_example :
  TaskDetails.isMounted
    (acts local_client (Some running_task) signed_in feedback_round panel) = true
  ∧ (is_Some (Some running_task) →
     is_Some (TaskDetails.currentTask
                (acts local_client (Some running_task) signed_in feedback_round panel)))
  ∧ (TaskDetails.showFeedbackSuccess
       (acts local_client (Some running_task) signed_in feedback_round panel) = true
     ↔ is_Some (TaskDetails.feedbackTaskId
                  (acts local_client (Some running_task) signed_in feedback_round panel)))
  ∧ at_rest (acts local_client (Some running_task) signed_in feedback_round panel).
Proof.
  apply (panel_invariants local_client (Some running_task) signed_in).
  exists feedback_round. reflexivity.
Defined.

(** The list of completed tasks when the backend fails: the task shown stays,
    with the error. *)
Lemma failed_list_example :
  TasksList.tasks
    (run (with_completed (failed_with 500 (CompletedData.mk [] 0%Z)) offline)
       (TasksList.fetchTasks local_client completed_list)).1
  = [completed_task]
  ∧ TasksList.error
      (run (with_completed (failed_with 500 (CompletedData.mk [] 0%Z)) offline)
         (TasksList.fetchTasks local_client completed_list)).1
    = Some "HTTP error! status: 500".
Proof.
  destruct (fetchTasks_outcome local_client completed_list
              (with_completed (failed_with 500 (CompletedData.mk [] 0%Z)) offline))
    as (_ & _ & Htasks & Herror & _).
  split; [exact Htasks|exact Herror].
Defined.

(** A submission while the backend cannot be reached. *)
Lemma failed_submission_example :
  TaskForm.task (run offline (TaskForm.handleSubmit local_client true filled_form)).1
  = "add README"
  ∧ TaskForm.error (run offline (TaskForm.handleSubmit local_client true filled_form)).1
    = Some "Failed to fetch"
  ∧ calls (run offline (TaskForm.handleSubmit local_client true filled_form)).2
    = [PreventDefault].
Proof.
  destruct (failed_submission_keeps_form local_client true filled_form offline)
    as (Htask & _ & _ & Herror & _ & _ & Hcalls).
  - intros [Hspace _]. discriminate Hspace.
  - discriminate.
  - reflexivity.
  - split_and!; [exact Htask|exact Herror|exact Hcalls].
Defined.

(** The option of a private repository with a long description. *)
Lemma option_label_example :
  ∃ shown,
    TaskForm.option_label described_repo
    = "octo/repo (Private) - " +:+ shown
    ∧ (String.length shown ≤ 63)%nat.
Proof.
  destruct (option_label_shape described_repo) as [_ Hdescribed].
  destruct (Hdescribed
              "A dashboard for coding tasks that run in the background, with pull requests")
    as (shown & Hlabel & Hlength & _); [reflexivity|discriminate|].
  exists shown. split; [exact Hlabel|exact Hlength].
Defined.

(** The page when the panel deletes the completed task. *)
Lemma page_example :
  Home.on_calls
    (calls
       (run (with_delete (ok_with deleted) offline)
          (TaskDetails.confirmDelete local_client true
             (panel_with diff_content) (panel_with diff_content))).2)
    page_with_panel
  = Home.mkState None 4%Z
  ∧ Home.on_calls
      (calls
         (run offline
            (TaskDetails.confirmDelete local_client true
               (panel_with diff_content) (panel_with diff_content))).2)
      page_with_panel
    = page_with_panel.
Proof.
  destruct (page_follows_components local_client page_with_panel) as (_ & Hdelete & _).
  split.
  - destruct (Hdelete (with_delete (ok_with deleted) offline) (panel_with diff_content)
                completed_task) as [Hdeleted _]; [reflexivity|discriminate|reflexivity|].
    destruct Hdeleted as (Htask & Htrigger & _); [by eexists|].
    destruct (Home.on_calls _ _) as [selected trigger].
    cbn in Htask, Htrigger. by rewrite Htask, Htrigger.
  - destruct (Hdelete offline (panel_with diff_content) completed_task)
      as [_ Hkept]; [reflexivity|discriminate|reflexivity|].
    apply Hkept. reflexivity.
Defined.

(** The token of the account, three readings of the session after the
    sign-in, in the request for a pull request. *)
Lemma sign_in_example :
  requests
    (run offline
       (TaskDetails.createPullRequest local_client
          (Some (session_after_sign_in octo_account 3 (NextAuth.mkJWT None)
                   (Session.mk None)))
          (panel_with diff_content) (panel_with diff_content))).2
  = [create_pr_request local_client "abc123" (CreatePRRequest.mk "gho_token" None None)].
Proof.
  destruct (sign_in_token_reaches_backend local_client octo_account 3
              (NextAuth.mkJWT None) (Session.mk None)) as (_ & Hsent & _).
  apply (Hsent offline (panel_with diff_content) completed_task "gho_token");
    [reflexivity|discriminate|reflexivity|discriminate].
Defined.

(** Three and a half seconds of a poll every second. *)
Lemma polls_at_multiples_example :
  (usePolling.steps (replicate 3500 usePolling.Elapse)
     (usePolling.render "poll" 1000 true (usePolling.mounting 0 0))).2
  = [(1000%nat, "poll"); (2000%nat, "poll"); (3000%nat, "poll")].
Proof.
  destruct (@polls_at_multiples string _ (usePolling.mounting 0 0) "poll" 1000 3500)
    as [Hcalls _].
  - exists 0%nat, 0%nat, []. reflexivity.
  - lia.
  - discriminate.
  - rewrite Hcalls. reflexivity.
Defined.

(** Both calls of the context refused: the error depends on the order. *)
Lemma github_errors_example :
  GitHubAuthContext.error
    (user_then_repos (Some octo_session) GitHubAuthContext.authenticated
       (failed_with 401 connected_user) (failed_with 500 []) GitHubAuthContext.initial)
  = Some "Failed to fetch repositories"
  ∧ GitHubAuthContext.error
      (repos_then_user (Some octo_session) GitHubAuthContext.authenticated
         (failed_with 401 connected_user) (failed_with 500 []) GitHubAuthContext.initial)
    = Some "Failed to fetch user data".
Proof.
  destruct (github_session_effect (Some octo_session) GitHubAuthContext.authenticated
              (failed_with 401 connected_user) (failed_with 500 [])
              GitHubAuthContext.initial) as [Htoken _].
  destruct (Htoken "gho_token")
    as (_ & _ & _ & _ & _ & _ & _ & _ & _ & Hfirst & Hsecond & _);
    [reflexivity|discriminate|].
  split; [exact Hfirst|exact Hsecond].
Defined.

(** The user arrives, the repositories do not. *)
Lemma repos_failure_example :
  GitHubAuth.GitHubAuth (Some octo_session) GitHubAuthContext.authenticated
    (GitHubAuthContext.user
       (user_then_repos (Some octo_session) GitHubAuthContext.authenticated
          (ok_with connected_user) (failed_with 500 []) GitHubAuthContext.initial))
    (GitHubAuthContext.context_isLoading GitHubAuthContext.authenticated
       (user_then_repos (Some octo_session) GitHubAuthContext.authenticated
          (ok_with connected_user) (failed_with 500 []) GitHubAuthContext.initial))
    (GitHubAuthContext.error
       (user_then_repos (Some octo_session) GitHubAuthContext.authenticated
          (ok_with connected_user) (failed_with 500 []) GitHubAuthContext.initial))
  = GitHubAuth.Connected "https://avatars.example/octo.png" "Octo Cat".
Proof.
  destruct (repos_failure_is_silent octo_session "gho_token" (ok_with connected_user)
              (failed_with 500 []) connected_user GitHubAuthContext.initial
              (user_then_repos (Some octo_session) GitHubAuthContext.authenticated
                 (ok_with connected_user) (failed_with 500 [])
                 GitHubAuthContext.initial)
              filled_form)
    as (_ & Hview & _);
    [reflexivity|discriminate|reflexivity|reflexivity|reflexivity|by left|].
  exact Hview.
Defined.

(** The panel mounted on the running task: its effect asks for the status and
    the content; during the two seconds and a half that follow, one firing
    finds the task completed, and there is no second firing. *)
Lemma panel_schedule_example :
  (panel_polling local_client (Some running_task) 0 0 still_running).2
  = [Sent (status_request local_client "abc123");
     Sent (content_request local_client "abc123")]
  ∧ (panel_elapses local_client (Some running_task) completing_in_time
       (panel_polling local_client (Some running_task) 0 0 still_running).1).2
    = [Sent (status_request local_client "abc123");
       Sent (content_request local_client "abc123")].
Proof.
  destruct (panel_polls_on_schedule local_client (Some running_task) still_running
              completing_in_time 0 0) as (Hmount & _ & _ & Hevents & _).
  split.
  - apply (Hmount running_task); [reflexivity|discriminate].
  - etrans; [exact Hevents|]. vm_compute. reflexivity.
Defined.

(** The list mounted while a task runs: its effect fetches the tasks; during
    the five seconds that follow, one fetch, which brings no running task. *)
Lemma list_schedule_example :
  (list_polling local_client 0 0 listing_running).2 = [Sent (tasks_request local_client)]
  ∧ (list_elapses local_client listing_in_time
       (list_polling local_client 0 0 listing_running).1).2
    = [Sent (tasks_request local_client)].
Proof.
  destruct (list_polls_on_schedule local_client listing_running listing_in_time 0 0)
    as (Hmount & _ & Hevents & _).
  split; [exact Hmount|].
  etrans; [exact Hevents|]. vm_compute. reflexivity.
Defined.

(** The filled form of a connected user, and the typed feedback. *)
Lemma enabled_buttons_example :
  TaskForm.submit_label (Some connected_user) filled_form = "Submit Task"
  ∧ (run offline
       (TaskDetails.sendFeedback local_client "2026-01-01T11:00:00.000Z"
          panel_with_feedback panel_with_feedback)).2
    = [Sent (feedback_request local_client "abc123" "fix the typo")].
Proof.
  destruct (enabled_buttons_send local_client offline) as [Hsubmit Hsend].
  split.
  - destruct (Hsubmit true (Some connected_user) filled_form) as [Hlabel _];
      [reflexivity|exact Hlabel].
  - destruct (Hsend "2026-01-01T11:00:00.000Z" panel_with_feedback completed_task)
      as [Henabled _]; [reflexivity|discriminate|].
    apply Henabled. reflexivity.
Defined.

(** A fenced text of one line: a header and no code. *)
Lemma code_block_example :
  TaskDetails.code_block "npm install"
  = TaskDetails.Code (Some "npm install") "text-green-400" EmptyString.
Proof.
  destruct (code_block_shape "npm install")
    as (first & rest & Hsplit & _ & _ & _ & Hlanguage).
  vm_compute in Hsplit. injection Hsplit as <- <-.
  destruct Hlanguage as [Hblock _].
  - intros [Hspace _]. discriminate Hspace.
  - exact Hblock.
Defined.

(** The message with a block of code. *)
Lemma message_body_example :
  TaskDetails.message_body sample_message
  = TaskDetails.Pieces
      [TaskDetails.Html "Run:<br>";
       TaskDetails.Code (Some "bash") "text-cyan-300" ("npm test" +:+ JS.LF);
       TaskDetails.Html "<br>Done"].
Proof.
  destruct (message_body_pieces sample_message) as (_ & _ & _ & Hpieces).
  destruct Hpieces as (text & code & rest & Hsplit & Hbody); [reflexivity|].
  vm_compute in Hsplit. injection Hsplit as <- <- <-.
  etrans; [exact Hbody|]. reflexivity.
Defined.

(** The default title for a long task: cut, and within the bound. *)
Lemma default_title_example :
  ∃ shown,
    TaskDetails.default_pr_title long_task = "AI Generated Changes: " +:+ shown
    ∧ (String.length (TaskDetails.default_pr_title long_task) ≤ 85)%nat.
Proof.
  destruct (default_pr_title_shape long_task) as (shown & Htitle & _ & _ & Hbound).
  exists shown. split; [exact Htitle|exact Hbound].
Defined.

(** A list of files from a git repository: the list is what is shown. *)
Lemma content_sections_example :
  ∃ content file files,
    TaskDetails.taskContent (panel_with files_content) = Some content
    ∧ TaskContentResponse.content_type content = ContentType.files
    ∧ TaskContentResponse.content content = ContentFiles (file :: files).
Proof.
  destruct (content_sections_exclusive (panel_with files_content))
    as (_ & _ & Hfiles & _).
  apply Hfiles. reflexivity.
Defined.

(** The completed task ran for two minutes. *)
Lemma duration_example :
  getDuration time_value 0%Z "2026-01-01T10:00:00.000Z" (Some "2026-01-01T10:02:00.000Z")
  = "2m 0s".
Proof.
  destruct (getDuration_shape time_value 0%Z "2026-01-01T10:00:00.000Z"
              (Some "2026-01-01T10:02:00.000Z")) as (_ & Hminutes & _).
  destruct Hminutes as (m & s & Htext & Hm & Hs & Hsum); [by vm_compute|].
  change (elapsed_seconds _ _ _ _) with 120%Z in Hsum.
  assert (m = 2%Z) as -> by lia. assert (s = 0%Z) as -> by lia.
  exact Htext.
Defined.
